(** * Newsroom search service: a shallow embedding of [newsroom/search.py]

    The development follows the source file top-down: Python values and the
    builtins the service relies on, the [SearchQuery] context, the external
    collaborators (identity store, product store, index, configuration) as an
    environment of oracles, then the stages of [BaseSearchService] one by one,
    and finally the properties of the pipeline. *)

From Stdlib Require Import ZArith List String Ascii Bool Lia.
From Stdlib Require Import DecimalString.
Import ListNotations.

Set Warnings "-register-all".

Local Open Scope Z_scope.
Local Open Scope list_scope.

(** ** Python values *)

(** The JSON-like fragment of Python values that request arguments, records of
    the stores and query clauses are made of.  A [dict] keeps insertion order,
    as Python's does, because the serialised request depends on it. *)
Inductive pyval : Type :=
| VNone
| VBool (b : bool)
| VInt (z : Z)
| VStr (s : string)
| VList (l : list pyval)
| VDict (d : list (string * pyval)).

Definition dict : Type := list (string * pyval).

(** Truth value of an object ([if x:], [x or y], [not x]). *)
Definition truthy (v : pyval) : bool :=
  match v with
  | VNone => false
  | VBool b => b
  | VInt z => negb (z =? 0)
  | VStr s => negb (String.eqb s EmptyString)
  | VList l => match l with [] => false | _ => true end
  | VDict d => match d with [] => false | _ => true end
  end.

(** [x or y] *)
Definition py_or (x y : pyval) : pyval := if truthy x then x else y.

(** ** Dictionaries *)

Fixpoint dict_find (k : string) (d : dict) : option pyval :=
  match d with
  | [] => None
  | (k', v) :: r => if String.eqb k k' then Some v else dict_find k r
  end.

(** [d.get(k)] *)
Definition dict_get (d : dict) (k : string) : pyval :=
  match dict_find k d with Some v => v | None => VNone end.

(** [d.get(k, default)] *)
Definition dict_get_default (d : dict) (k : string) (default : pyval) : pyval :=
  match dict_find k d with Some v => v | None => default end.

(** [d[k] = v]: an existing key keeps its position, a new key goes last. *)
Fixpoint dict_set (d : dict) (k : string) (v : pyval) : dict :=
  match d with
  | [] => [(k, v)]
  | (k', v') :: r =>
      if String.eqb k k' then (k', v) :: r else (k', v') :: dict_set r k v
  end.

(** ** Equality, membership, iteration *)

Definition Z_of_bool (b : bool) : Z := if b then 1 else 0.

(** [a == b].  Booleans compare as the integers 0 and 1; dictionaries compare
    as mappings, whatever the order of their keys. *)
Fixpoint py_eqb (a b : pyval) {struct a} : bool :=
  match a, b with
  | VNone, VNone => true
  | VBool x, VBool y => Bool.eqb x y
  | VBool x, VInt y => Z_of_bool x =? y
  | VInt x, VBool y => x =? Z_of_bool y
  | VInt x, VInt y => x =? y
  | VStr x, VStr y => String.eqb x y
  | VList l1, VList l2 =>
      (fix go (l1 l2 : list pyval) {struct l1} : bool :=
         match l1, l2 with
         | [], [] => true
         | x :: xs, y :: ys => py_eqb x y && go xs ys
         | _, _ => false
         end) l1 l2
  | VDict d1, VDict d2 =>
      Nat.eqb (List.length d1) (List.length d2) &&
      (fix go (d1 : list (string * pyval)) {struct d1} : bool :=
         match d1 with
         | [] => true
         | (k, v) :: r =>
             match dict_find k d2 with
             | Some v2 => py_eqb v v2
             | None => false
             end && go r
         end) d1
  | _, _ => false
  end.

(** [x in [..]] *)
Definition list_contains (l : list pyval) (x : pyval) : bool :=
  existsb (fun y => py_eqb x y) l.

Fixpoint is_substring (sub s : string) : bool :=
  String.prefix sub s ||
  match s with
  | EmptyString => false
  | String _ r => is_substring sub r
  end.

(** ** Errors *)

(** What a call of the service can raise: [flask.abort(code, description)],
    the content API's [BadParameterValueError], and the interpreter's own
    errors at the places where the source can meet them. *)
Inductive exn : Type :=
| HTTPException (code : Z) (description : string)
| BadParameterValueError (message : string)
| TypeError
| ValueError
| KeyError (key : string)
| IndexError
| AttributeError
| RecursionError.

Inductive Res (A : Type) : Type :=
| Ok (a : A)
| Raise (e : exn).
Arguments Ok {A} a.
Arguments Raise {A} e.

(** [x in container] *)
Definition py_contains (container x : pyval) : Res bool :=
  match container with
  | VList l => Ok (list_contains l x)
  | VStr s =>
      match x with
      | VStr sub => Ok (is_substring sub s)
      | _ => Raise TypeError
      end
  | VDict d =>
      match x with
      | VStr k => Ok (match dict_find k d with Some _ => true | None => false end)
      | _ => Ok false
      end
  | _ => Raise TypeError
  end.

Fixpoint chars_of (s : string) : list pyval :=
  match s with
  | EmptyString => []
  | String c r => VStr (String c EmptyString) :: chars_of r
  end.

(** [for p in v]: the elements of a list, the characters of a string, the keys
    of a dictionary. *)
Definition py_iter (v : pyval) : Res (list pyval) :=
  match v with
  | VList l => Ok l
  | VStr s => Ok (chars_of s)
  | VDict d => Ok (map (fun kv => VStr (fst kv)) d)
  | _ => Raise TypeError
  end.

(** ** Strings and integers *)

(** [s.split(sep)] for a one-character separator. *)
Fixpoint split_on (sep : ascii) (s : string) : list string :=
  match s with
  | EmptyString => [EmptyString]
  | String c r =>
      if Ascii.eqb c sep then EmptyString :: split_on sep r
      else match split_on sep r with
           | [] => [String c EmptyString]
           | w :: ws => String c w :: ws
           end
  end.

(** The characters [int] strips around a literal, a string being read as
    code points below 256: the white space of ASCII (9 to 13 and 32) and the
    two other spaces there, U+0085 and U+00A0.  (The separators 28 to 31 are
    not stripped.) *)
Definition is_space (c : ascii) : bool :=
  let n := nat_of_ascii c in
  (Nat.eqb n 32 || (Nat.leb 9 n && Nat.leb n 13) || Nat.eqb n 133 || Nat.eqb n 160)%bool.

Definition digit_of (c : ascii) : option Z :=
  let n := nat_of_ascii c in
  if (Nat.leb 48 n && Nat.leb n 57)%bool then Some (Z.of_nat (n - 48)) else None.

Fixpoint lstrip (s : string) : string :=
  match s with
  | String c r => if is_space c then lstrip r else s
  | EmptyString => EmptyString
  end.

(** The digits of a decimal literal, after the first one: single underscores
    may separate digits, white space may follow the last digit. *)
Fixpoint int_digits (acc : Z) (after_underscore : bool) (s : string) : option Z :=
  match s with
  | EmptyString => if after_underscore then None else Some acc
  | String c r =>
      match digit_of c with
      | Some d => int_digits (acc * 10 + d) false r
      | None =>
          if after_underscore then None
          else if Ascii.eqb c "_"%char then int_digits acc true r
          else if String.eqb (lstrip s) EmptyString then Some acc
          else None
      end
  end.

Definition int_unsigned (s : string) : option Z :=
  match s with
  | String c r =>
      match digit_of c with
      | Some d => int_digits d false r
      | None => None
      end
  | EmptyString => None
  end.

(** [sys.int_max_str_digits] at its default: the digits a string may hold for
    [int] to read it (CPython 3.11 and later). *)
Definition int_max_str_digits : Z := 4300.

(** The digits of a string, leading zeros among them, underscores not. *)
Fixpoint count_digits (s : string) : Z :=
  match s with
  | EmptyString => 0
  | String c r =>
      match digit_of c with Some _ => 1 | None => 0 end + count_digits r
  end.

(** [int(s)], base 10, on a string read as code points below 256: white
    space around the literal, a sign, decimal digits that single underscores
    may separate; [None] is [ValueError].  The only decimal digits below 256
    are those of ASCII. *)
Definition int_of_str (s : string) : option Z :=
  if int_max_str_digits <? count_digits s then None
  else
    match lstrip s with
    | String "-"%char r => option_map Z.opp (int_unsigned r)
    | String "+"%char r => int_unsigned r
    | t => int_unsigned t
    end.

(** [int(v)] *)
Definition py_int (v : pyval) : Res Z :=
  match v with
  | VInt z => Ok z
  | VBool b => Ok (Z_of_bool b)
  | VStr s => match int_of_str s with Some z => Ok z | None => Raise ValueError end
  | _ => Raise TypeError
  end.

(** ['%d' % z] *)
Definition str_of_int (z : Z) : string := NilZero.string_of_int (Z.to_int z).

(** ** Documents, cursors and requests *)

(** An item of the index.  [doc_id] is the [_id] every stored item carries;
    [doc_nextversion] and [doc_original_id] are what [doc.get('nextversion')]
    and [doc.get('original_id')] return ([VNone] when the key is absent). *)
Record Doc : Type := mkDoc {
  doc_id : string;
  doc_nextversion : pyval;
  doc_original_id : pyval;
  doc_fields : dict
}.

(** The cursor the data layer answers with: the documents of the page and
    [count()], the total number of hits. *)
Record Cursor : Type := mkCursor {
  docs : list Doc;
  count : Z
}.

(** [req.args] of the endpoint's request: a multi-dict (it has [to_dict], which
    copies), a plain [dict] (shared with the caller), or anything else. *)
Inductive ReqArgs : Type :=
| MultiDict (d : dict)
| PlainDict (d : dict)
| OtherArgs.

Record ParsedRequest : Type := mkReq {
  req_args : ReqArgs;
  req_projection : pyval;
  req_sort : pyval
}.

(** The request as the query context holds it in [search.req].  When the
    request's [args] is a plain dictionary, [search.args] names that very
    object, and what the stages write to one is read through the other: the
    reference [SearchArgs] stands for it.  Any other [args] is an object of
    its own ([to_dict] has copied it). *)
Inductive ArgsRef : Type :=
| SearchArgs
| OwnArgs (a : ReqArgs).

Record RequestRef : Type := mkRef {
  ref_args : ArgsRef;
  ref_projection : pyval;
  ref_sort : pyval
}.

Definition ref_of (r : ParsedRequest) : RequestRef :=
  mkRef match req_args r with
        | PlainDict _ => SearchArgs
        | a => OwnArgs a
        end
        (req_projection r) (req_sort r).

(** Clauses a filter contributes to the three lists of the boolean query. *)
Record Clauses : Type := mkClauses {
  add_must : list pyval;
  add_must_not : list pyval;
  add_should : list pyval
}.

(** ** External collaborators *)

(** Everything the service imports or reaches through [app]: none of it is
    changed by a search, so each is a function of its arguments. *)
Record Env : Type := mkEnv {
  (* newsroom.auth.get_user(required=False) *)
  get_user : option dict;
  (* newsroom.template_filters.is_admin *)
  is_admin : option dict -> bool;
  (* get_resource_service('users').find_one(req=None, _id=...) *)
  find_user : pyval -> option dict;
  (* newsroom.companies.get_user_company *)
  get_user_company : option dict -> option dict;
  (* newsroom.products.products *)
  get_products_by_navigation : list pyval -> pyval -> list dict;
  get_product_by_id : pyval -> pyval -> option pyval -> list dict;
  get_products_by_company : pyval -> list pyval -> pyval -> list dict;
  (* get_resource_service('section_filters') *)
  section_filter_clauses : pyval -> Clauses;
  (* app.config *)
  analyze_wildcard : pyval;
  WIRE_AGGS : pyval;
  COMPANY_TYPES : list dict;
  FILTER_BY_POST_FILTER : pyval;
  FILTER_AGGREGATIONS : pyval;
  (* newsroom.settings.get_setting *)
  get_setting : string -> pyval;
  (* app.data.elastic.should_highlight, superdesk's get_elastic_highlight_query *)
  should_highlight : option ParsedRequest -> bool;
  get_elastic_highlight_query : pyval -> dict;
  (* newsroom.utils *)
  get_local_date : pyval -> pyval -> Z -> pyval;
  get_end_date : pyval -> pyval -> pyval;
  (* flask.json *)
  json_dumps : pyval -> string;
  json_loads : pyval -> Res pyval;
  (* Service.get of the parent class: the index answers a request *)
  index_get : dict -> pyval -> Cursor;
  (* Service.find_one(req=None, _id=...) *)
  find_one : pyval -> option Doc;
  (* frames the interpreter grants to a recursion *)
  recursion_limit : nat
}.

(** ** The query context *)

(** [SearchQuery]: one instance per call of [get]. *)
Record SearchQuery : Type := mkSearch {
  user : option dict;
  search_is_admin : bool;
  company : option dict;
  section : pyval;
  navigation_ids : list pyval;
  products : list dict;
  requested_products : list pyval;
  args : dict;
  lookup : pyval;
  projections : pyval;
  req : option RequestRef;
  aggs : pyval;
  source : dict;
  query : pyval;
  highlight : pyval
}.

(** [SearchQuery.__init__] *)
Definition SearchQuery_init : SearchQuery :=
  {| user := None;
     search_is_admin := false;
     company := None;
     section := VNone;
     navigation_ids := [];
     products := [];
     requested_products := [];
     args := [];
     lookup := VDict [];
     projections := VDict [];
     req := None;
     aggs := VNone;
     source := [];
     query := VDict [("bool"%string,
                      VDict [("must"%string, VList []);
                             ("must_not"%string, VList []);
                             ("should"%string, VList [])])];
     highlight := VNone |}.

Definition set_user (v : option dict) (s : SearchQuery) : SearchQuery :=
  mkSearch v (search_is_admin s) (company s) (section s) (navigation_ids s) (products s)
    (requested_products s) (args s) (lookup s) (projections s) (req s) (aggs s)
    (source s) (query s) (highlight s).
Definition set_is_admin (v : bool) (s : SearchQuery) : SearchQuery :=
  mkSearch (user s) v (company s) (section s) (navigation_ids s) (products s)
    (requested_products s) (args s) (lookup s) (projections s) (req s) (aggs s)
    (source s) (query s) (highlight s).
Definition set_company (v : option dict) (s : SearchQuery) : SearchQuery :=
  mkSearch (user s) (search_is_admin s) v (section s) (navigation_ids s) (products s)
    (requested_products s) (args s) (lookup s) (projections s) (req s) (aggs s)
    (source s) (query s) (highlight s).
Definition set_section (v : pyval) (s : SearchQuery) : SearchQuery :=
  mkSearch (user s) (search_is_admin s) (company s) v (navigation_ids s) (products s)
    (requested_products s) (args s) (lookup s) (projections s) (req s) (aggs s)
    (source s) (query s) (highlight s).
Definition set_navigation_ids (v : list pyval) (s : SearchQuery) : SearchQuery :=
  mkSearch (user s) (search_is_admin s) (company s) (section s) v (products s)
    (requested_products s) (args s) (lookup s) (projections s) (req s) (aggs s)
    (source s) (query s) (highlight s).
Definition set_products (v : list dict) (s : SearchQuery) : SearchQuery :=
  mkSearch (user s) (search_is_admin s) (company s) (section s) (navigation_ids s) v
    (requested_products s) (args s) (lookup s) (projections s) (req s) (aggs s)
    (source s) (query s) (highlight s).
Definition set_requested_products (v : list pyval) (s : SearchQuery) : SearchQuery :=
  mkSearch (user s) (search_is_admin s) (company s) (section s) (navigation_ids s) (products s)
    v (args s) (lookup s) (projections s) (req s) (aggs s)
    (source s) (query s) (highlight s).
Definition set_args (v : dict) (s : SearchQuery) : SearchQuery :=
  mkSearch (user s) (search_is_admin s) (company s) (section s) (navigation_ids s) (products s)
    (requested_products s) v (lookup s) (projections s) (req s) (aggs s)
    (source s) (query s) (highlight s).
Definition set_lookup (v : pyval) (s : SearchQuery) : SearchQuery :=
  mkSearch (user s) (search_is_admin s) (company s) (section s) (navigation_ids s) (products s)
    (requested_products s) (args s) v (projections s) (req s) (aggs s)
    (source s) (query s) (highlight s).
Definition set_projections (v : pyval) (s : SearchQuery) : SearchQuery :=
  mkSearch (user s) (search_is_admin s) (company s) (section s) (navigation_ids s) (products s)
    (requested_products s) (args s) (lookup s) v (req s) (aggs s)
    (source s) (query s) (highlight s).
Definition set_req (v : option RequestRef) (s : SearchQuery) : SearchQuery :=
  mkSearch (user s) (search_is_admin s) (company s) (section s) (navigation_ids s) (products s)
    (requested_products s) (args s) (lookup s) (projections s) v (aggs s)
    (source s) (query s) (highlight s).
Definition set_source (v : dict) (s : SearchQuery) : SearchQuery :=
  mkSearch (user s) (search_is_admin s) (company s) (section s) (navigation_ids s) (products s)
    (requested_products s) (args s) (lookup s) (projections s) (req s) (aggs s)
    v (query s) (highlight s).
Definition set_query (v : pyval) (s : SearchQuery) : SearchQuery :=
  mkSearch (user s) (search_is_admin s) (company s) (section s) (navigation_ids s) (products s)
    (requested_products s) (args s) (lookup s) (projections s) (req s) (aggs s)
    (source s) v (highlight s).
Definition set_highlight (v : pyval) (s : SearchQuery) : SearchQuery :=
  mkSearch (user s) (search_is_admin s) (company s) (section s) (navigation_ids s) (products s)
    (requested_products s) (args s) (lookup s) (projections s) (req s) (aggs s)
    (source s) (query s) v.

(** [if record:] for a user or company record that may be [None]. *)
Definition truthy_record (r : option dict) : bool :=
  match r with
  | Some (_ :: _) => true
  | _ => false
  end.

(** ** A state and error monad *)

(** A statement of the source: it reads and writes the state and either
    returns or raises; the state at the point of the raise is kept, since
    objects shared with the caller keep what was written to them. *)
Definition M (S A : Type) : Type := S -> Res A * S.

Definition ret {S A : Type} (a : A) : M S A := fun s => (Ok a, s).

Definition raise {S A : Type} (e : exn) : M S A := fun s => (Raise e, s).

Definition bind {S A B : Type} (m : M S A) (f : A -> M S B) : M S B :=
  fun s =>
    match m s with
    | (Ok a, s') => f a s'
    | (Raise e, s') => (Raise e, s')
    end.

Definition gets {S A : Type} (f : S -> A) : M S A := fun s => (Ok (f s), s).

Definition modify {S : Type} (f : S -> S) : M S unit := fun s => (Ok tt, f s).

Definition lift_res {S A : Type} (r : Res A) : M S A := fun s => (r, s).

Declare Scope monad_scope.
Delimit Scope monad_scope with monad.
Notation "x <- m ;; k" := (bind m (fun x => k))
  (at level 61, m at next level, right associativity) : monad_scope.
Notation "m ;; k" := (bind m (fun _ => k))
  (at level 61, right associativity) : monad_scope.
Local Open Scope monad_scope.

(** [for x in l: body(x)] *)
Fixpoint for_each {S A : Type} (l : list A) (body : A -> M S unit) : M S unit :=
  match l with
  | [] => ret tt
  | x :: r => body x ;; for_each r body
  end.

(** ** Helpers on values *)

(** [d[k]] *)
Definition dict_item (d : dict) (k : string) : Res pyval :=
  match dict_find k d with
  | Some v => Ok v
  | None => Raise (KeyError k)
  end.

(** [v[k]] for a value expected to be a dictionary. *)
Definition py_item (v : pyval) (k : string) : Res pyval :=
  match v with
  | VDict d => dict_item d k
  | _ => Raise TypeError
  end.

(** [len(v)] *)
Definition py_len (v : pyval) : Res Z :=
  match v with
  | VList l => Ok (Z.of_nat (List.length l))
  | VDict d => Ok (Z.of_nat (List.length d))
  | VStr s => Ok (Z.of_nat (String.length s))
  | _ => Raise TypeError
  end.

(** [q['bool'][key] += clauses] ([append] is the case of one clause). *)
Definition bool_extend (key : string) (clauses : list pyval) (q : pyval) : Res pyval :=
  match q with
  | VDict qd =>
      match dict_find "bool" qd with
      | Some (VDict b) =>
          match dict_find key b with
          | Some (VList l) =>
              Ok (VDict (dict_set qd "bool" (VDict (dict_set b key (VList (l ++ clauses))))))
          | Some _ => Raise AttributeError
          | None => Raise (KeyError key)
          end
      | Some _ => Raise TypeError
      | None => Raise (KeyError "bool")
      end
  | _ => Raise TypeError
  end.

Definition set_arg (k : string) (v : pyval) (s : SearchQuery) : SearchQuery :=
  set_args (dict_set (args s) k v) s.

Definition set_source_item (k : string) (v : pyval) (s : SearchQuery) : SearchQuery :=
  set_source (dict_set (source s) k v) s.

(** [search.query['bool'][key] += clauses] *)
Definition extend_clauses (key : string) (clauses : list pyval) : M SearchQuery unit :=
  fun s =>
    match bool_extend key clauses (query s) with
    | Ok q => (Ok tt, set_query q s)
    | Raise x => (Raise x, s)
    end.

(** [search.query['bool'][key].append(clause)] *)
Definition append_clause (key : string) (clause : pyval) : M SearchQuery unit :=
  extend_clauses key [clause].

(** The request object as the callee sees it: when its [args] is the plain
    dictionary that [search.args] names too, it shows what was written there. *)
Definition current_req (s : SearchQuery) : option ParsedRequest :=
  match req s with
  | Some r =>
      Some (mkReq match ref_args r with
                  | SearchArgs => PlainDict (args s)
                  | OwnArgs a => a
                  end
                  (ref_projection r) (ref_sort r))
  | None => None
  end.

(** ** Class attributes of [BaseSearchService] *)

Definition section_attr : pyval := VStr "wire".
Definition limit_days_setting : option string := Some "wire_time_limit_days"%string.
Definition default_sort : pyval := VList [VDict [("versioncreated"%string, VStr "desc")]].
Definition default_page_size : Z := 25.

(** ** Clauses *)

(** [query_string(query, default_operator)] *)
Definition query_string (e : Env) (q : pyval) (default_operator : pyval) : pyval :=
  VDict [("query_string"%string,
          VDict [("query"%string, q);
                 ("default_operator"%string, default_operator);
                 ("analyze_wildcard"%string, analyze_wildcard e);
                 ("lenient"%string, VBool true)])].

(** [{'term': {'type': 'composite'}}] *)
Definition composite_clause : pyval :=
  VDict [("term"%string, VDict [("type"%string, VStr "composite")])].

(** [{'term': {'_type': 'items'}}] *)
Definition items_clause : pyval :=
  VDict [("term"%string, VDict [("_type"%string, VStr "items")])].

(** [{'constant_score': {'filter': {'exists': {'field': 'nextversion'}}}}] *)
Definition nextversion_clause : pyval :=
  VDict [("constant_score"%string,
          VDict [("filter"%string,
                  VDict [("exists"%string,
                          VDict [("field"%string, VStr "nextversion")])])])].

(** ** Prefill stages *)

(** The dictionary [prefill_search_args] makes [search.args] name: none of
    its own for no request, the copy [to_dict] returns, the request's own
    plain dictionary, or an empty one. *)
Definition request_args (r : option ParsedRequest) : dict :=
  match r with
  | None => []
  | Some rq =>
      match req_args rq with
      | MultiDict d => d
      | PlainDict d => d
      | OtherArgs => []
      end
  end.

(** [prefill_search_args(search, req)] *)
Definition prefill_search_args (r : option ParsedRequest) : M SearchQuery unit :=
  modify (set_args (request_args r)) ;;
  modify (set_projections
            match r with
            | None => VDict []
            | Some rq => if truthy (req_projection rq) then req_projection rq else VDict []
            end) ;;
  modify (set_req (option_map ref_of r)).

(** [prefill_search_lookup(search, lookup)] *)
Definition prefill_search_lookup (lk : pyval) : M SearchQuery unit :=
  modify (set_lookup match lk with VNone => VDict [] | _ => lk end).

(** [prefill_search_page(search)] *)
Definition prefill_search_page : M SearchQuery unit :=
  a <- gets args ;;
  r <- gets req ;;
  (if truthy (dict_get a "sort") then ret tt
   else modify (set_arg "sort"
                  match r with
                  | Some rq => if truthy (ref_sort rq) then ref_sort rq else default_sort
                  | None => default_sort
                  end)) ;;
  a <- gets args ;;
  size <- lift_res (py_int (dict_get_default a "size" (VInt default_page_size))) ;;
  modify (set_arg "size" (VInt size)) ;;
  a <- gets args ;;
  from <- lift_res (py_int (dict_get_default a "from" (VInt 0))) ;;
  modify (set_arg "from" (VInt from)).

(** [prefill_search_user(search)] *)
Definition prefill_search_user (e : Env) : M SearchQuery unit :=
  let current_user := get_user e in
  modify (set_is_admin (is_admin e current_user)) ;;
  adm <- gets search_is_admin ;;
  a <- gets args ;;
  if adm && truthy (dict_get a "user") then
    u <- lift_res (dict_item a "user") ;;
    modify (set_user (find_user e u)) ;;
    u' <- gets user ;;
    modify (set_is_admin (is_admin e u'))
  else
    modify (set_user current_user).

(** [prefill_search_company(search)] *)
Definition prefill_search_company (e : Env) : M SearchQuery unit :=
  u <- gets user ;;
  modify (set_company (get_user_company e u)).

(** [prefill_search_section(search)] *)
Definition prefill_search_section : M SearchQuery unit :=
  a <- gets args ;;
  modify (set_section (py_or (dict_get a "section") section_attr)).

(** A parameter that is a list or a comma-delimited string. *)
Definition list_or_split (v : pyval) (message : string) : Res (list pyval) :=
  match v with
  | VList l => Ok l
  | VStr s => Ok (map VStr (split_on ","%char s))
  | _ => Raise (BadParameterValueError message)
  end.

(** [prefill_search_navigation(search)] *)
Definition prefill_search_navigation : M SearchQuery unit :=
  a <- gets args ;;
  if truthy (dict_get a "navigation") then
    navigation <- lift_res (dict_item a "navigation") ;;
    ids <- lift_res (list_or_split navigation "Invalid navigation parameter") ;;
    modify (set_navigation_ids ids)
  else
    modify (set_navigation_ids []).

(** [company.get('_id')] *)
Definition company_id (c : option dict) : pyval :=
  match c with
  | Some d => dict_get d "_id"
  | None => VNone
  end.

(** [prefill_search_products(search)] *)
Definition prefill_search_products (e : Env) : M SearchQuery unit :=
  a <- gets args ;;
  (if truthy (dict_get a "requested_products") then
     ps <- lift_res (dict_item a "requested_products") ;;
     l <- lift_res (list_or_split ps "Invalid requested_products parameter") ;;
     modify (set_requested_products l)
   else ret tt) ;;
  s <- gets (fun s => s) ;;
  if search_is_admin s then
    if negb (Nat.eqb (List.length (navigation_ids s)) 0) then
      modify (set_products (get_products_by_navigation e (navigation_ids s) (section s)))
    else if truthy (dict_get a "product") then
      p <- lift_res (dict_item a "product") ;;
      modify (set_products (get_product_by_id e p (section s) None))
    else
      modify (set_products [])
  else if truthy_record (company s) then
    if truthy (dict_get a "product") then
      p <- lift_res (dict_item a "product") ;;
      modify (set_products (get_product_by_id e p (section s) (Some (company_id (company s)))))
    else
      modify (set_products
                (get_products_by_company e (company_id (company s)) (navigation_ids s) (section s)))
  else
    modify (set_products []).

(** [prefill_search_items(search)] *)
Definition prefill_search_items : M SearchQuery unit :=
  append_clause "must_not" composite_clause ;;
  append_clause "must" items_clause ;;
  a <- gets args ;;
  if negb (truthy (dict_get_default a "ignore_latest" (VBool false))) then
    append_clause "must_not" nextversion_clause
  else ret tt.

(** [prefill_search_highlights(search, req)] *)
Definition prefill_search_highlights (e : Env) : M SearchQuery unit :=
  a <- gets args ;;
  rq <- gets current_req ;;
  let q := dict_get a "q" in
  if should_highlight e rq && truthy q then
    let elastic_highlight_query :=
      get_elastic_highlight_query e
        (VDict [("query"%string, q);
                ("default_operator"%string, VStr "AND");
                ("analyze_wildcard"%string, analyze_wildcard e);
                ("lenient"%string, VBool true)]) in
    fields <- lift_res (dict_item elastic_highlight_query "fields") ;;
    body_html <- lift_res (py_item fields "body_html") ;;
    modify (set_highlight
              (VDict (dict_set elastic_highlight_query "fields"
                        (VDict [("body_html"%string, body_html)]))))
  else ret tt.

(** [prefill_search_query(search, req, lookup)]; [req] is the object
    [prefill_search_args] stored in [search.req]. *)
Definition prefill_search_query (e : Env) (lk : pyval) : M SearchQuery unit :=
  prefill_search_lookup lk ;;
  prefill_search_page ;;
  prefill_search_user e ;;
  prefill_search_company e ;;
  prefill_search_section ;;
  prefill_search_navigation ;;
  prefill_search_products e ;;
  prefill_search_items ;;
  prefill_search_highlights e.

(** ** Validation *)

(** [r.get(k)] on a user or company record already known to be present. *)
Definition record_get (r : option dict) (k : string) : pyval :=
  match r with
  | Some d => dict_get d k
  | None => VNone
  end.

(** [validate_request(search)] *)
Definition validate_request : M SearchQuery unit :=
  s <- gets (fun s => s) ;;
  if negb (search_is_admin s) then
    if negb (truthy_record (company s)) then
      raise (HTTPException 403 "User does not belong to a company.")
    else if Nat.eqb (List.length (products s)) 0 then
      raise (HTTPException 403 "Your company doesn't have any products defined.")
    else if truthy (dict_get (args s) "requested_products") then
      rp <- lift_res (dict_item (args s) "requested_products") ;;
      ps <- lift_res (py_iter rp) ;;
      let ids := map (fun c => dict_get c "_id") (products s) in
      if forallb (list_contains ids) ps then ret tt
      else raise (HTTPException 404 "Invalid product parameter")
    else ret tt
  else ret tt.

(** ** Filter stages *)

(** Modelled from the spec: [apply_section_filter] delegates to the
    [section_filters] resource service, which is not under src/.  The spec has
    every filter stage append clauses to the boolean query, the section filter
    keyed by the section; the clauses it appends are the environment's. *)
Definition apply_section_filter (e : Env) : M SearchQuery unit :=
  sec <- gets section ;;
  let c := section_filter_clauses e sec in
  extend_clauses "must" (add_must c) ;;
  extend_clauses "must_not" (add_must_not c) ;;
  extend_clauses "should" (add_should c).

(** [apply_company_filter(search)] *)
Definition apply_company_filter (e : Env) : M SearchQuery unit :=
  s <- gets (fun s => s) ;;
  if search_is_admin s
     || negb (truthy_record (company s))
     || negb (truthy (record_get (company s) "company_type"))
  then ret tt
  else
    for_each (COMPANY_TYPES e) (fun company_type =>
      id <- lift_res (dict_item company_type "id") ;;
      ct <- lift_res (match company s with
                      | Some c => dict_item c "company_type"
                      | None => Raise TypeError
                      end) ;;
      if py_eqb id ct then
        (if truthy (dict_get company_type "wire_must") then
           append_clause "must" (dict_get company_type "wire_must")
         else ret tt) ;;
        (if truthy (dict_get company_type "wire_must_not") then
           append_clause "must_not" (dict_get company_type "wire_must_not")
         else ret tt)
      else ret tt).

(** [{'range': {'versioncreated': {'gte': 'now-%dd/d' % n}}}] *)
Definition time_limit_clause (n : Z) : pyval :=
  VDict [("range"%string,
          VDict [("versioncreated"%string,
                  VDict [("gte"%string,
                          VStr (String.append "now-"
                                  (String.append (str_of_int n) "d/d")))])])].

(** [apply_time_limit_filter(search)] *)
Definition apply_time_limit_filter (e : Env) : M SearchQuery unit :=
  s <- gets (fun s => s) ;;
  if search_is_admin s then ret tt
  else
    let limit_days :=
      match limit_days_setting with
      | Some name => get_setting e name
      | None => VNone
      end in
    if truthy limit_days
       && truthy_record (company s)
       && negb (truthy (match company s with
                        | Some c => dict_get_default c "archive_access" (VBool false)
                        | None => VNone
                        end))
    then
      n <- lift_res (py_int limit_days) ;;
      append_clause "must" (time_limit_clause n)
    else ret tt.

(** [apply_product_filter(search, product)] *)
Definition apply_product_filter (e : Env) (product : dict) : M SearchQuery unit :=
  a <- gets args ;;
  skip <-
    (if truthy (dict_get a "requested_products") then
       pid <- lift_res (dict_item product "_id") ;;
       rp <- lift_res (dict_item a "requested_products") ;;
       isin <- lift_res (py_contains rp pid) ;;
       ret (negb isin)
     else ret false) ;;
  if (skip : bool) then ret tt
  else if truthy (dict_get product "query") then
    append_clause "should" (query_string e (dict_get product "query") (VStr "AND"))
  else ret tt.

(** [apply_products_filter(search)] *)
Definition apply_products_filter (e : Env) : M SearchQuery unit :=
  s <- gets (fun s => s) ;;
  if search_is_admin s
     && Nat.eqb (List.length (navigation_ids s)) 0
     && negb (truthy (dict_get (args s) "product"))
  then ret tt
  else
    let product_ids :=
      map (fun p => dict_get p "sd_product_id")
          (filter (fun p => truthy (dict_get p "sd_product_id")) (products s)) in
    (if truthy (VList product_ids) then
       append_clause "should"
         (VDict [("terms"%string, VDict [("products.code"%string, VList product_ids)])])
     else ret tt) ;;
    for_each (products s) (apply_product_filter e).

(** [get_aggregations()] *)
Definition get_aggregations (e : Env) : pyval := py_or (WIRE_AGGS e) (VDict []).

(** [get_aggregation_field(key)] *)
Definition get_aggregation_field (e : Env) (key : string) : Res pyval :=
  match py_item (get_aggregations e) key with
  | Raise x => Raise x
  | Ok a =>
      match py_item a "terms" with
      | Raise x => Raise x
      | Ok t => py_item t "field"
      end
  end.

(** [_filter_terms(filters)]; the field of an aggregation is a string, being
    the key of the clause. *)
Fixpoint filter_terms_items (e : Env) (items : dict) : Res (list pyval) :=
  match items with
  | [] => Ok []
  | (key, val) :: r =>
      if truthy val then
        match get_aggregation_field e key with
        | Ok (VStr field) =>
            match filter_terms_items e r with
            | Ok l => Ok (VDict [("terms"%string, VDict [(field, val)])] :: l)
            | Raise x => Raise x
            end
        | Ok _ => Raise TypeError
        | Raise x => Raise x
        end
      else filter_terms_items e r
  end.

Definition _filter_terms (e : Env) (filters : pyval) : Res (list pyval) :=
  match filters with
  | VDict d => filter_terms_items e d
  | _ => Raise AttributeError
  end.

(** [versioncreated_range(created)] *)
Definition versioncreated_range (e : Env) (created : dict) : Res pyval :=
  match py_int (dict_get_default created "timezone_offset" (VStr "0")) with
  | Raise x => Raise x
  | Ok offset =>
      let r0 : dict := [] in
      let r1 :=
        if truthy (dict_get created "created_from") then
          dict_set r0 "gte"
            (get_local_date e (dict_get created "created_from")
               (dict_get_default created "created_from_time" (VStr "00:00:00")) offset)
        else r0 in
      let r2 :=
        if truthy (dict_get created "created_to") then
          dict_set r1 "lte"
            (get_end_date e (dict_get created "created_to")
               (get_local_date e (dict_get created "created_to") (VStr "23:59:59") offset))
        else r1 in
      Ok (VDict [("range"%string, VDict [("versioncreated"%string, VDict r2)])])
  end.

(** The clauses the structured filter contributes: its terms, or the filter
    itself when aggregations are not filtered. *)
Definition filter_clauses (e : Env) (filters : pyval) : Res (list pyval) :=
  if truthy (FILTER_AGGREGATIONS e) then _filter_terms e filters
  else Ok [filters].

(** [search.source['post_filter']['bool']['must'] += clauses] *)
Definition extend_post_filter (clauses : list pyval) : M SearchQuery unit :=
  src <- gets source ;;
  pf <- lift_res (dict_item src "post_filter") ;;
  pf' <- lift_res (bool_extend "must" clauses pf) ;;
  modify (set_source_item "post_filter" pf').

(** [apply_request_filter(search)] *)
Definition apply_request_filter (e : Env) : M SearchQuery unit :=
  a <- gets args ;;
  (if truthy (dict_get a "q") then
     append_clause "must"
       (query_string e (dict_get a "q") (py_or (dict_get a "default_operator") (VStr "AND")))
   else ret tt) ;;
  filters <-
    (if truthy (dict_get a "filter") then
       match dict_get a "filter" with
       | VDict d => ret (VDict d)
       | f =>
           match json_loads e f with
           | Ok v => ret v
           | Raise TypeError =>
               raise (BadParameterValueError "Incorrect type supplied for filter parameter")
           | Raise x => raise x
           end
       end
     else ret VNone) ;;
  let created := truthy (dict_get a "created_from") || truthy (dict_get a "created_to") in
  if negb (truthy (FILTER_BY_POST_FILTER e)) then
    (if truthy filters then
       cs <- lift_res (filter_clauses e filters) ;;
       extend_clauses "must" cs
     else ret tt) ;;
    (if created then
       r <- lift_res (versioncreated_range e a) ;;
       append_clause "must" r
     else ret tt)
  else if truthy filters || created then
    modify (set_source_item "post_filter"
              (VDict [("bool"%string, VDict [("must"%string, VList [])])])) ;;
    (if truthy filters then
       cs <- lift_res (filter_clauses e filters) ;;
       extend_post_filter cs
     else ret tt) ;;
    (if created then
       r <- lift_res (versioncreated_range e a) ;;
       extend_post_filter [r]
     else ret tt)
  else ret tt.

(** [if len(search.query['bool'].get('should', [])):
       search.query['bool']['minimum_should_match'] = 1] *)
Definition set_minimum_should_match : M SearchQuery unit :=
  q <- gets query ;;
  b <- lift_res (py_item q "bool") ;;
  match q, b with
  | VDict qd, VDict bd =>
      n <- lift_res (py_len (dict_get_default bd "should" (VList []))) ;;
      if negb (n =? 0) then
        modify (set_query
                  (VDict (dict_set qd "bool"
                            (VDict (dict_set bd "minimum_should_match" (VInt 1))))))
      else ret tt
  | _, _ => raise AttributeError
  end.

(** [apply_filters(search)] *)
Definition apply_filters (e : Env) : M SearchQuery unit :=
  apply_section_filter e ;;
  apply_company_filter e ;;
  apply_time_limit_filter e ;;
  apply_products_filter e ;;
  apply_request_filter e ;;
  set_minimum_should_match.

(** ** Compilation *)

(** [gen_source_from_search(search)] *)
Definition gen_source_from_search (e : Env) : M SearchQuery unit :=
  q <- gets query ;;
  modify (set_source_item "query" q) ;;
  a <- gets args ;;
  modify (set_source_item "sort" (py_or (dict_get a "sort") default_sort)) ;;
  modify (set_source_item "size" (py_or (dict_get a "size") (VInt default_page_size))) ;;
  from <- lift_res (py_int (py_or (dict_get a "from") (VInt 0))) ;;
  modify (set_source_item "from" (VInt from)) ;;
  if 1000 <=? from then
    raise (HTTPException 400 "Page limit exceeded")
  else
    (if negb (truthy (VInt from)) && truthy (dict_get_default a "aggs" (VBool true)) then
       modify (set_source_item "aggs" (get_aggregations e))
     else ret tt) ;;
    h <- gets highlight ;;
    if truthy h then modify (set_source_item "highlight" h) else ret tt.

(** [get_internal_request(search)]: the [args] of the internal request. *)
Definition get_internal_request (e : Env) : M SearchQuery dict :=
  s <- gets (fun s => s) ;;
  let internal_args : dict := [("source"%string, VStr (json_dumps e (VDict (source s))))] in
  if truthy (projections s) then
    ret (dict_set internal_args "projections" (projections s))
  else ret internal_args.

(** ** The service and the index *)

(** What a call works on: the query context [search], the service's
    [_matched_ids] attribute, and the requests sent to the index so far
    (each with its lookup), oldest first. *)
Record World : Type := mkWorld {
  search : SearchQuery;
  _matched_ids : list pyval;
  dispatched : list (dict * pyval)
}.

Definition set_search (s : SearchQuery) (w : World) : World :=
  mkWorld s (_matched_ids w) (dispatched w).
Definition set_matched_ids (l : list pyval) (w : World) : World :=
  mkWorld (search w) l (dispatched w).
Definition log_request (r : dict * pyval) (w : World) : World :=
  mkWorld (search w) (_matched_ids w) (dispatched w ++ [r]).

(** A stage of the pipeline, run on the query context of the call. *)
Definition lift {A : Type} (m : M SearchQuery A) : M World A :=
  fun w =>
    match m (search w) with
    | (r, s') => (r, set_search s' w)
    end.

(** [internal_get(req, lookup)]: [req.args] goes to the index. *)
Definition internal_get (e : Env) (req_args : dict) (lk : pyval) : M World Cursor :=
  modify (log_request (req_args, lk)) ;;
  ret (index_get e req_args lk).

(** The request [get_last_version] builds for the head of a chain. *)
Definition last_version_request (e : Env) (original_id : pyval) : dict :=
  [("source"%string,
    VStr (json_dumps e
            (VDict [("query"%string,
                     VDict [("bool"%string,
                             VDict [("must"%string,
                                     VList [VDict [("term"%string,
                                                    VDict [("original_id"%string, original_id)])]]);
                                    ("must_not"%string,
                                     VList [VDict [("exists"%string,
                                                    VDict [("field"%string,
                                                            VStr "nextversion")])]])])])])));
   ("size"%string, VInt 1)].

(** [get_last_version(doc)].  [depth] is the number of nested calls the
    interpreter still allows; one more raises [RecursionError]. *)
Fixpoint get_last_version (e : Env) (depth : nat) (doc : Doc) : M World Doc :=
  if negb (truthy (doc_nextversion doc)) then ret doc
  else
    found <-
      (if truthy (doc_original_id doc) then
         result <- internal_get e (last_version_request e (doc_original_id doc)) VNone ;;
         if negb (count result =? 0) then
           match docs result with
           | d :: _ => ret (Some d)
           | [] => raise IndexError
           end
         else ret None
       else ret None) ;;
    match found with
    | Some d => ret d
    | None =>
        match find_one e (doc_nextversion doc) with
        | Some next_doc =>
            match depth with
            | S depth' => get_last_version e depth' next_doc
            | O => raise RecursionError
            end
        | None => ret doc
        end
    end.

(** The loop of [_search_all_versions] over the documents of the first pass. *)
Fixpoint collect_versions (e : Env) (ds : list Doc) (next_item_ids : list pyval)
  : M World (list pyval) :=
  match ds with
  | [] => ret next_item_ids
  | doc :: r =>
      modify (fun w => set_matched_ids (_matched_ids w ++ [VStr (doc_id doc)]) w) ;;
      last <- get_last_version e (recursion_limit e) doc ;;
      collect_versions e r (next_item_ids ++ [VStr (doc_id last)])
  end.

(** [{'must': {'terms': {'_id': next_item_ids}}}] *)
Definition ids_bool (next_item_ids : list pyval) : pyval :=
  VDict [("must"%string,
          VDict [("terms"%string, VDict [("_id"%string, VList next_item_ids)])])].

(** [search.query['bool'] = v] *)
Definition set_query_bool (v : pyval) : M SearchQuery unit :=
  q <- gets query ;;
  match q with
  | VDict qd => modify (set_query (VDict (dict_set qd "bool" v)))
  | _ => raise TypeError
  end.

(** [_search_all_versions(search, req, lookup)] *)
Definition _search_all_versions (e : Env) (lk : pyval) : M World Cursor :=
  lift (modify (set_arg "ignore_latest" (VBool true))) ;;
  lift (prefill_search_query e lk) ;;
  lift validate_request ;;
  lift (apply_filters e) ;;
  lift (gen_source_from_search e) ;;
  lift (modify (set_source_item "size" (VInt 1000))) ;;
  lift (modify (set_source_item "from" (VInt 0))) ;;
  internal_req <- lift (get_internal_request e) ;;
  slk <- lift (gets lookup) ;;
  search_results <- internal_get e internal_req slk ;;
  modify (set_matched_ids []) ;;
  next_item_ids <- collect_versions e (docs search_results) [] ;;
  lift (set_query_bool (ids_bool next_item_ids)) ;;
  lift (gen_source_from_search e) ;;
  internal_req <- lift (get_internal_request e) ;;
  slk <- lift (gets lookup) ;;
  internal_get e internal_req slk.

(** [get(req, lookup)] *)
Definition get (e : Env) (r : option ParsedRequest) (lk : pyval) : M World Cursor :=
  modify (set_search SearchQuery_init) ;;
  lift (prefill_search_args r) ;;
  a <- lift (gets args) ;;
  if truthy (dict_get a "all_versions") then
    _search_all_versions e lk
  else
    lift (prefill_search_query e lk) ;;
    lift validate_request ;;
    lift (apply_filters e) ;;
    lift (gen_source_from_search e) ;;
    internal_req <- lift (get_internal_request e) ;;
    slk <- lift (gets lookup) ;;
    internal_get e internal_req slk.

(** [on_fetched(docs)]: the response with the matched ids among its links. *)
Definition on_fetched (response : dict) : M World dict :=
  ids <- gets _matched_ids ;;
  if truthy (VList ids) then
    links <- lift_res (dict_item response "_links") ;;
    match links with
    | VDict l =>
        modify (set_matched_ids []) ;;
        ret (dict_set response "_links" (VDict (dict_set l "matched_ids" (VList ids))))
    | _ => raise TypeError
    end
  else ret response.

(** The endpoint's request object once the call is over. *)
Definition req_after (w : World) : option ParsedRequest := current_req (search w).

(** ** The phases of a call *)

(** [search.args.get('all_versions')] as [get] reads it. *)
Definition all_versions_requested (r : option ParsedRequest) : bool :=
  truthy (dict_get (request_args r) "all_versions").

(** The stages either branch of [get] runs before validation, on a fresh
    [SearchQuery]: the context a request derives. *)
Definition derive_context (e : Env) (r : option ParsedRequest) (lk : pyval)
  : M SearchQuery unit :=
  modify (fun _ => SearchQuery_init) ;;
  prefill_search_args r ;;
  (if all_versions_requested r then modify (set_arg "ignore_latest" (VBool true))
   else ret tt) ;;
  prefill_search_query e lk.

(** What [get] sends once the source is generated. *)
Definition dispatch_standard (e : Env) : M World Cursor :=
  internal_req <- lift (get_internal_request e) ;;
  slk <- lift (gets lookup) ;;
  internal_get e internal_req slk.

(** What [_search_all_versions] does once the source is generated. *)
Definition dispatch_all_versions (e : Env) : M World Cursor :=
  lift (modify (set_source_item "size" (VInt 1000))) ;;
  lift (modify (set_source_item "from" (VInt 0))) ;;
  internal_req <- lift (get_internal_request e) ;;
  slk <- lift (gets lookup) ;;
  search_results <- internal_get e internal_req slk ;;
  modify (set_matched_ids []) ;;
  next_item_ids <- collect_versions e (docs search_results) [] ;;
  lift (set_query_bool (ids_bool next_item_ids)) ;;
  lift (gen_source_from_search e) ;;
  internal_req <- lift (get_internal_request e) ;;
  slk <- lift (gets lookup) ;;
  internal_get e internal_req slk.

(** Validation, filters and compilation, then the dispatch of the branch. *)
Definition serve (e : Env) (all_versions : bool) : M World Cursor :=
  lift validate_request ;;
  lift (apply_filters e) ;;
  lift (gen_source_from_search e) ;;
  if all_versions then dispatch_all_versions e else dispatch_standard e.

(** ** Reading a boolean query *)

(** [q['bool'][key]] when it is a list of clauses, no clause otherwise. *)
Definition clauses_of (key : string) (q : pyval) : list pyval :=
  match py_item q "bool" with
  | Ok b =>
      match py_item b key with
      | Ok (VList l) => l
      | _ => []
      end
  | Raise _ => []
  end.

Definition must_of (q : pyval) : list pyval := clauses_of "must" q.
Definition must_not_of (q : pyval) : list pyval := clauses_of "must_not" q.

(** The boolean query [prefill_search_items] leaves on a fresh context, with
    or without the clause that keeps the latest versions only. *)
Definition seeded_query (latest_only : bool) : pyval :=
  VDict [("bool"%string,
          VDict [("must"%string, VList [items_clause]);
                 ("must_not"%string,
                  VList (composite_clause ::
                         if latest_only then [nextversion_clause] else []));
                 ("should"%string, VList [])])].

(** ** The last version of a document *)

(** The answer of [get_last_version] for a document, under the recursion the
    environment allows; the requests it sends aside, it depends on nothing
    else. *)
Definition last_version (e : Env) (doc : Doc) : Res Doc :=
  fst (get_last_version e (recursion_limit e) doc (mkWorld SearchQuery_init [] [])).

(** The ids [_search_all_versions] collects for the second pass: that of the
    last version of each document of the first pass, in order. *)
Fixpoint head_ids (e : Env) (ds : list Doc) : Res (list pyval) :=
  match ds with
  | [] => Ok []
  | d :: r =>
      match last_version e d with
      | Ok h =>
          match head_ids e r with
          | Ok l => Ok (VStr (doc_id h) :: l)
          | Raise x => Raise x
          end
      | Raise x => Raise x
      end
  end.

(** ** Test doubles *)

(** A small deployment to run the service on: three users, one company, two
    products, one version chain, and a serialiser for [flask.json.dumps]. *)
Module Fixture.

Definition dquote : string := String (ascii_of_nat 34) EmptyString.

Definition cat3 (a b c : string) : string := String.append a (String.append b c).

(** JSON text in the layout of Python's [json.dumps]. *)
Fixpoint dumps (v : pyval) : string :=
  match v with
  | VNone => "null"
  | VBool true => "true"
  | VBool false => "false"
  | VInt z => str_of_int z
  | VStr s => cat3 dquote s dquote
  | VList l =>
      cat3 "["
        ((fix items (l : list pyval) : string :=
            match l with
            | [] => EmptyString
            | x :: r =>
                match r with
                | [] => dumps x
                | _ => cat3 (dumps x) ", " (items r)
                end
            end) l)
        "]"
  | VDict d =>
      cat3 "{"
        ((fix items (d : list (string * pyval)) : string :=
            match d with
            | [] => EmptyString
            | (k, x) :: r =>
                let kv := cat3 (cat3 dquote k dquote) ": " (dumps x) in
                match r with
                | [] => kv
                | _ => cat3 kv ", " (items r)
                end
            end) d)
        "}"
  end.

Definition administrator : dict :=
  [("_id"%string, VStr "admin"); ("user_type"%string, VStr "administrator")].
Definition reader : dict :=
  [("_id"%string, VStr "u1"); ("user_type"%string, VStr "public");
   ("company"%string, VStr "c1")].
Definition stranger : dict :=
  [("_id"%string, VStr "u2"); ("user_type"%string, VStr "public")].
Definition acme : dict :=
  [("_id"%string, VStr "c1"); ("name"%string, VStr "Acme")].

Definition P1 : dict :=
  [("_id"%string, VStr "p1"); ("sd_product_id"%string, VStr "C1")].
Definition P2 : dict :=
  [("_id"%string, VStr "p2"); ("query"%string, VStr "category:sports")].

Definition has_role (u : option dict) : bool :=
  match u with
  | Some d => py_eqb (dict_get d "user_type") (VStr "administrator")
  | None => false
  end.

Definition users (id : pyval) : option dict :=
  if py_eqb id (VStr "u1") then Some reader
  else if py_eqb id (VStr "u2") then Some stranger
  else if py_eqb id (VStr "admin") then Some administrator
  else None.

Definition company_of (u : option dict) : option dict :=
  match u with
  | Some d => if py_eqb (dict_get d "company") (VStr "c1") then Some acme else None
  | None => None
  end.

Definition wire_aggs : pyval :=
  VDict [("genre"%string,
          VDict [("terms"%string,
                  VDict [("field"%string, VStr "genre.name"); ("size"%string, VInt 50)])])].

(** The deployment, for a session user, the products provisioned to the
    company, an index and a document store. *)
Definition deployment (session_user : option dict) (provisioned : list dict)
    (index : dict -> pyval -> Cursor) (store : pyval -> option Doc) : Env :=
  {| get_user := session_user;
     is_admin := has_role;
     find_user := users;
     get_user_company := company_of;
     get_products_by_navigation := fun _ _ => [];
     get_product_by_id := fun id _ _ =>
       filter (fun p => py_eqb (dict_get p "_id") id) provisioned;
     get_products_by_company := fun _ _ _ => provisioned;
     section_filter_clauses := fun _ => mkClauses [] [] [];
     analyze_wildcard := VBool false;
     WIRE_AGGS := wire_aggs;
     COMPANY_TYPES := [];
     FILTER_BY_POST_FILTER := VBool false;
     FILTER_AGGREGATIONS := VBool true;
     get_setting := fun _ => VNone;
     should_highlight := fun _ => false;
     get_elastic_highlight_query := fun _ =>
       [("fields"%string, VDict [("body_html"%string, VDict [])])];
     get_local_date := fun d _ _ => d;
     get_end_date := fun d _ => d;
     json_dumps := dumps;
     json_loads := fun _ => Raise ValueError;
     index_get := index;
     find_one := store;
     recursion_limit := 1000 |}.

Definition no_hits : dict -> pyval -> Cursor := fun _ _ => mkCursor [] 0.
Definition empty_store : pyval -> option Doc := fun _ => None.

(** A world before any call. *)
Definition idle : World := mkWorld SearchQuery_init [] [].

(** A request with a plain dictionary of arguments. *)
Definition request (a : dict) : option ParsedRequest :=
  Some (mkReq (PlainDict a) VNone VNone).

(** A version chain A -> B -> C, a document whose next version is missing,
    and a document that is its own next version. *)
Definition doc_A : Doc := mkDoc "A" (VStr "B") VNone [].
Definition doc_B : Doc := mkDoc "B" (VStr "C") VNone [].
Definition doc_C : Doc := mkDoc "C" VNone VNone [].
Definition doc_D : Doc := mkDoc "D" (VStr "gone") VNone [].

Definition chain_store (id : pyval) : option Doc :=
  if py_eqb id (VStr "A") then Some doc_A
  else if py_eqb id (VStr "B") then Some doc_B
  else if py_eqb id (VStr "C") then Some doc_C
  else if py_eqb id (VStr "D") then Some doc_D
  else None.



(** An index over the chain A, B, C: a query by [_id] finds C, the one
    document listed, on the page that starts at offset 0 and on no later
    page; any other query matches the revisions A and B. *)
Definition mentions (piece : string) (q : dict) : bool :=
  match dict_get q "source" with
  | VStr src => is_substring piece src
  | _ => false
  end.

Definition chain_index (q : dict) (lk : pyval) : Cursor :=
  if mentions (cat3 dquote "_id" dquote) q then
    if mentions (String.append (cat3 dquote "from" dquote) ": 0") q
    then mkCursor [doc_C] 1
    else mkCursor [] 1
  else mkCursor [doc_A; doc_B] 2.

End Fixture.

(** * Notions the properties are stated with *)

(** ** What a stage leaves alone *)

(** The stage [m] never changes the component [f] of the context, whether it
    returns or raises. *)
Definition preserves {T A : Type} (f : SearchQuery -> T) (m : M SearchQuery A) : Prop :=
  forall s, f (snd (m s)) = f s.

(** Once [prefill_search_page] has run, nothing writes to [search.args] or
    rebinds [search.req]. *)
Definition args_and_req (s : SearchQuery) : dict * option RequestRef := (args s, req s).

(** ** Pagination arguments *)

(** What [prefill_search_page] writes to [search.args], as a function of the
    dictionary: the outcome and the dictionary it leaves, which is partly
    written when [int] raises. *)
Definition page_args (sort_default : pyval) (a : dict) : Res unit * dict :=
  let a1 := if truthy (dict_get a "sort") then a else dict_set a "sort" sort_default in
  match py_int (dict_get_default a1 "size" (VInt default_page_size)) with
  | Raise x => (Raise x, a1)
  | Ok size =>
      let a2 := dict_set a1 "size" (VInt size) in
      match py_int (dict_get_default a2 "from" (VInt 0)) with
      | Raise x => (Raise x, a2)
      | Ok from => (Ok tt, dict_set a2 "from" (VInt from))
      end
  end.

(** The sort [prefill_search_page] falls back to. *)
Definition sort_fallback (r : option RequestRef) : pyval :=
  match r with
  | Some rq => if truthy (ref_sort rq) then ref_sort rq else default_sort
  | None => default_sort
  end.

(** ** The derivation of the context, step by step *)

(** The dictionary [search.args] names when [prefill_search_query] starts:
    the request's, in which [_search_all_versions] has set [ignore_latest]. *)
Definition start_args (r : option ParsedRequest) : dict :=
  if all_versions_requested r
  then dict_set (request_args r) "ignore_latest" (VBool true)
  else request_args r.

(** The context when [prefill_search_page] starts. *)
Definition start_context (r : option ParsedRequest) (lk : pyval) : SearchQuery :=
  mkSearch None false None VNone [] [] [] (start_args r)
    match lk with VNone => VDict [] | _ => lk end
    match r with
    | None => VDict []
    | Some rq => if truthy (req_projection rq) then req_projection rq else VDict []
    end
    (option_map ref_of r) VNone [] (query SearchQuery_init) VNone.

(** The prefill stages that follow [prefill_search_page]. *)
Definition context_rest (e : Env) : M SearchQuery unit :=
  prefill_search_user e ;;
  prefill_search_company e ;;
  prefill_search_section ;;
  prefill_search_navigation ;;
  prefill_search_products e ;;
  prefill_search_items ;;
  prefill_search_highlights e.

(** The outcome of [prefill_search_page] on the request's arguments. *)
Definition paged (r : option ParsedRequest) : Res unit * dict :=
  page_args (sort_fallback (option_map ref_of r)) (start_args r).

(** The ids of the entitled products, as [validate_request] lists them. *)
Definition entitled_ids (s : SearchQuery) : list pyval :=
  map (fun c => dict_get c "_id") (products s).

(** ** Identity of the requester *)

(** The user, the administrator flag and the company of the context. *)
Definition identity (s : SearchQuery) : option dict * bool * option dict :=
  (user s, search_is_admin s, company s).

(** The stages that follow [prefill_search_company]. *)
Definition context_tail (e : Env) : M SearchQuery unit :=
  prefill_search_section ;;
  prefill_search_navigation ;;
  prefill_search_products e ;;
  prefill_search_items ;;
  prefill_search_highlights e.

(** The identity of a derived context: what [prefill_search_user] and
    [prefill_search_company] compute from the session user and the [user]
    argument of the request. *)
Definition requester (e : Env) (r : option ParsedRequest) : option dict * bool :=
  if is_admin e (get_user e) && truthy (dict_get (request_args r) "user")
  then let u := find_user e (dict_get (request_args r) "user") in (u, is_admin e u)
  else (get_user e, is_admin e (get_user e)).

(** ** What a call sends to the index *)

(** The arguments of the internal request for a context, as
    [get_internal_request] builds them. *)
Definition internal_request (e : Env) (s : SearchQuery) : dict :=
  let internal_args : dict := [("source"%string, VStr (json_dumps e (VDict (source s))))] in
  if truthy (projections s) then dict_set internal_args "projections" (projections s)
  else internal_args.

(** The request a context is dispatched with. *)
Definition request_of (e : Env) (s : SearchQuery) : dict * pyval :=
  (internal_request e s, lookup s).

(** A request of [get_last_version]: the lookup of a chain's head. *)
Definition is_head_lookup (e : Env) (q : dict * pyval) : Prop :=
  exists original_id, q = (last_version_request e original_id, VNone).

(** ** Compilation *)

(** Validation, filters and source generation on the context. *)
Definition compile (e : Env) : M SearchQuery unit :=
  validate_request ;;
  apply_filters e ;;
  gen_source_from_search e.

(** The offset [gen_source_from_search] computes. *)
Definition offset_of (s : SearchQuery) : Res Z :=
  py_int (py_or (dict_get (args s) "from") (VInt 0)).

(** The source before the page limit is checked. *)
Definition paged_source (s : SearchQuery) (from : Z) : dict :=
  dict_set
    (dict_set
       (dict_set (dict_set (source s) "query" (query s))
          "sort" (py_or (dict_get (args s) "sort") default_sort))
       "size" (py_or (dict_get (args s) "size") (VInt default_page_size)))
    "from" (VInt from).

(** The source of a request within the page limit. *)
Definition full_source (e : Env) (s : SearchQuery) (from : Z) : dict :=
  let src := paged_source s from in
  let src :=
    if negb (truthy (VInt from)) && truthy (dict_get_default (args s) "aggs" (VBool true))
    then dict_set src "aggs" (get_aggregations e) else src in
  if truthy (highlight s) then dict_set src "highlight" (highlight s) else src.

(** ** The page limit *)

(** A request the pipeline compiled, with its offset at most 999, or a head
    lookup of [get_last_version], which has no offset. *)
Definition offset_capped (e : Env) (q : dict * pyval) : Prop :=
  is_head_lookup e q \/
  exists s from,
    q = request_of e s /\
    dict_find "from" (source s) = Some (VInt from) /\ from <= 999.

(** The second pass of [_search_all_versions], once the ids are collected. *)
Definition second_pass (e : Env) (next_item_ids : list pyval) : M World Cursor :=
  lift (set_query_bool (ids_bool next_item_ids)) ;;
  lift (gen_source_from_search e) ;;
  dispatch_standard e.

(** The context of the first pass: the compiled one, asked for the first
    1000 hits. *)
Definition first_pass_context (s : SearchQuery) : SearchQuery :=
  set_source_item "from" (VInt 0) (set_source_item "size" (VInt 1000) s).

(** ** The seeded query *)

(** The stages between [prefill_search_page] and [prefill_search_items]. *)
Definition context_head (e : Env) : M SearchQuery unit :=
  prefill_search_user e ;;
  prefill_search_company e ;;
  prefill_search_section ;;
  prefill_search_navigation ;;
  prefill_search_products e.

(** Whether the request has the stages skip the latest-only clause: it asks
    for all versions, or sets [ignore_latest] itself. *)
Definition ignores_latest (r : option ParsedRequest) : bool :=
  all_versions_requested r || truthy (dict_get (request_args r) "ignore_latest").

(** ** The version chain *)



(** The head lookup is not made, or has no hit. *)
Definition lookup_misses (e : Env) (doc : Doc) : Prop :=
  truthy (doc_original_id doc) = false \/
  count (index_get e (last_version_request e (doc_original_id doc)) VNone) = 0.

(** ** The clauses every compiled query keeps *)

(** A boolean query in the shape the stages work on, with the item clause in
    [must] and the composite clause in [must_not]. *)
Definition seeded (q : pyval) : Prop :=
  exists must must_not should rest,
    q = VDict [("bool"%string,
                VDict (("must"%string, VList must)
                         :: ("must_not"%string, VList must_not)
                         :: ("should"%string, VList should) :: rest))] /\
    In items_clause must /\ In composite_clause must_not.

(** The stage keeps the property [P] of the context, whether it returns or
    raises. *)
Definition invariant {A : Type} (P : SearchQuery -> Prop) (m : M SearchQuery A) : Prop :=
  forall s, P s -> P (snd (m s)).

(** The query of the context is seeded. *)
Definition query_seeded (s : SearchQuery) : Prop := seeded (query s).

(** The source of the context holds a query with the item clause in [must]
    and the composite clause in [must_not]. *)
Definition excludes_composites (s : SearchQuery) : Prop :=
  exists q,
    dict_find "query" (source s) = Some q /\
    In items_clause (must_of q) /\
    In composite_clause (must_not_of q).

(** The request sent first for a compiled context: the context itself, or in
    an all-versions search the context of the first pass. *)
Definition first_sent (r : option ParsedRequest) (s3 : SearchQuery) : SearchQuery :=
  if all_versions_requested r then first_pass_context s3 else s3.

(** ** The service keeps no state that matters *)

(** A computation whose outcome, context and requests depend on the context
    it starts from only: not on the matched ids of an earlier call, nor on
    the requests sent before. *)
Definition framed {A : Type} (m : M World A) : Prop :=
  forall w w',
    search w = search w' ->
    fst (m w) = fst (m w') /\
    search (snd (m w)) = search (snd (m w')) /\
    exists new,
      dispatched (snd (m w)) = dispatched w ++ new /\
      dispatched (snd (m w')) = dispatched w' ++ new.

(** ** Compiling a request again *)

(** The computation leaves [search.args] and [search.req] as they are. *)
Definition keeps_request {A : Type} (m : M World A) : Prop :=
  forall w, args_and_req (search (snd (m w))) = args_and_req (search w).

(** The request object after a call: it is the request of the call, but for
    a plain dictionary of arguments, which holds what the call wrote. *)
Definition written_back (r : option ParsedRequest) : option ParsedRequest :=
  match r with
  | Some rq =>
      Some (mkReq match req_args rq with
                  | PlainDict _ => PlainDict (snd (paged r))
                  | a => a
                  end
                  (req_projection rq) (req_sort rq))
  | None => None
  end.

(** ** Searching all versions *)

(** The context of the second pass: the boolean query is the id clause, the
    source is generated again from the arguments of the request. *)
Definition second_pass_context (e : Env) (s : SearchQuery) (ids : list pyval) (from : Z)
  : SearchQuery :=
  let s5 := set_query (VDict [("bool"%string, ids_bool ids)]) s in
  set_source (full_source e s5 from) s5.

(** The documents the index answers the first pass with. *)
Definition first_pass_docs (e : Env) (s3 : SearchQuery) : list Doc :=
  docs (index_get e (internal_request e (first_pass_context s3)) (lookup s3)).

(** What the call of an all-versions search ends with, for the documents [A]
    and [B] of the first pass and their common last version [H]. *)
Definition heads_listed (e : Env) (s3 s6 : SearchQuery) (w' : World) (res : Res Cursor)
    (ids : list pyval) (A B H : Doc) : Prop :=
  res = Ok (index_get e (internal_request e s6) (lookup s6)) /\
  search w' = s6 /\
  dict_find "query" (source s6) = Some (VDict [("bool"%string, ids_bool ids)]) /\
  In (VStr (doc_id H)) ids /\
  (forall i, In i ids ->
     exists d h, In d (first_pass_docs e s3) /\ last_version e d = Ok h /\
                 i = VStr (doc_id h)) /\
  dict_find "size" (source s6) = dict_find "size" (source s3) /\
  dict_find "from" (source s6) = dict_find "from" (source s3) /\
  dict_find "sort" (source s6) = dict_find "sort" (source s3) /\
  In (VStr (doc_id A)) (_matched_ids w') /\
  In (VStr (doc_id B)) (_matched_ids w') /\
  (forall response links,
     dict_find "_links" response = Some (VDict links) ->
     fst (on_fetched response w') =
     Ok (dict_set response "_links"
           (VDict (dict_set links "matched_ids" (VList (_matched_ids w')))))).

(** * STT filters: [stt/filters.py] *)

(** [STT_FIELDS] *)
Definition STT_FIELDS : list string :=
  ["sttdepartment"; "sttversion"; "sttgenre"]%string.

(** [a < b] on datetimes.  A datetime is represented by the integer of its
    seconds since the epoch; anything else does not compare. *)
Definition py_lt (a b : pyval) : Res bool :=
  match a, b with
  | VInt x, VInt y => Ok (x <? y)
  | _, _ => Raise TypeError
  end.

(** [timedelta(days=7)], in seconds. *)
Definition seven_days : Z := 7 * 86400.

(** The body of the loop of [on_publish_item] over [item['subject']]. *)
Definition stt_subject (subject : pyval) : M dict unit :=
  match subject with
  | VDict sd =>
      if list_contains (map VStr STT_FIELDS) (dict_get_default sd "scheme" (VStr EmptyString))
      then
        scheme <- lift_res (dict_item sd "scheme") ;;
        match scheme with
        | VStr k =>
            modify (fun item =>
                      dict_set item k (dict_get_default sd "name" (dict_get sd "code")))
        | _ => raise TypeError
        end
      else ret tt
  | _ => raise AttributeError
  end.

(** [on_publish_item(app, item)]: the state is the item, which the function
    writes to.  [parse_date] is [eve_elastic]'s and [utcnow] the time of the
    call. *)
Definition on_publish_item (parse_date : pyval -> pyval) (utcnow : Z) : M dict unit :=
  item <- gets (fun item => item) ;;
  (if truthy (dict_get item "subject") then
     subjects <- lift_res (py_iter (dict_get item "subject")) ;;
     for_each subjects stt_subject
   else ret tt) ;;
  item <- gets (fun item => item) ;;
  if truthy (dict_get item "firstpublished") then
    let firstpublished := parse_date (dict_get item "firstpublished") in
    versioncreated <- lift_res (dict_item item "versioncreated") ;;
    earlier <- lift_res (py_lt firstpublished versioncreated) ;;
    old <- (if (earlier : bool)
            then lift_res (py_lt firstpublished (VInt (utcnow - seven_days)))
            else ret false) ;;
    if (old : bool) then modify (fun item => dict_set item "versioncreated" firstpublished)
    else ret tt
  else ret tt.

(** [{'terms': {'field': field, 'size': 50}}] *)
Definition stt_aggregation (field : string) : pyval :=
  VDict [("terms"%string, VDict [("field"%string, VStr field); ("size"%string, VInt 50)])].

(** What [init_app] does to [app.config['WIRE_AGGS']]: one [update] per field
    of [STT_FIELDS]. *)
Definition stt_wire_aggs (aggs : dict) : dict :=
  fold_left (fun a field => dict_set a field (stt_aggregation field)) STT_FIELDS aggs.

(** * More notions *)

(** The ids joined by commas, as a client writes a list of ids in one
    parameter. *)
Fixpoint join_commas (l : list string) : string :=
  match l with
  | [] => EmptyString
  | x :: r =>
      match r with
      | [] => x
      | _ => String.append x (String ","%char (join_commas r))
      end
  end.

Fixpoint comma_free (s : string) : bool :=
  match s with
  | EmptyString => true
  | String c r => negb (Ascii.eqb c ","%char) && comma_free r
  end.

(** A boolean query with the three lists of clauses and what follows them. *)
Definition bool_query (must must_not should : list pyval) (rest : dict) : pyval :=
  VDict [("bool"%string,
          VDict (("must"%string, VList must)
                   :: ("must_not"%string, VList must_not)
                   :: ("should"%string, VList should) :: rest))].

(** Whether [apply_product_filter] goes on to the stored query of a product,
    for a [requested_products] argument that is absent or a list. *)
Definition product_selected (requested : pyval) (product : dict) : bool :=
  if truthy requested then
    match requested with
    | VList l => list_contains l (dict_get product "_id")
    | _ => true
    end
  else true.

(** The clause [apply_products_filter] adds for the product codes. *)
Definition code_clauses (ps : list dict) : list pyval :=
  let product_ids :=
    map (fun p => dict_get p "sd_product_id")
        (filter (fun p => truthy (dict_get p "sd_product_id")) ps) in
  match product_ids with
  | [] => []
  | _ => [VDict [("terms"%string, VDict [("products.code"%string, VList product_ids)])]]
  end.

(** The clauses [apply_product_filter] adds over the products. *)
Definition stored_query_clauses (e : Env) (requested : pyval) (ps : list dict) : list pyval :=
  map (fun p => query_string e (dict_get p "query") (VStr "AND"))
      (filter (fun p => product_selected requested p && truthy (dict_get p "query")) ps).

(** The filter stages of [apply_filters], before [minimum_should_match]. *)
Definition filter_stages (e : Env) : M SearchQuery unit :=
  apply_section_filter e ;;
  apply_company_filter e ;;
  apply_time_limit_filter e ;;
  apply_products_filter e ;;
  apply_request_filter e.

(** The assignments [item[k] = v] the loop of [on_publish_item] makes for a
    list of subjects, in order. *)
Fixpoint stt_assignments (subjects : list pyval) : list (string * pyval) :=
  match subjects with
  | [] => []
  | VDict sd :: r =>
      if list_contains (map VStr STT_FIELDS) (dict_get_default sd "scheme" (VStr EmptyString))
      then match dict_get sd "scheme" with
           | VStr k => (k, dict_get_default sd "name" (dict_get sd "code")) :: stt_assignments r
           | _ => stt_assignments r
           end
      else stt_assignments r
  | _ :: r => stt_assignments r
  end.

(** Every subject is a dictionary. *)
Definition subjects_well_formed (subjects : list pyval) : bool :=
  forallb (fun s => match s with VDict _ => true | _ => false end) subjects.

(** The environment with another [app.config['WIRE_AGGS']]. *)
Definition with_WIRE_AGGS (v : pyval) (e : Env) : Env :=
  mkEnv (get_user e) (is_admin e) (find_user e) (get_user_company e)
    (get_products_by_navigation e) (get_product_by_id e) (get_products_by_company e)
    (section_filter_clauses e) (analyze_wildcard e) v (COMPANY_TYPES e)
    (FILTER_BY_POST_FILTER e) (FILTER_AGGREGATIONS e) (get_setting e)
    (should_highlight e) (get_elastic_highlight_query e) (get_local_date e)
    (get_end_date e) (json_dumps e) (json_loads e) (index_get e) (find_one e)
    (recursion_limit e).

(** The environment with another [app.config['FILTER_BY_POST_FILTER']]. *)
Definition with_FILTER_BY_POST_FILTER (v : pyval) (e : Env) : Env :=
  mkEnv (get_user e) (is_admin e) (find_user e) (get_user_company e)
    (get_products_by_navigation e) (get_product_by_id e) (get_products_by_company e)
    (section_filter_clauses e) (analyze_wildcard e) (WIRE_AGGS e) (COMPANY_TYPES e)
    v (FILTER_AGGREGATIONS e) (get_setting e)
    (should_highlight e) (get_elastic_highlight_query e) (get_local_date e)
    (get_end_date e) (json_dumps e) (json_loads e) (index_get e) (find_one e)
    (recursion_limit e).

(** The first statement of [on_publish_item]: the loop over the subjects. *)
Definition populate_stt_fields : M dict unit :=
  item <- gets (fun item => item) ;;
  if truthy (dict_get item "subject") then
    subjects <- lift_res (py_iter (dict_get item "subject")) ;;
    for_each subjects stt_subject
  else ret tt.

(** The second statement of [on_publish_item]: the date of archive items. *)
Definition set_archive_date (parse_date : pyval -> pyval) (utcnow : Z) : M dict unit :=
  item <- gets (fun item => item) ;;
  if truthy (dict_get item "firstpublished") then
    let firstpublished := parse_date (dict_get item "firstpublished") in
    versioncreated <- lift_res (dict_item item "versioncreated") ;;
    earlier <- lift_res (py_lt firstpublished versioncreated) ;;
    old <- (if (earlier : bool)
            then lift_res (py_lt firstpublished (VInt (utcnow - seven_days)))
            else ret false) ;;
    if (old : bool) then modify (fun item => dict_set item "versioncreated" firstpublished)
    else ret tt
  else ret tt.

(** [subject.get('scheme', '')], for a subject that is a dictionary. *)
Definition scheme_of (subject : pyval) : pyval :=
  match subject with
  | VDict sd => dict_get_default sd "scheme" (VStr EmptyString)
  | _ => VNone
  end.

(** The item after the assignments, made in order. *)
Definition stt_writes (l : list (string * pyval)) (item : dict) : dict :=
  fold_left (fun it kv => dict_set it (fst kv) (snd kv)) l item.

(** The query of the context has the clauses, others after them at most, and
    nothing beside the three lists. *)
Definition grown_from (must must_not should : list pyval) (s : SearchQuery) : Prop :=
  exists m' mn' sh',
    query s = bool_query (must ++ m') (must_not ++ mn') (should ++ sh') [].

(** The aggregations of the source. *)
Definition source_aggs (s : SearchQuery) : option pyval := dict_find "aggs" (source s).

(** The stage does not read [search.requested_products]: on two contexts
    that differ by that attribute it ends the same way, and leaves contexts
    that differ by that attribute only. *)
Definition ignores_requested_products {A : Type} (m : M SearchQuery A) : Prop :=
  forall l s,
    m (set_requested_products l s) = (fst (m s), set_requested_products l (snd (m s))).


(** The environment with another [is_admin]. *)
Definition with_is_admin (f : option dict -> bool) (e : Env) : Env :=
  mkEnv (get_user e) f (find_user e) (get_user_company e)
    (get_products_by_navigation e) (get_product_by_id e) (get_products_by_company e)
    (section_filter_clauses e) (analyze_wildcard e) (WIRE_AGGS e) (COMPANY_TYPES e)
    (FILTER_BY_POST_FILTER e) (FILTER_AGGREGATIONS e) (get_setting e)
    (should_highlight e) (get_elastic_highlight_query e) (get_local_date e)
    (get_end_date e) (json_dumps e) (json_loads e) (index_get e) (find_one e)
    (recursion_limit e).

(** An [is_admin] that, given no user, answers for the user of the session. *)
Definition is_admin_or_session (session_user u : option dict) : bool :=
  match u with
  | Some _ => Fixture.has_role u
  | None => Fixture.has_role session_user
  end.

(** * Properties *)

(** ** Builtins *)

Example int_of_str_25 : int_of_str " 1_000 " = Some 1000.
Proof. reflexivity. Qed.

Example int_of_str_neg : int_of_str "-5" = Some (-5).
Proof. reflexivity. Qed.

Example int_of_str_bad : int_of_str "abc" = None /\ int_of_str "1__0" = None.
Proof. split; reflexivity. Qed.

(** The spaces U+00A0 and U+0085 are stripped, the separator 28 is not. *)
Example int_of_str_spaces :
  int_of_str (String (ascii_of_nat 160) "5") = Some 5 /\
  int_of_str (String.append "5" (String (ascii_of_nat 133) EmptyString)) = Some 5 /\
  int_of_str (String (ascii_of_nat 28) "5") = None.
Proof. repeat split; reflexivity. Qed.

(** A string of 4300 digits is read, one of 4301 is not. *)
Example int_of_str_limit :
  int_of_str (string_of_list_ascii (repeat "1"%char 4300)) <> None /\
  int_of_str (string_of_list_ascii (repeat "0"%char 4301)) = None.
Proof.
  split.
  - intros H. vm_compute in H. discriminate H.
  - vm_compute. reflexivity.
Qed.

Example str_of_int_ex : str_of_int 30 = "30"%string /\ str_of_int 0 = "0"%string.
Proof. split; reflexivity. Qed.

Example split_ex : split_on ","%char "a,b" = ["a"; "b"]%string.
Proof. reflexivity. Qed.

(** ** Lemmas on dictionaries *)

Lemma dict_find_set_same (d : dict) (k : string) (v : pyval) :
  dict_find k (dict_set d k v) = Some v.
Proof.
  induction d as [|[k' v'] r IH]; simpl.
  - now rewrite String.eqb_refl.
  - destruct (String.eqb k k') eqn:E; simpl; rewrite E; auto.
Qed.

Lemma dict_find_set_other (d : dict) (k k' : string) (v : pyval) :
  k' <> k -> dict_find k' (dict_set d k v) = dict_find k' d.
Proof.
  intros Hne. induction d as [|[k0 v0] r IH]; simpl.
  - destruct (String.eqb k' k) eqn:E; auto.
    apply String.eqb_eq in E. contradiction.
  - destruct (String.eqb k k0) eqn:E; simpl.
    + apply String.eqb_eq in E. subst k0.
      destruct (String.eqb k' k) eqn:E'; auto.
      apply String.eqb_eq in E'. contradiction.
    + destruct (String.eqb k' k0); auto.
Qed.

Lemma dict_get_set_same (d : dict) (k : string) (v : pyval) :
  dict_get (dict_set d k v) k = v.
Proof. unfold dict_get. now rewrite dict_find_set_same. Qed.

Lemma dict_get_set_other (d : dict) (k k' : string) (v : pyval) :
  k' <> k -> dict_get (dict_set d k v) k' = dict_get d k'.
Proof. intros. unfold dict_get. now rewrite dict_find_set_other. Qed.

Lemma dict_get_default_set_same (d : dict) (k : string) (v dv : pyval) :
  dict_get_default (dict_set d k v) k dv = v.
Proof. unfold dict_get_default. now rewrite dict_find_set_same. Qed.

Lemma dict_get_default_set_other (d : dict) (k k' : string) (v dv : pyval) :
  k' <> k -> dict_get_default (dict_set d k v) k' dv = dict_get_default d k' dv.
Proof. intros. unfold dict_get_default. now rewrite dict_find_set_other. Qed.

(** Writing to a key the value it already has leaves the dictionary as it is. *)
Lemma dict_set_same_value (d : dict) (k : string) (v : pyval) :
  dict_find k d = Some v -> dict_set d k v = d.
Proof.
  induction d as [|[k' v'] r IH]; simpl; [discriminate|].
  destruct (String.eqb k k') eqn:E.
  - intros H. now inversion H.
  - intros H. now rewrite IH.
Qed.

Lemma dict_set_idem (d : dict) (k : string) (v : pyval) :
  dict_set (dict_set d k v) k v = dict_set d k v.
Proof. apply dict_set_same_value, dict_find_set_same. Qed.

(** ** The monad *)

Lemma bind_ok {S A B : Type} (m : M S A) (f : A -> M S B) (s s' : S) (a : A) :
  m s = (Ok a, s') -> bind m f s = f a s'.
Proof. intros H. unfold bind. now rewrite H. Qed.

Lemma bind_raise {S A B : Type} (m : M S A) (f : A -> M S B) (s s' : S) (x : exn) :
  m s = (Raise x, s') -> bind m f s = (Raise x, s').
Proof. intros H. unfold bind. now rewrite H. Qed.

Lemma bind_assoc {S A B C : Type} (m : M S A) (f : A -> M S B) (g : B -> M S C) (s : S) :
  bind (bind m f) g s = bind m (fun a => bind (f a) g) s.
Proof. unfold bind. destruct (m s) as [[a|x] s']; reflexivity. Qed.

Lemma lift_bind {A B : Type} (m : M SearchQuery A) (f : A -> M SearchQuery B) (w : World) :
  lift (bind m f) w = bind (lift m) (fun a => lift (f a)) w.
Proof.
  unfold lift, bind. destruct (m (search w)) as [[a|x] s']; simpl; reflexivity.
Qed.

Lemma lift_ok {A : Type} (m : M SearchQuery A) (w : World) (a : A) (s' : SearchQuery) :
  m (search w) = (Ok a, s') -> lift m w = (Ok a, set_search s' w).
Proof. intros H. unfold lift. now rewrite H. Qed.

Lemma lift_raise {A : Type} (m : M SearchQuery A) (w : World) (x : exn) (s' : SearchQuery) :
  m (search w) = (Raise x, s') -> lift m w = (Raise x, set_search s' w).
Proof. intros H. unfold lift. now rewrite H. Qed.

(** A stage of the pipeline sends nothing and leaves [_matched_ids] alone. *)
Lemma lift_frame {A : Type} (m : M SearchQuery A) (w w' : World) (r : Res A) :
  lift m w = (r, w') ->
  dispatched w' = dispatched w /\ _matched_ids w' = _matched_ids w.
Proof.
  unfold lift. destruct (m (search w)) as [r0 s']. intros H. inversion H. auto.
Qed.

(** ** [get] in phases *)

(** [get] is the derivation of the context followed by [serve]. *)
Lemma get_phases (e : Env) (r : option ParsedRequest) (lk : pyval) (w : World) :
  get e r lk w =
  bind (lift (derive_context e r lk)) (fun _ => serve e (all_versions_requested r)) w.
Proof.
  unfold get, derive_context, serve, _search_all_versions, dispatch_all_versions,
    dispatch_standard, all_versions_requested.
  cbv [bind lift modify gets ret prefill_search_args search set_search set_args
       set_projections set_req args].
  simpl.
  destruct (truthy (dict_get (request_args r) "all_versions")).
  - cbv [set_arg set_args args]. simpl.
    match goal with |- context [prefill_search_query e lk ?s] =>
      destruct (prefill_search_query e lk s) as [[[]|x] s1] end; reflexivity.
  - match goal with |- context [prefill_search_query e lk ?s] =>
      destruct (prefill_search_query e lk s) as [[[]|x] s1] end; reflexivity.
Qed.

(** ** What a stage leaves alone *)

Section Preservation.

Context {T : Type} (f : SearchQuery -> T).

Lemma preserves_ret {A : Type} (a : A) : preserves f (ret a).
Proof. intros s. reflexivity. Qed.

Lemma preserves_raise {A : Type} (x : exn) : preserves f (@raise _ A x).
Proof. intros s. reflexivity. Qed.

Lemma preserves_lift_res {A : Type} (r : Res A) : preserves f (lift_res r).
Proof. intros s. reflexivity. Qed.

Lemma preserves_gets {A : Type} (g : SearchQuery -> A) : preserves f (gets g).
Proof. intros s. reflexivity. Qed.

Lemma preserves_modify (g : SearchQuery -> SearchQuery) :
  (forall s, f (g s) = f s) -> preserves f (modify g).
Proof. intros H s. apply H. Qed.

Lemma preserves_bind {A B : Type} (m : M SearchQuery A) (k : A -> M SearchQuery B) :
  preserves f m -> (forall a, preserves f (k a)) -> preserves f (bind m k).
Proof.
  intros Hm Hk s. unfold bind. specialize (Hm s).
  destruct (m s) as [[a|x] s1]; simpl in *.
  - now rewrite Hk.
  - assumption.
Qed.

Lemma preserves_for_each {A : Type} (l : list A) (body : A -> M SearchQuery unit) :
  (forall a, preserves f (body a)) -> preserves f (for_each l body).
Proof.
  intros Hb. induction l as [|a l IH]; simpl.
  - apply preserves_ret.
  - apply preserves_bind; auto.
Qed.

Lemma preserves_extend_clauses (key : string) (cs : list pyval) :
  (forall q s, f (set_query q s) = f s) -> preserves f (extend_clauses key cs).
Proof.
  intros H s. unfold extend_clauses.
  destruct (bool_extend key cs (query s)); simpl; auto.
Qed.

Lemma preserves_run {A : Type} (m : M SearchQuery A) (s s' : SearchQuery) (r : Res A) :
  preserves f m -> m s = (r, s') -> f s' = f s.
Proof. intros H E. specialize (H s). now rewrite E in H. Qed.

End Preservation.

(** Goes through a stage statement by statement. *)
Ltac preserves_step :=
  first
    [ apply preserves_ret
    | apply preserves_raise
    | apply preserves_lift_res
    | apply preserves_gets
    | apply preserves_modify; intros; reflexivity
    | apply preserves_extend_clauses; intros; reflexivity
    | apply preserves_for_each; intros
    | apply preserves_bind; [ | intros ]
    | match goal with
      | |- preserves _ (if ?c then _ else _) => destruct c
      | |- preserves _ (match ?x with _ => _ end) => destruct x
      | |- preserves _ (let _ := _ in _) => cbv zeta
      end ].

Ltac preserves_tac := repeat preserves_step.

Lemma prefill_search_lookup_keeps_args (lk : pyval) :
  preserves args_and_req (prefill_search_lookup lk).
Proof. unfold prefill_search_lookup. preserves_tac. Qed.

Lemma prefill_search_user_keeps_args (e : Env) :
  preserves args_and_req (prefill_search_user e).
Proof. unfold prefill_search_user. preserves_tac. Qed.

Lemma prefill_search_company_keeps_args (e : Env) :
  preserves args_and_req (prefill_search_company e).
Proof. unfold prefill_search_company. preserves_tac. Qed.

Lemma prefill_search_section_keeps_args : preserves args_and_req prefill_search_section.
Proof. unfold prefill_search_section. preserves_tac. Qed.

Lemma prefill_search_navigation_keeps_args : preserves args_and_req prefill_search_navigation.
Proof. unfold prefill_search_navigation. preserves_tac. Qed.

Lemma prefill_search_products_keeps_args (e : Env) :
  preserves args_and_req (prefill_search_products e).
Proof. unfold prefill_search_products. preserves_tac. Qed.

Lemma prefill_search_items_keeps_args : preserves args_and_req prefill_search_items.
Proof. unfold prefill_search_items, append_clause. preserves_tac. Qed.

Lemma prefill_search_highlights_keeps_args (e : Env) :
  preserves args_and_req (prefill_search_highlights e).
Proof. unfold prefill_search_highlights. preserves_tac. Qed.

Lemma validate_request_keeps_args : preserves args_and_req validate_request.
Proof. unfold validate_request. preserves_tac. Qed.

Lemma apply_filters_keeps_args (e : Env) : preserves args_and_req (apply_filters e).
Proof.
  unfold apply_filters, apply_section_filter, apply_company_filter,
    apply_time_limit_filter, apply_products_filter, apply_product_filter,
    apply_request_filter, set_minimum_should_match, extend_post_filter, append_clause.
  preserves_tac.
Qed.

Lemma gen_source_from_search_keeps_args (e : Env) :
  preserves args_and_req (gen_source_from_search e).
Proof. unfold gen_source_from_search. preserves_tac. Qed.

Lemma get_internal_request_keeps_args (e : Env) :
  preserves args_and_req (get_internal_request e).
Proof. unfold get_internal_request. preserves_tac. Qed.

Lemma set_query_bool_keeps_args (v : pyval) : preserves args_and_req (set_query_bool v).
Proof. unfold set_query_bool. preserves_tac. Qed.

(** ** Pagination arguments *)

Lemma bind_ok_inv {S A B : Type} (m : M S A) (f : A -> M S B) (s s' : S) (b : B) :
  bind m f s = (Ok b, s') ->
  exists a s1, m s = (Ok a, s1) /\ f a s1 = (Ok b, s').
Proof.
  unfold bind. destruct (m s) as [[a|x] s1]; intros H.
  - now exists a, s1.
  - discriminate.
Qed.

Lemma sort_fallback_truthy (r : option RequestRef) : truthy (sort_fallback r) = true.
Proof.
  unfold sort_fallback. destruct r as [rq|]; [|reflexivity].
  destruct (truthy (ref_sort rq)) eqn:E; [assumption|reflexivity].
Qed.

Lemma prefill_search_page_args (s : SearchQuery) :
  prefill_search_page s =
  (fst (page_args (sort_fallback (req s)) (args s)),
   set_args (snd (page_args (sort_fallback (req s)) (args s))) s).
Proof.
  unfold prefill_search_page, page_args, sort_fallback.
  cbv [bind gets modify ret lift_res set_arg]. 
  destruct s as [u ia c sec nav ps rps a lk pj rq ag src q h]. simpl.
  destruct (truthy (dict_get a "sort")); simpl.
  - destruct (py_int (dict_get_default a "size" (VInt default_page_size))) as [n|x]; simpl;
      [|reflexivity].
    destruct (py_int (dict_get_default (dict_set a "size" (VInt n)) "from" (VInt 0)))
      as [m|x]; reflexivity.
  - match goal with |- context [dict_set a "sort" ?v] => set (a1 := dict_set a "sort" v) end.
    destruct (py_int (dict_get_default a1 "size" (VInt default_page_size))) as [n|x]; simpl;
      [|reflexivity].
    destruct (py_int (dict_get_default (dict_set a1 "size" (VInt n)) "from" (VInt 0)))
      as [m|x]; reflexivity.
Qed.

(** Keys other than [sort], [size] and [from] keep their value. *)
Lemma page_args_other (d : pyval) (a : dict) (k : string) :
  k <> "sort"%string -> k <> "size"%string -> k <> "from"%string ->
  dict_find k (snd (page_args d a)) = dict_find k a.
Proof.
  intros H1 H2 H3. unfold page_args.
  set (a1 := if truthy (dict_get a "sort") then a else dict_set a "sort" d).
  assert (E1 : dict_find k a1 = dict_find k a).
  { unfold a1. destruct (truthy (dict_get a "sort")); [reflexivity|].
    now apply dict_find_set_other. }
  destruct (py_int (dict_get_default a1 "size" (VInt default_page_size))) as [n|x]; simpl;
    [|assumption].
  destruct (py_int (dict_get_default (dict_set a1 "size" (VInt n)) "from" (VInt 0)))
    as [m|x]; simpl.
  - rewrite dict_find_set_other by assumption.
    rewrite dict_find_set_other by assumption. assumption.
  - rewrite dict_find_set_other by assumption. assumption.
Qed.

(** On the dictionary it has written, [prefill_search_page] writes the same
    again and ends the same way. *)
Lemma page_args_idempotent (d : pyval) (a : dict) :
  truthy d = true ->
  page_args d (snd (page_args d a)) = page_args d a.
Proof.
  intros Hd. unfold page_args at 2 3.
  set (a1 := if truthy (dict_get a "sort") then a else dict_set a "sort" d).
  assert (Hs1 : truthy (dict_get a1 "sort") = true).
  { unfold a1. destruct (truthy (dict_get a "sort")) eqn:E; [assumption|].
    now rewrite dict_get_set_same. }
  destruct (py_int (dict_get_default a1 "size" (VInt default_page_size))) as [n|x] eqn:En;
    simpl.
  - set (a2 := dict_set a1 "size" (VInt n)).
    assert (Hs2 : truthy (dict_get a2 "sort") = true).
    { unfold a2. rewrite dict_get_set_other by discriminate. assumption. }
    assert (Hz2 : dict_get_default a2 "size" (VInt default_page_size) = VInt n).
    { unfold a2. apply dict_get_default_set_same. }
    destruct (py_int (dict_get_default a2 "from" (VInt 0))) as [m|x] eqn:Em; simpl.
    + set (a3 := dict_set a2 "from" (VInt m)).
      unfold page_args.
      assert (Hs3 : truthy (dict_get a3 "sort") = true).
      { unfold a3. rewrite dict_get_set_other by discriminate. assumption. }
      rewrite Hs3.
      assert (Hz3 : dict_find "size" a3 = Some (VInt n)).
      { unfold a3, a2. rewrite dict_find_set_other by discriminate.
        apply dict_find_set_same. }
      unfold dict_get_default at 1. rewrite Hz3. simpl.
      rewrite (dict_set_same_value a3 "size" (VInt n) Hz3).
      assert (Hf3 : dict_find "from" a3 = Some (VInt m)).
      { unfold a3. apply dict_find_set_same. }
      unfold dict_get_default. rewrite Hf3. simpl.
      now rewrite (dict_set_same_value a3 "from" (VInt m) Hf3).
    + unfold page_args. rewrite Hs2, Hz2. simpl.
      assert (Hi : dict_set a2 "size" (VInt n) = a2) by apply dict_set_idem.
      rewrite Hi. now rewrite Em.
  - unfold page_args. rewrite Hs1, En. reflexivity.
Qed.

(** When it returns, [size] and [from] are integers. *)
Lemma page_args_ok (d : pyval) (a a' : dict) :
  page_args d a = (Ok tt, a') ->
  exists size from,
    dict_find "size" a' = Some (VInt size) /\ dict_find "from" a' = Some (VInt from).
Proof.
  unfold page_args.
  set (a1 := if truthy (dict_get a "sort") then a else dict_set a "sort" d).
  destruct (py_int (dict_get_default a1 "size" (VInt default_page_size))) as [n|x];
    [|discriminate].
  destruct (py_int (dict_get_default (dict_set a1 "size" (VInt n)) "from" (VInt 0)))
    as [m|x]; [|discriminate].
  intros H. inversion H. exists n, m. split.
  - rewrite dict_find_set_other by discriminate. apply dict_find_set_same.
  - apply dict_find_set_same.
Qed.

(** ** The derivation of the context, step by step *)

Lemma derive_context_steps (e : Env) (r : option ParsedRequest) (lk : pyval)
    (s0 : SearchQuery) :
  derive_context e r lk s0 =
  match fst (paged r) with
  | Ok _ => context_rest e (set_args (snd (paged r)) (start_context r lk))
  | Raise x => (Raise x, set_args (snd (paged r)) (start_context r lk))
  end.
Proof.
  unfold derive_context, prefill_search_query, context_rest.
  assert (Hstart :
    forall k : unit -> M SearchQuery unit,
      bind (modify (fun _ => SearchQuery_init))
        (fun _ => bind (prefill_search_args r)
           (fun _ => bind (if all_versions_requested r
                           then modify (set_arg "ignore_latest" (VBool true))
                           else ret tt)
              (fun _ => bind (prefill_search_lookup lk) k))) s0
      = k tt (start_context r lk)).
  { intros k. unfold start_context, start_args, prefill_search_args, prefill_search_lookup.
    cbv [bind modify ret set_arg]. simpl.
    destruct (all_versions_requested r); reflexivity. }
  rewrite Hstart. unfold bind at 1.
  rewrite prefill_search_page_args. unfold paged. simpl.
  destruct (page_args (sort_fallback (option_map ref_of r)) (start_args r)) as [[[]|x] a'];
    reflexivity.
Qed.

(** Where the context derives, the arguments are those [prefill_search_page]
    left and the request reference is the one [prefill_search_args] stored. *)
Lemma context_rest_keeps_args (e : Env) : preserves args_and_req (context_rest e).
Proof.
  unfold context_rest.
  apply preserves_bind; [apply prefill_search_user_keeps_args | intros _].
  apply preserves_bind; [apply prefill_search_company_keeps_args | intros _].
  apply preserves_bind; [apply prefill_search_section_keeps_args | intros _].
  apply preserves_bind; [apply prefill_search_navigation_keeps_args | intros _].
  apply preserves_bind; [apply prefill_search_products_keeps_args | intros _].
  apply preserves_bind; [apply prefill_search_items_keeps_args | intros _].
  apply prefill_search_highlights_keeps_args.
Qed.

Lemma derive_context_args (e : Env) (r : option ParsedRequest) (lk : pyval)
    (s0 s : SearchQuery) (res : Res unit) :
  derive_context e r lk s0 = (res, s) ->
  args s = snd (paged r) /\ req s = option_map ref_of r.
Proof.
  rewrite derive_context_steps.
  destruct (fst (paged r)) as [[]|x]; intros H.
  - pose proof (preserves_run args_and_req _ _ _ _ (context_rest_keeps_args e) H) as E.
    unfold args_and_req in E. simpl in E. inversion E. auto.
  - inversion H. auto.
Qed.

Lemma derive_context_ok_paged (e : Env) (r : option ParsedRequest) (lk : pyval)
    (s0 s : SearchQuery) :
  derive_context e r lk s0 = (Ok tt, s) ->
  fst (paged r) = Ok tt /\
  context_rest e (set_args (snd (paged r)) (start_context r lk)) = (Ok tt, s).
Proof.
  rewrite derive_context_steps.
  destruct (fst (paged r)) as [[]|x]; intros H; [auto|discriminate].
Qed.

(** An argument that pagination and [ignore_latest] do not concern reaches
    the stages as the request has it. *)
Lemma paged_other (r : option ParsedRequest) (k : string) :
  k <> "sort"%string -> k <> "size"%string -> k <> "from"%string ->
  k <> "ignore_latest"%string ->
  dict_find k (snd (paged r)) = dict_find k (request_args r).
Proof.
  intros H1 H2 H3 H4. unfold paged. rewrite page_args_other by assumption.
  unfold start_args. destruct (all_versions_requested r); [|reflexivity].
  now apply dict_find_set_other.
Qed.

(** ** Validation *)

Lemma derive_context_fresh (e : Env) (r : option ParsedRequest) (lk : pyval)
    (s0 s0' : SearchQuery) :
  derive_context e r lk s0 = derive_context e r lk s0'.
Proof. reflexivity. Qed.

(** A call whose context derives is the service of that context. *)
Lemma get_of_context (e : Env) (r : option ParsedRequest) (lk : pyval) (w : World)
    (s : SearchQuery) :
  derive_context e r lk SearchQuery_init = (Ok tt, s) ->
  get e r lk w = serve e (all_versions_requested r) (set_search s w).
Proof.
  intros H. rewrite get_phases.
  rewrite (bind_ok _ _ w (set_search s w) tt); [reflexivity|].
  apply lift_ok. exact H.
Qed.

(** A call whose context does not derive raises what the prefill stage raised
    and sends nothing. *)
Lemma get_of_failed_context (e : Env) (r : option ParsedRequest) (lk : pyval) (w : World)
    (s : SearchQuery) (x : exn) :
  derive_context e r lk SearchQuery_init = (Raise x, s) ->
  get e r lk w = (Raise x, set_search s w).
Proof.
  intros H. rewrite get_phases.
  rewrite (bind_raise _ _ w (set_search s w) x); [reflexivity|].
  apply lift_raise. exact H.
Qed.

(** What validation raises, the call raises, before anything is sent. *)
Lemma serve_rejected (e : Env) (b : bool) (w : World) (x : exn) (s' : SearchQuery) :
  validate_request (search w) = (Raise x, s') ->
  serve e b w = (Raise x, set_search s' w).
Proof.
  intros H. unfold serve.
  rewrite (bind_raise _ _ w (set_search s' w) x); [reflexivity|].
  now apply lift_raise.
Qed.

Lemma validate_request_no_company (s : SearchQuery) :
  search_is_admin s = false ->
  truthy_record (company s) = false ->
  validate_request s =
  (Raise (HTTPException 403 "User does not belong to a company."), s).
Proof.
  intros Ha Hc. unfold validate_request, bind, gets, raise.
  now rewrite Ha, Hc.
Qed.

Lemma validate_request_no_products (s : SearchQuery) :
  search_is_admin s = false ->
  truthy_record (company s) = true ->
  products s = [] ->
  validate_request s =
  (Raise (HTTPException 403 "Your company doesn't have any products defined."), s).
Proof.
  intros Ha Hc Hp. unfold validate_request, bind, gets, raise.
  now rewrite Ha, Hc, Hp.
Qed.

(** Validation of an administrator's request never raises. *)
Lemma validate_request_admin (s : SearchQuery) :
  search_is_admin s = true -> validate_request s = (Ok tt, s).
Proof.
  intros Ha. unfold validate_request, bind, gets, ret. now rewrite Ha.
Qed.

Lemma set_search_search (w : World) (s : SearchQuery) : search (set_search s w) = s.
Proof. reflexivity. Qed.

Lemma set_search_twice (w : World) (s s' : SearchQuery) :
  set_search s' (set_search s w) = set_search s' w.
Proof. reflexivity. Qed.

(** C2. A request whose derived context is not an administrator's and has no
    company, or a company with no entitled product, is refused with a 403
    (the authorization error), and the call sends nothing to the index. *)
Theorem unentitled_requester_is_refused
    (e : Env) (r : option ParsedRequest) (lk : pyval) (w : World) (s : SearchQuery) :
  derive_context e r lk SearchQuery_init = (Ok tt, s) ->
  search_is_admin s = false ->
  truthy_record (company s) = false \/ products s = [] ->
  exists description w',
    get e r lk w = (Raise (HTTPException 403 description), w') /\
    dispatched w' = dispatched w.
Proof.
  intros Hctx Hadm Hnone.
  rewrite (get_of_context e r lk w s Hctx).
  destruct (truthy_record (company s)) eqn:Hc.
  - destruct Hnone as [Hn|Hp]; [discriminate|].
    eexists _, _. split.
    + apply serve_rejected. simpl. now apply validate_request_no_products.
    + reflexivity.
  - eexists _, _. split.
    + apply serve_rejected. simpl. now apply validate_request_no_company.
    + reflexivity.
Qed.

(** C2 at work: a reader whose company has no product provisioned. *)
Lemma unentitled_requester_is_refused_witness :
  exists description w',
    get (Fixture.deployment (Some Fixture.reader) [] Fixture.no_hits Fixture.empty_store)
        (Fixture.request [("q"%string, VStr "election")]) VNone Fixture.idle
    = (Raise (HTTPException 403 description), w') /\
    dispatched w' = dispatched Fixture.idle.
Proof.
  eapply unentitled_requester_is_refused.
  - vm_compute. reflexivity.
  - reflexivity.
  - right. reflexivity.
Defined.

Lemma dict_item_of_get (d : dict) (k : string) (v : pyval) :
  dict_get d k = v -> truthy v = true -> dict_item d k = Ok v.
Proof.
  unfold dict_get, dict_item. destruct (dict_find k d).
  - now intros ->.
  - intros <-. discriminate.
Qed.

Lemma forallb_exception {A : Type} (f : A -> bool) (l : list A) (a : A) :
  In a l -> f a = false -> forallb f l = false.
Proof.
  intros Hin Hf. destruct (forallb f l) eqn:E; [|reflexivity].
  rewrite forallb_forall in E. rewrite (E a Hin) in Hf. discriminate.
Qed.

Lemma validate_request_unknown_product (s : SearchQuery) (l : list pyval) (p : pyval) :
  search_is_admin s = false ->
  truthy_record (company s) = true ->
  products s <> [] ->
  dict_get (args s) "requested_products" = VList l ->
  In p l ->
  list_contains (entitled_ids s) p = false ->
  validate_request s = (Raise (HTTPException 404 "Invalid product parameter"), s).
Proof.
  intros Ha Hc Hp Hrp Hin Hno.
  assert (Ht : truthy (VList l) = true) by (destruct l; [contradiction|reflexivity]).
  unfold validate_request, bind, gets, raise, lift_res.
  rewrite Ha, Hc. simpl.
  destruct (products s) as [|c cs] eqn:Eps; [contradiction|]. simpl.
  rewrite Hrp, Ht.
  rewrite (dict_item_of_get _ _ _ Hrp Ht). simpl.
  unfold entitled_ids in Hno. rewrite Eps in Hno. simpl in Hno.
  now rewrite (forallb_exception _ l p Hin Hno).
Qed.

(** C1, as the code has it.  For a requester who is not an administrator, has
    a company and at least one entitled product, a [requested_products] list
    holding an id that no entitled product has makes the call raise a 404 (not
    found, not the 403 of an authorization error) before anything is sent to
    the index. *)
Theorem unknown_requested_product_is_not_found
    (e : Env) (r : option ParsedRequest) (lk : pyval) (w : World) (s : SearchQuery)
    (l : list pyval) (p : pyval) :
  derive_context e r lk SearchQuery_init = (Ok tt, s) ->
  search_is_admin s = false ->
  truthy_record (company s) = true ->
  products s <> [] ->
  dict_get (args s) "requested_products" = VList l ->
  In p l ->
  list_contains (entitled_ids s) p = false ->
  exists w',
    get e r lk w = (Raise (HTTPException 404 "Invalid product parameter"), w') /\
    dispatched w' = dispatched w.
Proof.
  intros Hctx Ha Hc Hp Hrp Hin Hno.
  rewrite (get_of_context e r lk w s Hctx).
  eexists. split.
  - apply serve_rejected. simpl.
    now apply (validate_request_unknown_product s l p).
  - reflexivity.
Qed.

(** C1 at work: a reader entitled to P1 and P2 asks for P1 and for an id of
    no product. *)
Lemma unknown_requested_product_is_not_found_witness :
  exists w',
    get (Fixture.deployment (Some Fixture.reader) [Fixture.P1; Fixture.P2]
           Fixture.no_hits Fixture.empty_store)
        (Fixture.request [("requested_products"%string, VList [VStr "p1"; VStr "zz"])])
        VNone Fixture.idle
    = (Raise (HTTPException 404 "Invalid product parameter"), w') /\
    dispatched w' = dispatched Fixture.idle.
Proof.
  eapply unknown_requested_product_is_not_found
    with (l := [VStr "p1"; VStr "zz"]) (p := VStr "zz").
  - vm_compute. reflexivity.
  - reflexivity.
  - reflexivity.
  - discriminate.
  - reflexivity.
  - right. left. reflexivity.
  - reflexivity.
Defined.

(** C1 as the spec words it fails for an administrator: validation does not
    look at the request of an administrator, whose [requested_products] may
    name any id; the call is served and the index is queried. *)
Lemma requested_product_check_skips_administrators :
  ~ (forall (e : Env) (r : option ParsedRequest) (lk : pyval) (w : World)
            (s : SearchQuery) (p : pyval),
        derive_context e r lk SearchQuery_init = (Ok tt, s) ->
        In p (requested_products s) ->
        list_contains (entitled_ids s) p = false ->
        exists description w',
          get e r lk w = (Raise (HTTPException 404 description), w') /\
          dispatched w' = dispatched w).
Proof.
  intros H.
  pose (e := Fixture.deployment (Some Fixture.administrator) [Fixture.P1; Fixture.P2]
               Fixture.no_hits Fixture.empty_store).
  pose (r := Fixture.request [("requested_products"%string, VList [VStr "zz"])]).
  assert (Hctx : exists s,
             derive_context e r VNone SearchQuery_init = (Ok tt, s) /\
             In (VStr "zz") (requested_products s) /\
             list_contains (entitled_ids s) (VStr "zz") = false).
  { eexists. split; [vm_compute; reflexivity|].
    split; [left; reflexivity | reflexivity]. }
  destruct Hctx as (s & H1 & H2 & H3).
  destruct (H e r VNone Fixture.idle s (VStr "zz") H1 H2 H3) as (d & w' & Hget & _).
  vm_compute in Hget. discriminate Hget.
Qed.

(** ** Identity of the requester *)

Lemma prefill_search_section_keeps_identity : preserves identity prefill_search_section.
Proof. unfold prefill_search_section. preserves_tac. Qed.

Lemma prefill_search_navigation_keeps_identity : preserves identity prefill_search_navigation.
Proof. unfold prefill_search_navigation. preserves_tac. Qed.

Lemma prefill_search_products_keeps_identity (e : Env) :
  preserves identity (prefill_search_products e).
Proof. unfold prefill_search_products. preserves_tac. Qed.

Lemma prefill_search_items_keeps_identity : preserves identity prefill_search_items.
Proof. unfold prefill_search_items, append_clause. preserves_tac. Qed.

Lemma prefill_search_highlights_keeps_identity (e : Env) :
  preserves identity (prefill_search_highlights e).
Proof. unfold prefill_search_highlights. preserves_tac. Qed.

Lemma context_tail_keeps_identity (e : Env) : preserves identity (context_tail e).
Proof.
  unfold context_tail.
  apply preserves_bind; [apply prefill_search_section_keeps_identity | intros _].
  apply preserves_bind; [apply prefill_search_navigation_keeps_identity | intros _].
  apply preserves_bind; [apply prefill_search_products_keeps_identity | intros _].
  apply preserves_bind; [apply prefill_search_items_keeps_identity | intros _].
  apply prefill_search_highlights_keeps_identity.
Qed.

Lemma derive_context_identity (e : Env) (r : option ParsedRequest) (lk : pyval)
    (s : SearchQuery) :
  derive_context e r lk SearchQuery_init = (Ok tt, s) ->
  user s = fst (requester e r) /\
  search_is_admin s = snd (requester e r) /\
  company s = get_user_company e (fst (requester e r)).
Proof.
  intros H. apply derive_context_ok_paged in H. destruct H as [_ H].
  set (sp := set_args (snd (paged r)) (start_context r lk)) in H.
  assert (Hu : dict_find "user" (snd (paged r)) = dict_find "user" (request_args r)).
  { apply paged_other; discriminate. }
  change (context_rest e sp)
    with (bind (prefill_search_user e)
            (fun _ => bind (prefill_search_company e) (fun _ => context_tail e)) sp) in H.
  assert (Hstep :
    exists su,
      context_tail e (set_company (get_user_company e (user su)) su) = (Ok tt, s) /\
      user su = fst (requester e r) /\ search_is_admin su = snd (requester e r)).
  { revert H. unfold bind at 1, prefill_search_user, prefill_search_company, requester.
    cbv [bind modify gets lift_res ret]. simpl.
    unfold dict_get, dict_item. rewrite Hu.
    destruct (is_admin e (get_user e)); simpl.
    - destruct (dict_find "user" (request_args r)) as [u|]; simpl.
      + destruct (truthy u); simpl; intros H; eexists; (split; [exact H|split; reflexivity]).
      + intros H; eexists; (split; [exact H|split; reflexivity]).
    - intros H; eexists; (split; [exact H|split; reflexivity]). }
  destruct Hstep as (su & Hrest & Hus & Had).
  pose proof (preserves_run identity _ _ _ _ (context_tail_keeps_identity e) Hrest) as E.
  unfold identity in E. simpl in E. inversion E as [[E1 E2 E3]].
  rewrite <- Hus, <- Had.
  repeat split; try assumption. now rewrite <- E1.
Qed.

(** A derived context of a non-administrator without company is refused for
    that reason, before anything is sent. *)
Lemma refused_without_company (e : Env) (r : option ParsedRequest) (lk : pyval)
    (w : World) (s : SearchQuery) :
  derive_context e r lk SearchQuery_init = (Ok tt, s) ->
  search_is_admin s = false ->
  truthy_record (company s) = false ->
  get e r lk w =
  (Raise (HTTPException 403 "User does not belong to a company."), set_search s w).
Proof.
  intros Hctx Ha Hc. rewrite (get_of_context e r lk w s Hctx).
  exact (serve_rejected e _ (set_search s w) _ s
           (validate_request_no_company s Ha Hc)).
Qed.

(** C10, as the code has it.  An administrator passes a [user] argument
    that is the id of no user: the context's user is absent, and the context
    is an administrator's, and has a company, as [is_admin] and
    [get_user_company] answer for an absent user.  Where they answer that it
    is no administrator and has no company, the call is refused with the 403
    of a user without company, nothing being sent to the index; where
    [is_admin] counts the absent user an administrator, the context is an
    administrator's and passes validation. *)
Theorem impersonating_missing_user_takes_the_absent_identity
    (e : Env) (r : option ParsedRequest) (lk : pyval) (w : World) (s : SearchQuery) :
  is_admin e (get_user e) = true ->
  truthy (dict_get (request_args r) "user") = true ->
  find_user e (dict_get (request_args r) "user") = None ->
  derive_context e r lk SearchQuery_init = (Ok tt, s) ->
  user s = None /\
  search_is_admin s = is_admin e None /\
  company s = get_user_company e None /\
  (is_admin e None = false ->
   truthy_record (get_user_company e None) = false ->
   exists w',
     get e r lk w =
     (Raise (HTTPException 403 "User does not belong to a company."), w') /\
     dispatched w' = dispatched w) /\
  (is_admin e None = true ->
   search_is_admin s = true /\ validate_request s = (Ok tt, s)).
Proof.
  intros Hadm Harg Hfind Hctx.
  destruct (derive_context_identity e r lk s Hctx) as (Hu & Ha & Hc).
  unfold requester in Hu, Ha, Hc. rewrite Hadm, Harg in Hu, Ha, Hc.
  simpl in Hu, Ha, Hc. rewrite Hfind in Hu, Ha, Hc.
  split; [assumption|]. split; [assumption|].
  split; [rewrite Hc; try rewrite Hu; reflexivity|]. split.
  - intros Hn Hco. eexists. split.
    + apply (refused_without_company e r lk w s Hctx).
      * now rewrite Ha.
      * rewrite Hc; try rewrite Hu; assumption.
    + reflexivity.
  - intros Hn. rewrite Hn in Ha. split; [assumption|].
    now apply validate_request_admin.
Qed.

(** C10 at work: the administrator previews the view of a user [ghost], in a
    deployment whose [is_admin] finds an absent user no administrator. *)
Lemma impersonating_missing_user_takes_the_absent_identity_witness :
  let e := Fixture.deployment (Some Fixture.administrator) [Fixture.P1; Fixture.P2]
             Fixture.no_hits Fixture.empty_store in
  let r := Fixture.request [("user"%string, VStr "ghost")] in
  exists s,
    derive_context e r VNone SearchQuery_init = (Ok tt, s) /\
    user s = None /\
    search_is_admin s = false /\
    exists w',
      get e r VNone Fixture.idle =
      (Raise (HTTPException 403 "User does not belong to a company."), w') /\
      dispatched w' = dispatched Fixture.idle.
Proof.
  intros e r.
  assert (Hctx : exists s, derive_context e r VNone SearchQuery_init = (Ok tt, s)).
  { eexists. vm_compute. reflexivity. }
  destruct Hctx as (s & Hctx). exists s. split; [exact Hctx|].
  destruct (impersonating_missing_user_takes_the_absent_identity
              e r VNone Fixture.idle s eq_refl eq_refl eq_refl Hctx)
    as (Hu & Ha & _ & Hrefused & _).
  split; [exact Hu|]. split; [exact Ha|].
  exact (Hrefused eq_refl eq_refl).
Defined.

(** C10 as the spec words it fails where [is_admin] answers for the session
    when it is given no user: the administrator who names a missing user is
    served, as an administrator. *)
Lemma missing_user_is_served_to_a_session_administrator :
  ~ (forall (e : Env) (r : option ParsedRequest) (lk : pyval) (w : World),
        is_admin e (get_user e) = true ->
        truthy (dict_get (request_args r) "user") = true ->
        find_user e (dict_get (request_args r) "user") = None ->
        exists w',
          get e r lk w =
          (Raise (HTTPException 403 "User does not belong to a company."), w')).
Proof.
  intros H.
  pose (e := with_is_admin (is_admin_or_session (Some Fixture.administrator))
               (Fixture.deployment (Some Fixture.administrator) [Fixture.P1; Fixture.P2]
                  Fixture.no_hits Fixture.empty_store)).
  pose (r := Fixture.request [("user"%string, VStr "ghost")]).
  assert (Hget : exists w', get e r VNone Fixture.idle = (Ok (mkCursor [] 0), w')).
  { eexists. vm_compute. reflexivity. }
  destruct Hget as (w1 & Hget).
  destruct (H e r VNone Fixture.idle eq_refl eq_refl eq_refl) as (w' & Hw').
  rewrite Hget in Hw'. discriminate Hw'.
Qed.

(** ** What a call sends to the index *)

Lemma get_internal_request_pure (e : Env) (s : SearchQuery) :
  get_internal_request e s = (Ok (internal_request e s), s).
Proof.
  unfold get_internal_request, internal_request. cbv [bind gets ret].
  destruct (truthy (projections s)); reflexivity.
Qed.

Lemma internal_get_run (e : Env) (q : dict) (lk : pyval) (w : World) :
  internal_get e q lk w = (Ok (index_get e q lk), log_request (q, lk) w).
Proof. reflexivity. Qed.

Lemma dispatch_standard_run (e : Env) (w : World) :
  dispatch_standard e w =
  (Ok (index_get e (internal_request e (search w)) (lookup (search w))),
   log_request (request_of e (search w)) w).
Proof.
  unfold dispatch_standard, lift. cbv [bind gets].
  rewrite get_internal_request_pure. destruct w as [s m d]. reflexivity.
Qed.

(** [get_last_version] sends head lookups only, and touches neither the
    context nor the matched ids. *)
Lemma get_last_version_log (e : Env) (depth : nat) :
  forall (doc : Doc) (w : World),
    search (snd (get_last_version e depth doc w)) = search w /\
    _matched_ids (snd (get_last_version e depth doc w)) = _matched_ids w /\
    exists new,
      dispatched (snd (get_last_version e depth doc w)) = dispatched w ++ new /\
      Forall (is_head_lookup e) new.
Proof.
  induction depth as [|depth IH]; intros doc w.
  - simpl. destruct (truthy (doc_nextversion doc)); simpl.
    + destruct (truthy (doc_original_id doc)); simpl.
      * cbv [bind internal_get modify ret raise]. simpl.
        destruct (count (index_get e (last_version_request e (doc_original_id doc)) VNone)
                  =? 0); simpl.
        -- destruct (find_one e (doc_nextversion doc)); simpl;
             (repeat split; exists [(last_version_request e (doc_original_id doc), VNone)];
              split; [reflexivity|]; constructor; [eexists; reflexivity|constructor]).
        -- destruct (docs (index_get e (last_version_request e (doc_original_id doc)) VNone));
             simpl;
             (repeat split; exists [(last_version_request e (doc_original_id doc), VNone)];
              split; [reflexivity|]; constructor; [eexists; reflexivity|constructor]).
      * cbv [bind ret raise]. 
        destruct (find_one e (doc_nextversion doc)); simpl;
          (repeat split; exists []; split; [now rewrite app_nil_r|constructor]).
    + repeat split. exists []. split; [now rewrite app_nil_r|constructor].
  - simpl. destruct (truthy (doc_nextversion doc)); simpl.
    + destruct (truthy (doc_original_id doc)); simpl.
      * cbv [bind internal_get modify ret raise]. simpl.
        destruct (count (index_get e (last_version_request e (doc_original_id doc)) VNone)
                  =? 0); simpl.
        -- destruct (find_one e (doc_nextversion doc)) as [next_doc|]; simpl.
           ++ destruct (IH next_doc
                          (log_request (last_version_request e (doc_original_id doc), VNone) w))
                as (Hs & Hm & new & Hd & Hf).
              split; [exact Hs|]. split; [exact Hm|].
              exists ((last_version_request e (doc_original_id doc), VNone) :: new).
              split.
              ** rewrite Hd. simpl. now rewrite <- app_assoc.
              ** constructor; [eexists; reflexivity|assumption].
           ++ repeat split. exists [(last_version_request e (doc_original_id doc), VNone)].
              split; [reflexivity|]. constructor; [eexists; reflexivity|constructor].
        -- destruct (docs (index_get e (last_version_request e (doc_original_id doc)) VNone));
             simpl;
             (repeat split; exists [(last_version_request e (doc_original_id doc), VNone)];
              split; [reflexivity|]; constructor; [eexists; reflexivity|constructor]).
      * cbv [bind ret raise].
        destruct (find_one e (doc_nextversion doc)) as [next_doc|]; simpl.
        -- apply IH.
        -- repeat split. exists []. split; [now rewrite app_nil_r|constructor].
    + repeat split. exists []. split; [now rewrite app_nil_r|constructor].
Qed.

(** So does the loop over the documents of the first pass, which does write
    the matched ids. *)
Lemma collect_versions_log (e : Env) (ds : list Doc) :
  forall (acc : list pyval) (w : World),
    search (snd (collect_versions e ds acc w)) = search w /\
    exists new,
      dispatched (snd (collect_versions e ds acc w)) = dispatched w ++ new /\
      Forall (is_head_lookup e) new.
Proof.
  induction ds as [|doc ds IH]; intros acc w.
  - simpl. split; [reflexivity|]. exists []. split; [now rewrite app_nil_r|constructor].
  - set (w1 := set_matched_ids (_matched_ids w ++ [VStr (doc_id doc)]) w).
    assert (E : collect_versions e (doc :: ds) acc w =
                match get_last_version e (recursion_limit e) doc w1 with
                | (Ok last, w2) => collect_versions e ds (acc ++ [VStr (doc_id last)]) w2
                | (Raise x, w2) => (Raise x, w2)
                end) by reflexivity.
    rewrite E. clear E.
    destruct (get_last_version_log e (recursion_limit e) doc w1) as (Hs & _ & new & Hd & Hf).
    destruct (get_last_version e (recursion_limit e) doc w1) as [[last|x] w2]; simpl in *.
    + destruct (IH (acc ++ [VStr (doc_id last)]) w2) as (Hs' & new' & Hd' & Hf').
      split; [now rewrite Hs', Hs|].
      exists (new ++ new'). split.
      * rewrite Hd', Hd. simpl. now rewrite app_assoc.
      * apply Forall_app. auto.
    + split; [assumption|]. exists new. auto.
Qed.

(** ** Compilation *)

Lemma serve_compile (e : Env) (b : bool) (w : World) :
  serve e b w =
  bind (lift (compile e))
       (fun _ => if b then dispatch_all_versions e else dispatch_standard e) w.
Proof.
  unfold serve, compile. cbv [bind lift].
  destruct (validate_request (search w)) as [[[]|x] s1]; simpl; [|reflexivity].
  destruct (apply_filters e s1) as [[[]|x] s2]; simpl; [|reflexivity].
  destruct (gen_source_from_search e s2) as [[[]|x] s3]; reflexivity.
Qed.

Lemma gen_source_from_search_within (e : Env) (s : SearchQuery) (from : Z) :
  offset_of s = Ok from -> from < 1000 ->
  gen_source_from_search e s = (Ok tt, set_source (full_source e s from) s).
Proof.
  intros Ho Hlt. unfold gen_source_from_search, full_source, paged_source.
  cbv [bind gets modify lift_res ret raise set_source_item]. simpl.
  unfold offset_of in Ho. rewrite Ho. simpl.
  assert (E : (1000 <=? from) = false) by (apply Z.leb_gt; assumption).
  rewrite E.
  destruct (negb (negb (from =? 0)) && truthy (dict_get_default (args s) "aggs" (VBool true)));
    simpl; destruct (truthy (highlight s)); reflexivity.
Qed.

Lemma gen_source_from_search_beyond (e : Env) (s : SearchQuery) (from : Z) :
  offset_of s = Ok from -> 1000 <= from ->
  gen_source_from_search e s =
  (Raise (HTTPException 400 "Page limit exceeded"), set_source (paged_source s from) s).
Proof.
  intros Ho Hge. unfold gen_source_from_search, paged_source.
  cbv [bind gets modify lift_res ret raise set_source_item]. simpl.
  unfold offset_of in Ho. rewrite Ho. simpl.
  assert (E : (1000 <=? from) = true) by (apply Z.leb_le; assumption).
  now rewrite E.
Qed.

(** When source generation returns, the offset is an integer below 1000 and
    the source is the full one. *)
Lemma gen_source_from_search_ok (e : Env) (s s' : SearchQuery) :
  gen_source_from_search e s = (Ok tt, s') ->
  exists from,
    offset_of s = Ok from /\ from < 1000 /\ s' = set_source (full_source e s from) s.
Proof.
  intros H. destruct (offset_of s) as [from|x] eqn:Ho.
  - destruct (Z_lt_ge_dec from 1000) as [Hlt|Hge].
    + rewrite (gen_source_from_search_within e s from Ho Hlt) in H.
      inversion H. exists from. auto.
    + rewrite (gen_source_from_search_beyond e s from Ho) in H by lia. discriminate.
  - exfalso. revert H. unfold gen_source_from_search.
    cbv [bind gets modify lift_res ret raise set_source_item]. simpl.
    unfold offset_of in Ho. rewrite Ho. discriminate.
Qed.

Lemma full_source_from (e : Env) (s : SearchQuery) (from : Z) :
  dict_find "from" (full_source e s from) = Some (VInt from).
Proof.
  unfold full_source.
  destruct (truthy (highlight s));
    destruct (negb (truthy (VInt from)) &&
              truthy (dict_get_default (args s) "aggs" (VBool true)));
    repeat (rewrite dict_find_set_other by discriminate);
    apply dict_find_set_same.
Qed.

Lemma full_source_size (e : Env) (s : SearchQuery) (from : Z) :
  dict_find "size" (full_source e s from) =
  Some (py_or (dict_get (args s) "size") (VInt default_page_size)).
Proof.
  unfold full_source.
  destruct (truthy (highlight s));
    destruct (negb (truthy (VInt from)) &&
              truthy (dict_get_default (args s) "aggs" (VBool true)));
    unfold paged_source;
    repeat (rewrite dict_find_set_other by discriminate);
    apply dict_find_set_same.
Qed.

Lemma full_source_sort (e : Env) (s : SearchQuery) (from : Z) :
  dict_find "sort" (full_source e s from) =
  Some (py_or (dict_get (args s) "sort") default_sort).
Proof.
  unfold full_source.
  destruct (truthy (highlight s));
    destruct (negb (truthy (VInt from)) &&
              truthy (dict_get_default (args s) "aggs" (VBool true)));
    unfold paged_source;
    repeat (rewrite dict_find_set_other by discriminate);
    apply dict_find_set_same.
Qed.

Lemma full_source_query (e : Env) (s : SearchQuery) (from : Z) :
  dict_find "query" (full_source e s from) = Some (query s).
Proof.
  unfold full_source.
  destruct (truthy (highlight s));
    destruct (negb (truthy (VInt from)) &&
              truthy (dict_get_default (args s) "aggs" (VBool true)));
    unfold paged_source;
    repeat (rewrite dict_find_set_other by discriminate);
    apply dict_find_set_same.
Qed.

(** The offset of a derived context is the integer [prefill_search_page]
    stored in [from]. *)
Lemma offset_of_int (s : SearchQuery) (n : Z) :
  dict_get (args s) "from" = VInt n -> offset_of s = Ok n.
Proof.
  intros H. unfold offset_of, py_or. rewrite H. simpl.
  destruct (n =? 0) eqn:E; simpl; [|reflexivity].
  apply Z.eqb_eq in E. now subst.
Qed.

Lemma derive_context_offset (e : Env) (r : option ParsedRequest) (lk : pyval)
    (s : SearchQuery) :
  derive_context e r lk SearchQuery_init = (Ok tt, s) ->
  exists n, dict_get (args s) "from" = VInt n.
Proof.
  intros H. destruct (derive_context_args e r lk _ _ _ H) as [Ha _].
  apply derive_context_ok_paged in H. destruct H as [Hp _].
  unfold paged in *. 
  destruct (page_args (sort_fallback (option_map ref_of r)) (start_args r)) as [res a'] eqn:E.
  simpl in *. subst res.
  destruct (page_args_ok _ _ _ E) as (size & from & _ & Hf).
  exists from. rewrite Ha. unfold dict_get. now rewrite Hf.
Qed.

(** ** The page limit *)

Lemma validate_request_state (s : SearchQuery) : snd (validate_request s) = s.
Proof.
  unfold validate_request. cbv [bind gets raise ret lift_res].
  destruct (negb (search_is_admin s)); [|reflexivity].
  destruct (negb (truthy_record (company s))); [reflexivity|].
  destruct (Nat.eqb (List.length (products s)) 0); [reflexivity|].
  destruct (truthy (dict_get (args s) "requested_products")); [|reflexivity].
  destruct (dict_item (args s) "requested_products") as [rp|x]; [|reflexivity].
  destruct (py_iter rp) as [ps|x]; [|reflexivity].
  destruct (forallb _ ps); reflexivity.
Qed.

Lemma compile_inv (e : Env) (s s3 : SearchQuery) :
  compile e s = (Ok tt, s3) ->
  exists s2,
    validate_request s = (Ok tt, s) /\
    apply_filters e s = (Ok tt, s2) /\
    gen_source_from_search e s2 = (Ok tt, s3).
Proof.
  intros H. unfold compile in H.
  apply bind_ok_inv in H. destruct H as ([] & s1 & Hv & H).
  apply bind_ok_inv in H. destruct H as ([] & s2 & Hf & Hg).
  pose proof (validate_request_state s) as E. rewrite Hv in E. simpl in E. subst s1.
  exists s2. auto.
Qed.

(** A context whose offset is 1000 or more does not compile; when it passes
    validation and the filters, it is the page limit that stops it. *)
Lemma compile_beyond_limit (e : Env) (s : SearchQuery) (n : Z) :
  dict_get (args s) "from" = VInt n -> 1000 <= n ->
  exists x s',
    compile e s = (Raise x, s') /\
    (fst (validate_request s) = Ok tt ->
     fst (apply_filters e s) = Ok tt ->
     x = HTTPException 400 "Page limit exceeded").
Proof.
  intros Hfrom Hge. unfold compile. unfold bind at 1.
  pose proof (validate_request_state s) as Hst.
  destruct (validate_request s) as [[[]|x] s1]; simpl in Hst; subst s1.
  - unfold bind at 1.
    pose proof (apply_filters_keeps_args e s) as Hk.
    destruct (apply_filters e s) as [[[]|x] s2] eqn:Ef; simpl in Hk.
    + assert (Ho : offset_of s2 = Ok n).
      { apply offset_of_int. unfold args_and_req in Hk. inversion Hk as [[Ha Hr]].
        now rewrite Ha. }
      rewrite (gen_source_from_search_beyond e s2 n Ho Hge).
      eexists _, _. split; [reflexivity|]. auto.
    + eexists _, _. split; [reflexivity|]. simpl. discriminate.
  - eexists _, _. split; [reflexivity|]. simpl. discriminate.
Qed.

Lemma dispatch_all_versions_run (e : Env) (w : World) :
  dispatch_all_versions e w =
  let s4 := first_pass_context (search w) in
  let w1 := mkWorld s4 [] (dispatched w ++ [request_of e s4]) in
  match collect_versions e (docs (index_get e (internal_request e s4) (lookup s4))) [] w1 with
  | (Ok ids, w2) => second_pass e ids w2
  | (Raise x, w2) => (Raise x, w2)
  end.
Proof.
  unfold dispatch_all_versions, second_pass, dispatch_standard, first_pass_context.
  unfold lift at 1 2 3 4. cbv [bind modify gets]. simpl.
  rewrite get_internal_request_pure. simpl.
  unfold internal_get at 1. cbv [bind modify ret]. simpl.
  reflexivity.
Qed.

Lemma second_pass_log (e : Env) (ids : list pyval) (w : World) :
  exists new,
    dispatched (snd (second_pass e ids w)) = dispatched w ++ new /\
    Forall (offset_capped e) new.
Proof.
  unfold second_pass. unfold bind at 1.
  destruct (lift (set_query_bool (ids_bool ids)) w) as [[[]|x] w1] eqn:E1;
    destruct (lift_frame _ _ _ _ E1) as [Hd1 _]; simpl.
  - unfold bind at 1.
    destruct (lift (gen_source_from_search e) w1) as [[[]|x] w2] eqn:E2;
      destruct (lift_frame _ _ _ _ E2) as [Hd2 _]; simpl.
    + rewrite dispatch_standard_run. simpl.
      exists [request_of e (search w2)]. split; [now rewrite Hd2, Hd1|].
      constructor; [|constructor]. right.
      unfold lift in E2.
      destruct (gen_source_from_search e (search w1)) as [r s6] eqn:Eg.
      inversion E2. subst r. simpl.
      destruct (gen_source_from_search_ok e _ _ Eg) as (from & _ & Hlt & Hs6).
      exists s6, from. split; [reflexivity|]. split; [|lia].
      rewrite Hs6. simpl. apply full_source_from.
    + exists []. rewrite app_nil_r. split; [now rewrite Hd2, Hd1|constructor].
  - exists []. rewrite app_nil_r. split; [assumption|constructor].
Qed.

(** Whatever the request and however the call ends, each request it sent is
    a head lookup or a compiled request whose offset is at most 999. *)
Lemma dispatched_offsets_capped (e : Env) (r : option ParsedRequest) (lk : pyval) (w : World) :
  exists new,
    dispatched (snd (get e r lk w)) = dispatched w ++ new /\
    Forall (offset_capped e) new.
Proof.
  rewrite get_phases. unfold bind at 1.
  destruct (lift (derive_context e r lk) w) as [[[]|x] w0] eqn:E0;
    destruct (lift_frame _ _ _ _ E0) as [Hd0 _]; simpl;
    [|exists []; rewrite app_nil_r; split; [assumption|constructor]].
  rewrite serve_compile. unfold bind at 1.
  destruct (lift (compile e) w0) as [[[]|x] w3] eqn:E3;
    destruct (lift_frame _ _ _ _ E3) as [Hd3 _]; simpl;
    [|exists []; rewrite app_nil_r; split; [now rewrite Hd3, Hd0|constructor]].
  assert (Hcap : exists from,
             dict_find "from" (source (search w3)) = Some (VInt from) /\ from < 1000).
  { unfold lift in E3. destruct (compile e (search w0)) as [res s3] eqn:Ec.
    inversion E3. subst res. simpl.
    destruct (compile_inv e _ _ Ec) as (s2 & _ & _ & Hg).
    destruct (gen_source_from_search_ok e _ _ Hg) as (from & _ & Hlt & Hs3).
    exists from. split; [|assumption]. rewrite Hs3. simpl. apply full_source_from. }
  destruct Hcap as (from & Hfrom & Hlt).
  destruct (all_versions_requested r).
  - rewrite dispatch_all_versions_run. cbv zeta.
    set (s4 := first_pass_context (search w3)).
    set (w1 := mkWorld s4 [] (dispatched w3 ++ [request_of e s4])).
    destruct (collect_versions_log e
                (docs (index_get e (internal_request e s4) (lookup s4))) [] w1)
      as (_ & new & Hd & Hf).
    assert (Hq1 : offset_capped e (request_of e s4)).
    { right. exists s4, 0. split; [reflexivity|]. split; [|lia].
      unfold s4, first_pass_context, set_source_item. simpl. apply dict_find_set_same. }
    assert (Hlk : Forall (offset_capped e) new).
    { eapply Forall_impl; [|exact Hf]. intros q Hq. now left. }
    destruct (collect_versions e
                (docs (index_get e (internal_request e s4) (lookup s4))) [] w1)
      as [[ids|x] w2]; simpl in Hd.
    + destruct (second_pass_log e ids w2) as (new2 & Hd2 & Hf2).
      exists (request_of e s4 :: new ++ new2). split.
      * rewrite Hd2, Hd. unfold w1. simpl. rewrite Hd3, Hd0.
        repeat rewrite <- app_assoc. reflexivity.
      * constructor; [assumption|]. apply Forall_app. auto.
    + exists (request_of e s4 :: new). split.
      * simpl. rewrite Hd. unfold w1. simpl. rewrite Hd3, Hd0.
        repeat rewrite <- app_assoc. reflexivity.
      * constructor; assumption.
  - rewrite dispatch_standard_run. simpl.
    exists [request_of e (search w3)]. split; [now rewrite Hd3, Hd0|].
    constructor; [|constructor]. right. exists (search w3), from.
    split; [reflexivity|]. split; [assumption|lia].
Qed.

(** C4, as the code has it.  A request whose derived offset is 1000 or more
    makes the call raise before anything is sent to the index: the 400 of the
    page limit when the context passes validation and the filter stages, the
    error of those stages otherwise.  And whatever the request, a compiled
    request that is sent has an offset of at most 999. *)
Theorem page_limit_stops_the_call
    (e : Env) (r : option ParsedRequest) (lk : pyval) (w : World) :
  (forall (s : SearchQuery) (n : Z),
      derive_context e r lk SearchQuery_init = (Ok tt, s) ->
      dict_get (args s) "from" = VInt n ->
      1000 <= n ->
      exists x w',
        get e r lk w = (Raise x, w') /\
        dispatched w' = dispatched w /\
        (fst (validate_request s) = Ok tt ->
         fst (apply_filters e s) = Ok tt ->
         x = HTTPException 400 "Page limit exceeded")) /\
  (exists new,
      dispatched (snd (get e r lk w)) = dispatched w ++ new /\
      Forall (offset_capped e) new).
Proof.
  split; [|apply dispatched_offsets_capped].
  intros s n Hctx Hfrom Hge.
  rewrite (get_of_context e r lk w s Hctx). rewrite serve_compile.
  destruct (compile_beyond_limit e s n Hfrom Hge) as (x & s' & Hc & Hx).
  exists x, (set_search s' w). split; [|split; [reflexivity|assumption]].
  rewrite (bind_raise _ _ (set_search s w) (set_search s' w) x); [reflexivity|].
  exact (lift_raise (compile e) (set_search s w) x s' Hc).
Qed.

(** C4 at work: an entitled reader asks for the page at offset 1000. *)
Lemma page_limit_stops_the_call_witness :
  exists w',
    get (Fixture.deployment (Some Fixture.reader) [Fixture.P1; Fixture.P2]
           Fixture.no_hits Fixture.empty_store)
        (Fixture.request [("from"%string, VStr "1000")]) VNone Fixture.idle
    = (Raise (HTTPException 400 "Page limit exceeded"), w') /\
    dispatched w' = dispatched Fixture.idle.
Proof.
  pose (e := Fixture.deployment (Some Fixture.reader) [Fixture.P1; Fixture.P2]
               Fixture.no_hits Fixture.empty_store).
  pose (r := Fixture.request [("from"%string, VStr "1000")]).
  assert (Hctx : exists s,
             derive_context e r VNone SearchQuery_init = (Ok tt, s) /\
             dict_get (args s) "from" = VInt 1000 /\
             fst (validate_request s) = Ok tt /\
             fst (apply_filters e s) = Ok tt).
  { eexists. split; [vm_compute; reflexivity|].
    split; [reflexivity|]. split; vm_compute; reflexivity. }
  destruct Hctx as (s & H1 & H2 & H3 & H4).
  destruct (proj1 (page_limit_stops_the_call e r VNone Fixture.idle) s 1000 H1 H2)
    as (x & w' & Hget & Hd & Hx); [lia|].
  exists w'. rewrite (Hx H3 H4) in Hget. split; assumption.
Defined.

(** C4 as the spec words it fails for a requester validation refuses: the
    403 comes first, whatever the offset. *)
Lemma page_limit_comes_after_validation :
  ~ (forall (e : Env) (r : option ParsedRequest) (lk : pyval) (w : World)
            (s : SearchQuery) (n : Z),
        derive_context e r lk SearchQuery_init = (Ok tt, s) ->
        dict_get (args s) "from" = VInt n ->
        1000 <= n ->
        exists description w',
          get e r lk w = (Raise (HTTPException 400 description), w') /\
          dispatched w' = dispatched w).
Proof.
  intros H.
  pose (e := Fixture.deployment (Some Fixture.stranger) [Fixture.P1; Fixture.P2]
               Fixture.no_hits Fixture.empty_store).
  pose (r := Fixture.request [("from"%string, VStr "1000")]).
  assert (Hctx : exists s,
             derive_context e r VNone SearchQuery_init = (Ok tt, s) /\
             dict_get (args s) "from" = VInt 1000).
  { eexists. split; [vm_compute; reflexivity|reflexivity]. }
  destruct Hctx as (s & H1 & H2).
  destruct (H e r VNone Fixture.idle s 1000 H1 H2) as (d & w' & Hget & _); [lia|].
  vm_compute in Hget. discriminate Hget.
Qed.

(** ** The seeded query *)

Lemma prefill_search_user_keeps_query (e : Env) : preserves query (prefill_search_user e).
Proof. unfold prefill_search_user. preserves_tac. Qed.

Lemma prefill_search_company_keeps_query (e : Env) :
  preserves query (prefill_search_company e).
Proof. unfold prefill_search_company. preserves_tac. Qed.

Lemma prefill_search_section_keeps_query : preserves query prefill_search_section.
Proof. unfold prefill_search_section. preserves_tac. Qed.

Lemma prefill_search_navigation_keeps_query : preserves query prefill_search_navigation.
Proof. unfold prefill_search_navigation. preserves_tac. Qed.

Lemma prefill_search_products_keeps_query (e : Env) :
  preserves query (prefill_search_products e).
Proof. unfold prefill_search_products. preserves_tac. Qed.

Lemma prefill_search_highlights_keeps_query (e : Env) :
  preserves query (prefill_search_highlights e).
Proof. unfold prefill_search_highlights. preserves_tac. Qed.

Lemma context_head_keeps_query (e : Env) : preserves query (context_head e).
Proof.
  unfold context_head.
  apply preserves_bind; [apply prefill_search_user_keeps_query | intros _].
  apply preserves_bind; [apply prefill_search_company_keeps_query | intros _].
  apply preserves_bind; [apply prefill_search_section_keeps_query | intros _].
  apply preserves_bind; [apply prefill_search_navigation_keeps_query | intros _].
  apply prefill_search_products_keeps_query.
Qed.

Lemma context_head_keeps_args (e : Env) : preserves args_and_req (context_head e).
Proof.
  unfold context_head.
  apply preserves_bind; [apply prefill_search_user_keeps_args | intros _].
  apply preserves_bind; [apply prefill_search_company_keeps_args | intros _].
  apply preserves_bind; [apply prefill_search_section_keeps_args | intros _].
  apply preserves_bind; [apply prefill_search_navigation_keeps_args | intros _].
  apply prefill_search_products_keeps_args.
Qed.

Lemma context_rest_split (e : Env) (s : SearchQuery) :
  context_rest e s =
  bind (context_head e)
       (fun _ => bind prefill_search_items (fun _ => prefill_search_highlights e)) s.
Proof.
  unfold context_rest, context_head. cbv [bind].
  destruct (prefill_search_user e s) as [[[]|x] s1]; [|reflexivity].
  destruct (prefill_search_company e s1) as [[[]|x] s2]; [|reflexivity].
  destruct (prefill_search_section s2) as [[[]|x] s3]; [|reflexivity].
  destruct (prefill_search_navigation s3) as [[[]|x] s4]; [|reflexivity].
  destruct (prefill_search_products e s4) as [[[]|x] s5]; reflexivity.
Qed.

Lemma paged_ignore_latest (r : option ParsedRequest) :
  truthy (dict_get_default (snd (paged r)) "ignore_latest" (VBool false)) = ignores_latest r.
Proof.
  unfold dict_get_default, paged. rewrite page_args_other by discriminate.
  unfold ignores_latest, start_args, dict_get.
  destruct (all_versions_requested r); simpl.
  - now rewrite dict_find_set_same.
  - destruct (dict_find "ignore_latest" (request_args r)); reflexivity.
Qed.

Lemma prefill_search_items_seeds (s : SearchQuery) :
  query s = query SearchQuery_init ->
  prefill_search_items s =
  (Ok tt,
   set_query
     (seeded_query
        (negb (truthy (dict_get_default (args s) "ignore_latest" (VBool false))))) s).
Proof.
  intros Hq. unfold prefill_search_items, append_clause, extend_clauses.
  cbv [bind gets ret]. rewrite Hq. simpl.
  destruct (truthy (dict_get_default (args s) "ignore_latest" (VBool false))); simpl.
  - reflexivity.
  - destruct s; reflexivity.
Qed.

(** The boolean query of a derived context is the seeded one. *)
Lemma derive_context_query (e : Env) (r : option ParsedRequest) (lk : pyval)
    (s : SearchQuery) :
  derive_context e r lk SearchQuery_init = (Ok tt, s) ->
  query s = seeded_query (negb (ignores_latest r)).
Proof.
  intros H. apply derive_context_ok_paged in H. destruct H as [_ H].
  rewrite context_rest_split in H.
  apply bind_ok_inv in H. destruct H as ([] & s5 & H5 & H).
  apply bind_ok_inv in H. destruct H as ([] & s6 & H6 & H7).
  pose proof (preserves_run query _ _ _ _ (context_head_keeps_query e) H5) as Eq.
  pose proof (preserves_run args_and_req _ _ _ _ (context_head_keeps_args e) H5) as Ea.
  unfold args_and_req in Ea. simpl in Eq, Ea. inversion Ea as [[Ea1 Ea2]].
  rewrite (prefill_search_items_seeds s5 Eq) in H6. inversion H6 as [Es6].
  rewrite (preserves_run query _ _ _ _ (prefill_search_highlights_keeps_query e) H7).
  rewrite <- Es6. simpl. now rewrite Ea1, paged_ignore_latest.
Qed.

(** C5, as the code has it.  The boolean query a request seeds has the item
    clause in [must] and the composite clause in [must_not]; the clause that
    excludes the documents with a next version is in [must_not] exactly when
    the request neither asks for all versions nor sets [ignore_latest]. *)
Theorem latest_only_unless_ignored
    (e : Env) (r : option ParsedRequest) (lk : pyval) (s : SearchQuery) :
  derive_context e r lk SearchQuery_init = (Ok tt, s) ->
  query s = seeded_query (negb (ignores_latest r)) /\
  (In nextversion_clause (must_not_of (query s)) <->
   all_versions_requested r = false /\
   truthy (dict_get (request_args r) "ignore_latest") = false).
Proof.
  intros H. pose proof (derive_context_query e r lk s H) as Hq.
  split; [assumption|]. rewrite Hq. unfold ignores_latest.
  destruct (all_versions_requested r); simpl.
  - split.
    + intros [Hc|[]]. discriminate Hc.
    + intros [Hf _]. discriminate.
  - destruct (truthy (dict_get (request_args r) "ignore_latest")); simpl.
    + split.
      * intros [Hc|[]]. discriminate Hc.
      * intros [_ Hf]. discriminate.
    + split; [auto|]. intros _. right. left. reflexivity.
Qed.

(** C5 at work: a plain request keeps the latest versions only. *)
Lemma latest_only_unless_ignored_witness :
  exists s,
    derive_context
      (Fixture.deployment (Some Fixture.reader) [Fixture.P1; Fixture.P2]
         Fixture.no_hits Fixture.empty_store)
      (Fixture.request [("q"%string, VStr "election")]) VNone SearchQuery_init = (Ok tt, s) /\
    query s = seeded_query true /\
    In nextversion_clause (must_not_of (query s)).
Proof.
  pose (e := Fixture.deployment (Some Fixture.reader) [Fixture.P1; Fixture.P2]
               Fixture.no_hits Fixture.empty_store).
  pose (r := Fixture.request [("q"%string, VStr "election")]).
  assert (Hctx : exists s, derive_context e r VNone SearchQuery_init = (Ok tt, s)).
  { eexists. vm_compute. reflexivity. }
  destruct Hctx as (s & H1).
  destruct (latest_only_unless_ignored e r VNone s H1) as [Hq Hiff].
  exists s. split; [exact H1|]. split; [exact Hq|].
  apply Hiff. split; reflexivity.
Defined.

(** C5 as the spec words it fails for a request that does not ask for all
    versions but sets [ignore_latest]: the standard pipeline serves it without
    the clause. *)
Lemma ignore_latest_drops_the_exclusion :
  ~ (forall (e : Env) (r : option ParsedRequest) (lk : pyval) (s : SearchQuery),
        derive_context e r lk SearchQuery_init = (Ok tt, s) ->
        all_versions_requested r = false ->
        In nextversion_clause (must_not_of (query s))).
Proof.
  intros H.
  pose (e := Fixture.deployment (Some Fixture.reader) [Fixture.P1; Fixture.P2]
               Fixture.no_hits Fixture.empty_store).
  pose (r := Fixture.request [("ignore_latest"%string, VStr "1")]).
  assert (Hctx : exists s,
             derive_context e r VNone SearchQuery_init = (Ok tt, s) /\
             must_not_of (query s) = [composite_clause]).
  { eexists. split; [vm_compute; reflexivity|reflexivity]. }
  destruct Hctx as (s & H1 & H2).
  specialize (H e r VNone s H1 eq_refl). rewrite H2 in H.
  destruct H as [Hc|[]]. discriminate Hc.
Qed.

(** ** The version chain *)

(** A document without next version is its own last version. *)
Lemma get_last_version_head (e : Env) (depth : nat) (doc : Doc) (w : World) :
  truthy (doc_nextversion doc) = false ->
  get_last_version e depth doc w = (Ok doc, w).
Proof.
  intros H. destruct depth; simpl; rewrite H; reflexivity.
Qed.

(** With a next version the store does not find, and no hit of the head
    lookup, the document itself is the answer. *)
Lemma get_last_version_dangling (e : Env) (depth : nat) (doc : Doc) (w : World) :
  truthy (doc_nextversion doc) = true ->
  find_one e (doc_nextversion doc) = None ->
  lookup_misses e doc ->
  fst (get_last_version e depth doc w) = Ok doc.
Proof.
  intros Hn Hf Hm.
  assert (E : forall d, get_last_version e d doc w =
                        get_last_version e 0 doc w).
  { intros d. destruct d; simpl; rewrite Hn; simpl; rewrite Hf; reflexivity. }
  rewrite E. simpl. rewrite Hn. simpl.
  destruct Hm as [Ho|Hc].
  - rewrite Ho. cbv [bind ret]. now rewrite Hf.
  - destruct (truthy (doc_original_id doc)); simpl.
    + cbv [bind internal_get modify ret raise]. simpl. rewrite Hc. simpl.
      now rewrite Hf.
    + cbv [bind ret]. now rewrite Hf.
Qed.

(** C7. A document whose next version the store does not find, and for which
    the head lookup by [original_id] has no hit or is not made for want of an
    [original_id], is returned as its own last version: no error is raised,
    whatever recursion the interpreter allows. *)
Theorem dangling_link_returns_the_document
    (e : Env) (depth : nat) (A : Doc) (w : World) :
  truthy (doc_nextversion A) = true ->
  find_one e (doc_nextversion A) = None ->
  truthy (doc_original_id A) = false \/
  count (index_get e (last_version_request e (doc_original_id A)) VNone) = 0 ->
  fst (get_last_version e depth A w) = Ok A.
Proof.
  intros Hn Hf Hm. now apply get_last_version_dangling.
Qed.

(** C7 at work: D points to a document that is gone. *)
Lemma dangling_link_returns_the_document_witness :
  fst (get_last_version
         (Fixture.deployment None [] Fixture.no_hits Fixture.chain_store)
         1000 Fixture.doc_D Fixture.idle) = Ok Fixture.doc_D.
Proof.
  apply dangling_link_returns_the_document.
  - reflexivity.
  - reflexivity.
  - left. reflexivity.
Defined.


(** One call of [get_last_version] on a document with a next version. *)
Lemma get_last_version_step (e : Env) (depth : nat) (doc : Doc) (w : World) :
  truthy (doc_nextversion doc) = true ->
  let c := index_get e (last_version_request e (doc_original_id doc)) VNone in
  let w1 := if truthy (doc_original_id doc)
            then log_request (last_version_request e (doc_original_id doc), VNone) w
            else w in
  get_last_version e depth doc w =
  if truthy (doc_original_id doc) && negb (count c =? 0) then
    match docs c with
    | d :: _ => (Ok d, w1)
    | [] => (Raise IndexError, w1)
    end
  else
    match find_one e (doc_nextversion doc) with
    | Some next_doc =>
        match depth with
        | S depth' => get_last_version e depth' next_doc w1
        | O => (Raise RecursionError, w1)
        end
    | None => (Ok doc, w1)
    end.
Proof.
  intros Hn c w1. subst c w1.
  destruct depth; simpl; rewrite Hn; simpl;
    (destruct (truthy (doc_original_id doc)); simpl;
     [ cbv [bind internal_get modify ret raise]; simpl;
       destruct (count (index_get e (last_version_request e (doc_original_id doc)) VNone)
                 =? 0); simpl;
       [ destruct (find_one e (doc_nextversion doc)); reflexivity
       | destruct (docs (index_get e (last_version_request e (doc_original_id doc)) VNone));
         reflexivity ]
     | cbv [bind ret]; destruct (find_one e (doc_nextversion doc)); reflexivity ]).
Qed.





Example get_last_version_walks_the_chain :
  fst (get_last_version
         (Fixture.deployment None [] Fixture.no_hits Fixture.chain_store)
         1000 Fixture.doc_A Fixture.idle) = Ok Fixture.doc_C.
Proof. vm_compute. reflexivity. Qed.



(** ** The clauses every compiled query keeps *)

Lemma seeded_query_seeded (b : bool) : seeded (seeded_query b).
Proof.
  unfold seeded, seeded_query. eexists _, _, _, []. split; [reflexivity|].
  split; left; reflexivity.
Qed.

Lemma seeded_clauses (q : pyval) :
  seeded q -> In items_clause (must_of q) /\ In composite_clause (must_not_of q).
Proof.
  intros (m & mn & sh & rest & Hq & Hm & Hmn). subst q. split; assumption.
Qed.

Lemma bool_extend_seeded (key : string) (cs : list pyval) (q : pyval) :
  seeded q ->
  key = "must"%string \/ key = "must_not"%string \/ key = "should"%string ->
  exists q', bool_extend key cs q = Ok q' /\ seeded q'.
Proof.
  intros (m & mn & sh & rest & Hq & Hm & Hmn) [Hk|[Hk|Hk]]; subst q key; simpl;
    eexists; (split; [reflexivity|]);
    eexists _, _, _, _; (split; [reflexivity|]); split;
    try assumption; apply in_or_app; left; assumption.
Qed.

Section Invariant.

Variable P : SearchQuery -> Prop.

Lemma invariant_ret {A : Type} (a : A) : invariant P (ret a).
Proof. intros s H. exact H. Qed.

Lemma invariant_raise {A : Type} (x : exn) : invariant P (@raise _ A x).
Proof. intros s H. exact H. Qed.

Lemma invariant_lift_res {A : Type} (r : Res A) : invariant P (lift_res r).
Proof. intros s H. exact H. Qed.

Lemma invariant_gets {A : Type} (g : SearchQuery -> A) : invariant P (gets g).
Proof. intros s H. exact H. Qed.

Lemma invariant_modify (g : SearchQuery -> SearchQuery) :
  (forall s, P s -> P (g s)) -> invariant P (modify g).
Proof. intros H s Hs. apply H, Hs. Qed.

Lemma invariant_bind {A B : Type} (m : M SearchQuery A) (k : A -> M SearchQuery B) :
  invariant P m -> (forall a, invariant P (k a)) -> invariant P (bind m k).
Proof.
  intros Hm Hk s Hs. unfold bind. specialize (Hm s Hs).
  destruct (m s) as [[a|x] s1]; simpl in *.
  - now apply Hk.
  - assumption.
Qed.

Lemma invariant_for_each {A : Type} (l : list A) (body : A -> M SearchQuery unit) :
  (forall a, invariant P (body a)) -> invariant P (for_each l body).
Proof.
  intros Hb. induction l as [|a l IH]; simpl.
  - apply invariant_ret.
  - apply invariant_bind; auto.
Qed.

Lemma invariant_run {A : Type} (m : M SearchQuery A) (s s' : SearchQuery) (r : Res A) :
  invariant P m -> P s -> m s = (r, s') -> P s'.
Proof. intros H Hs E. specialize (H s Hs). now rewrite E in H. Qed.

End Invariant.

Lemma extend_clauses_seeded (key : string) (cs : list pyval) :
  key = "must"%string \/ key = "must_not"%string \/ key = "should"%string ->
  invariant query_seeded (extend_clauses key cs).
Proof.
  intros Hk s Hs. unfold extend_clauses.
  destruct (bool_extend_seeded key cs (query s) Hs Hk) as (q' & E & Hq').
  rewrite E. exact Hq'.
Qed.

Ltac seeded_step :=
  first
    [ apply invariant_ret
    | apply invariant_raise
    | apply invariant_lift_res
    | apply invariant_gets
    | apply invariant_modify; intros ? H; exact H
    | apply extend_clauses_seeded; auto
    | apply invariant_for_each; intros
    | apply invariant_bind; [ | intros ]
    | match goal with
      | |- invariant _ (if ?c then _ else _) => destruct c
      | |- invariant _ (match ?x with _ => _ end) => destruct x
      | |- invariant _ (let _ := _ in _) => cbv zeta
      end ].

Lemma set_minimum_should_match_seeded : invariant query_seeded set_minimum_should_match.
Proof.
  intros s (m & mn & sh & rest & Hq & Hm & Hmn).
  unfold set_minimum_should_match. cbv [bind gets lift_res ret modify].
  unfold query_seeded. rewrite Hq. simpl.
  destruct (negb (Z.of_nat (List.length sh) =? 0)); simpl.
  - eexists _, _, _, _. split; [reflexivity|]. auto.
  - rewrite Hq. eexists _, _, _, _. split; [reflexivity|]. auto.
Qed.

Lemma apply_filters_seeded (e : Env) : invariant query_seeded (apply_filters e).
Proof.
  unfold apply_filters.
  apply invariant_bind; [|intros _].
  { unfold apply_section_filter. repeat seeded_step. }
  apply invariant_bind; [|intros _].
  { unfold apply_company_filter, append_clause. repeat seeded_step. }
  apply invariant_bind; [|intros _].
  { unfold apply_time_limit_filter, append_clause. repeat seeded_step. }
  apply invariant_bind; [|intros _].
  { unfold apply_products_filter, apply_product_filter, append_clause.
    repeat seeded_step. }
  apply invariant_bind; [|intros _].
  { unfold apply_request_filter, extend_post_filter, append_clause.
    repeat seeded_step. }
  apply set_minimum_should_match_seeded.
Qed.

Lemma gen_source_from_search_keeps_query (e : Env) :
  preserves query (gen_source_from_search e).
Proof. unfold gen_source_from_search. preserves_tac. Qed.

Lemma compile_excludes_composites (e : Env) (s s3 : SearchQuery) :
  seeded (query s) ->
  compile e s = (Ok tt, s3) ->
  excludes_composites s3 /\ excludes_composites (first_pass_context s3).
Proof.
  intros Hs Hc. destruct (compile_inv e s s3 Hc) as (s2 & _ & Hf & Hg).
  pose proof (invariant_run query_seeded _ _ _ _ (apply_filters_seeded e) Hs Hf) as H2.
  destruct (gen_source_from_search_ok e s2 s3 Hg) as (from & _ & _ & ->).
  destruct (seeded_clauses _ H2) as [Hm Hmn].
  split; exists (query s2); (split; [|split; assumption]).
  - simpl. apply full_source_query.
  - unfold first_pass_context, set_source_item. simpl.
    rewrite dict_find_set_other by discriminate.
    rewrite dict_find_set_other by discriminate.
    apply full_source_query.
Qed.

Lemma get_sends_compiled (e : Env) (r : option ParsedRequest) (lk : pyval) (w : World)
    (s s3 : SearchQuery) :
  derive_context e r lk SearchQuery_init = (Ok tt, s) ->
  compile e s = (Ok tt, s3) ->
  exists rest,
    dispatched (snd (get e r lk w)) = dispatched w ++ request_of e (first_sent r s3) :: rest.
Proof.
  intros Hctx Hc. rewrite (get_of_context e r lk w s Hctx). rewrite serve_compile.
  rewrite (bind_ok _ _ (set_search s w) (set_search s3 w) tt)
    by exact (lift_ok (compile e) (set_search s w) tt s3 Hc).
  unfold first_sent. destruct (all_versions_requested r).
  - rewrite dispatch_all_versions_run. cbv zeta.
    change (search (set_search s3 w)) with s3.
    change (dispatched (set_search s3 w)) with (dispatched w).
    set (s4 := first_pass_context s3).
    set (w1 := mkWorld s4 [] (dispatched w ++ [request_of e s4])).
    destruct (collect_versions_log e
                (docs (index_get e (internal_request e s4) (lookup s4))) [] w1)
      as (_ & new & Hd & _).
    destruct (collect_versions e
                (docs (index_get e (internal_request e s4) (lookup s4))) [] w1)
      as [[ids|x] w2]; simpl in Hd.
    + destruct (second_pass_log e ids w2) as (new2 & Hd2 & _).
      exists (new ++ new2). cbv beta iota. rewrite Hd2, Hd. unfold w1. simpl.
      repeat rewrite <- app_assoc. reflexivity.
    + exists new. simpl. rewrite Hd. unfold w1. simpl.
      repeat rewrite <- app_assoc. reflexivity.
  - rewrite dispatch_standard_run. simpl. exists []. reflexivity.
Qed.

(** C3, as the code has it.  The request the standard pipeline compiles, and
    the one the first pass of an all-versions search compiles, hold a boolean
    query whose [must] has the item clause and whose [must_not] has the
    composite clause; that request is the one sent to the index, first.  (The
    second pass of an all-versions search replaces the boolean query.) *)
Theorem compiled_request_excludes_composites
    (e : Env) (r : option ParsedRequest) (lk : pyval) (w : World) (s s3 : SearchQuery) :
  derive_context e r lk SearchQuery_init = (Ok tt, s) ->
  compile e s = (Ok tt, s3) ->
  excludes_composites (first_sent r s3) /\
  exists rest,
    dispatched (snd (get e r lk w)) = dispatched w ++ request_of e (first_sent r s3) :: rest.
Proof.
  intros Hctx Hc. split; [|now apply get_sends_compiled with (s := s)].
  assert (Hs : seeded (query s)).
  { rewrite (derive_context_query e r lk s Hctx). apply seeded_query_seeded. }
  destruct (compile_excludes_composites e s s3 Hs Hc) as [H3 H4].
  unfold first_sent. destruct (all_versions_requested r); assumption.
Qed.

(** C3 at work: the request of an entitled reader. *)
Lemma compiled_request_excludes_composites_witness :
  let e := Fixture.deployment (Some Fixture.reader) [Fixture.P1; Fixture.P2]
             Fixture.no_hits Fixture.empty_store in
  let r := Fixture.request [("q"%string, VStr "election")] in
  exists s3,
    excludes_composites s3 /\
    dispatched (snd (get e r VNone Fixture.idle)) = [request_of e s3].
Proof.
  intros e r.
  assert (Hctx : exists s s3,
             derive_context e r VNone SearchQuery_init = (Ok tt, s) /\
             compile e s = (Ok tt, s3) /\
             dispatched (snd (get e r VNone Fixture.idle)) = [request_of e s3]).
  { eexists _, _. split; [vm_compute; reflexivity|].
    split; vm_compute; reflexivity. }
  destruct Hctx as (s & s3 & H1 & H2 & H3).
  destruct (compiled_request_excludes_composites e r VNone Fixture.idle s s3 H1 H2)
    as [Hex _].
  exists s3. split; [exact Hex|exact H3].
Defined.

(** C3 as the spec words it fails on the second pass of an all-versions
    search: the context of the request sent last, which is the context the
    call ends with, has a boolean query made of the id clause alone. *)
Lemma second_pass_drops_the_exclusions :
  ~ (forall (e : Env) (r : option ParsedRequest) (lk : pyval) (w w' : World)
            (res : Cursor),
        get e r lk w = (Ok res, w') ->
        excludes_composites (search w')).
Proof.
  intros H.
  pose (e := Fixture.deployment (Some Fixture.reader) [Fixture.P1; Fixture.P2]
               Fixture.no_hits Fixture.empty_store).
  pose (r := Fixture.request [("all_versions"%string, VStr "1")]).
  assert (Hget : exists w',
             get e r VNone Fixture.idle = (Ok (mkCursor [] 0), w') /\
             dict_find "query" (source (search w')) =
             Some (VDict [("bool"%string, ids_bool [])])).
  { eexists. split; vm_compute; reflexivity. }
  destruct Hget as (w' & Hg & Hq).
  destruct (H e r VNone Fixture.idle w' _ Hg) as (q & Hq' & _ & Hmn).
  rewrite Hq in Hq'. injection Hq' as <-. exact Hmn.
Qed.

(** ** The service keeps no state that matters *)

Lemma framed_ret {A : Type} (a : A) : framed (@ret World A a).
Proof.
  intros w w' H. simpl. repeat split; auto.
  exists []. now rewrite !app_nil_r.
Qed.

Lemma framed_raise {A : Type} (x : exn) : framed (@raise World A x).
Proof.
  intros w w' H. simpl. repeat split; auto.
  exists []. now rewrite !app_nil_r.
Qed.

Lemma framed_lift {A : Type} (m : M SearchQuery A) : framed (lift m).
Proof.
  intros w w' H. unfold lift. rewrite <- H.
  destruct (m (search w)) as [r s']. simpl. repeat split.
  exists []. now rewrite !app_nil_r.
Qed.

Lemma framed_matched_ids (f : World -> list pyval) :
  framed (modify (fun w => set_matched_ids (f w) w)).
Proof.
  intros w w' H. simpl. repeat split; auto.
  exists []. now rewrite !app_nil_r.
Qed.

Lemma framed_internal_get (e : Env) (q : dict) (lk : pyval) : framed (internal_get e q lk).
Proof.
  intros w w' H. simpl. repeat split; auto.
  exists [(q, lk)]. auto.
Qed.

Lemma framed_bind {A B : Type} (m : M World A) (k : A -> M World B) :
  framed m -> (forall a, framed (k a)) -> framed (bind m k).
Proof.
  intros Hm Hk w w' H. unfold bind.
  destruct (Hm w w' H) as (Hr & Hs & new & Hd & Hd').
  destruct (m w) as [[a|x] w1]; destruct (m w') as [[a'|x'] w1'];
    simpl in *; try discriminate.
  - injection Hr as <-.
    destruct (Hk a w1 w1' Hs) as (Hr2 & Hs2 & new2 & Hd2 & Hd2').
    split; [assumption|]. split; [assumption|].
    exists (new ++ new2). rewrite Hd2, Hd2', Hd, Hd'. now rewrite !app_assoc.
  - injection Hr as <-. repeat split; auto. exists new. auto.
Qed.

Lemma get_last_version_framed (e : Env) (depth : nat) :
  forall doc, framed (get_last_version e depth doc).
Proof.
  induction depth as [|depth IH]; intros doc; simpl.
  - destruct (negb (truthy (doc_nextversion doc))); [apply framed_ret|].
    apply framed_bind.
    + destruct (truthy (doc_original_id doc)); [|apply framed_ret].
      apply framed_bind; [apply framed_internal_get|]. intros c.
      destruct (negb (count c =? 0)); [|apply framed_ret].
      destruct (docs c); [apply framed_raise|apply framed_ret].
    + intros [d|]; [apply framed_ret|].
      destruct (find_one e (doc_nextversion doc)); [apply framed_raise|apply framed_ret].
  - destruct (negb (truthy (doc_nextversion doc))); [apply framed_ret|].
    apply framed_bind.
    + destruct (truthy (doc_original_id doc)); [|apply framed_ret].
      apply framed_bind; [apply framed_internal_get|]. intros c.
      destruct (negb (count c =? 0)); [|apply framed_ret].
      destruct (docs c); [apply framed_raise|apply framed_ret].
    + intros [d|]; [apply framed_ret|].
      destruct (find_one e (doc_nextversion doc)); [apply IH|apply framed_ret].
Qed.

Lemma collect_versions_framed (e : Env) (ds : list Doc) :
  forall acc, framed (collect_versions e ds acc).
Proof.
  induction ds as [|doc ds IH]; intros acc; simpl.
  - apply framed_ret.
  - apply framed_bind; [apply framed_matched_ids|]. intros _.
    apply framed_bind; [apply get_last_version_framed|]. intros last. apply IH.
Qed.

Lemma dispatch_standard_framed (e : Env) : framed (dispatch_standard e).
Proof.
  unfold dispatch_standard.
  apply framed_bind; [apply framed_lift|]. intros q.
  apply framed_bind; [apply framed_lift|]. intros lk.
  apply framed_internal_get.
Qed.

Lemma dispatch_all_versions_framed (e : Env) : framed (dispatch_all_versions e).
Proof.
  unfold dispatch_all_versions.
  apply framed_bind; [apply framed_lift|]. intros _.
  apply framed_bind; [apply framed_lift|]. intros _.
  apply framed_bind; [apply framed_lift|]. intros q.
  apply framed_bind; [apply framed_lift|]. intros lk.
  apply framed_bind; [apply framed_internal_get|]. intros c.
  apply framed_bind; [apply (framed_matched_ids (fun _ => []))|]. intros _.
  apply framed_bind; [apply collect_versions_framed|]. intros ids.
  apply framed_bind; [apply framed_lift|]. intros _.
  apply framed_bind; [apply framed_lift|]. intros _.
  apply framed_bind; [apply framed_lift|]. intros q2.
  apply framed_bind; [apply framed_lift|]. intros lk2.
  apply framed_internal_get.
Qed.

Lemma serve_framed (e : Env) (b : bool) : framed (serve e b).
Proof.
  unfold serve.
  apply framed_bind; [apply framed_lift|]. intros _.
  apply framed_bind; [apply framed_lift|]. intros _.
  apply framed_bind; [apply framed_lift|]. intros _.
  destruct b; [apply dispatch_all_versions_framed|apply dispatch_standard_framed].
Qed.

(** [get] starts from a fresh context: two calls for the same request, in
    whatever state the service is, end the same way, with the same context,
    and send the same requests. *)
Lemma get_framed (e : Env) (r : option ParsedRequest) (lk : pyval) (w w' : World) :
  fst (get e r lk w) = fst (get e r lk w') /\
  search (snd (get e r lk w)) = search (snd (get e r lk w')) /\
  exists new,
    dispatched (snd (get e r lk w)) = dispatched w ++ new /\
    dispatched (snd (get e r lk w')) = dispatched w' ++ new.
Proof.
  rewrite !get_phases.
  assert (E : forall w0,
             bind (lift (derive_context e r lk))
                  (fun _ => serve e (all_versions_requested r)) w0 =
             bind (lift (derive_context e r lk))
                  (fun _ => serve e (all_versions_requested r))
                  (set_search SearchQuery_init w0)).
  { intros w0. reflexivity. }
  rewrite (E w), (E w').
  assert (F : framed (bind (lift (derive_context e r lk))
                           (fun _ => serve e (all_versions_requested r)))).
  { apply framed_bind; [apply framed_lift|]. intros _. apply serve_framed. }
  exact (F (set_search SearchQuery_init w) (set_search SearchQuery_init w') eq_refl).
Qed.

(** ** Compiling a request again *)

Lemma keeps_request_lift {A : Type} (m : M SearchQuery A) :
  preserves args_and_req m -> keeps_request (lift m).
Proof.
  intros H w. unfold lift. specialize (H (search w)).
  destruct (m (search w)) as [r s']. exact H.
Qed.

Lemma keeps_request_bind {A B : Type} (m : M World A) (k : A -> M World B) :
  keeps_request m -> (forall a, keeps_request (k a)) -> keeps_request (bind m k).
Proof.
  intros Hm Hk w. unfold bind. specialize (Hm w).
  destruct (m w) as [[a|x] w1]; simpl in *.
  - now rewrite Hk.
  - assumption.
Qed.

Lemma keeps_request_unchanged {A : Type} (m : M World A) :
  (forall w, search (snd (m w)) = search w) -> keeps_request m.
Proof. intros H w. now rewrite H. Qed.

Lemma dispatch_standard_keeps_request (e : Env) : keeps_request (dispatch_standard e).
Proof.
  intros w. rewrite dispatch_standard_run. reflexivity.
Qed.

Lemma dispatch_all_versions_keeps_request (e : Env) :
  keeps_request (dispatch_all_versions e).
Proof.
  unfold dispatch_all_versions.
  apply keeps_request_bind; [apply keeps_request_lift; preserves_tac|]. intros _.
  apply keeps_request_bind; [apply keeps_request_lift; preserves_tac|]. intros _.
  apply keeps_request_bind;
    [apply keeps_request_lift, get_internal_request_keeps_args|]. intros q.
  apply keeps_request_bind; [apply keeps_request_lift; preserves_tac|]. intros lk.
  apply keeps_request_bind; [apply keeps_request_unchanged; reflexivity|]. intros c.
  apply keeps_request_bind; [apply keeps_request_unchanged; reflexivity|]. intros _.
  apply keeps_request_bind.
  { apply keeps_request_unchanged. intros w. apply collect_versions_log. }
  intros ids.
  apply keeps_request_bind;
    [apply keeps_request_lift, set_query_bool_keeps_args|]. intros _.
  apply keeps_request_bind;
    [apply keeps_request_lift, gen_source_from_search_keeps_args|]. intros _.
  apply dispatch_standard_keeps_request.
Qed.

Lemma serve_keeps_request (e : Env) (b : bool) : keeps_request (serve e b).
Proof.
  unfold serve.
  apply keeps_request_bind;
    [apply keeps_request_lift, validate_request_keeps_args|]. intros _.
  apply keeps_request_bind;
    [apply keeps_request_lift, apply_filters_keeps_args|]. intros _.
  apply keeps_request_bind;
    [apply keeps_request_lift, gen_source_from_search_keeps_args|]. intros _.
  destruct b;
    [apply dispatch_all_versions_keeps_request|apply dispatch_standard_keeps_request].
Qed.

(** However the call ends, [search.args] is the dictionary the pagination
    stage left and [search.req] the request of the call. *)
Lemma get_final_request (e : Env) (r : option ParsedRequest) (lk : pyval) (w : World) :
  args (search (snd (get e r lk w))) = snd (paged r) /\
  req (search (snd (get e r lk w))) = option_map ref_of r.
Proof.
  rewrite get_phases. unfold bind.
  destruct (lift (derive_context e r lk) w) as [res w1] eqn:E.
  assert (H1 : args (search w1) = snd (paged r) /\ req (search w1) = option_map ref_of r).
  { unfold lift in E. destruct (derive_context e r lk (search w)) as [res' s1] eqn:Ed.
    inversion E. subst. simpl. exact (derive_context_args e r lk _ _ _ Ed). }
  destruct res as [[]|x]; [|exact H1].
  pose proof (serve_keeps_request e (all_versions_requested r) w1) as Hk.
  unfold args_and_req in Hk. inversion Hk as [[Ha Hr]].
  destruct H1 as [H1 H2]. now rewrite Ha, Hr.
Qed.

Lemma req_after_get (e : Env) (r : option ParsedRequest) (lk : pyval) (w : World) :
  req_after (snd (get e r lk w)) = written_back r.
Proof.
  unfold req_after, current_req.
  destruct (get_final_request e r lk w) as [Ha Hr]. rewrite Hr, Ha.
  destruct r as [[a p srt]|]; simpl; [|reflexivity].
  destruct a; reflexivity.
Qed.

Lemma written_back_all_versions (r : option ParsedRequest) :
  all_versions_requested (written_back r) = all_versions_requested r.
Proof.
  destruct r as [[a p srt]|]; [|reflexivity].
  destruct a as [d|d|]; try reflexivity.
  unfold all_versions_requested, dict_get. simpl request_args.
  now rewrite paged_other by discriminate.
Qed.

Lemma written_back_sort (r : option ParsedRequest) :
  sort_fallback (option_map ref_of (written_back r)) =
  sort_fallback (option_map ref_of r).
Proof.
  destruct r as [[a p srt]|]; [|reflexivity]. destruct a; reflexivity.
Qed.

(** Pagination of the written request ends as that of the request did, and
    leaves the dictionary as it found it. *)
Lemma written_back_paged (r : option ParsedRequest) :
  paged (written_back r) = paged r.
Proof.
  destruct r as [[a p srt]|]; [|reflexivity].
  destruct a as [d|d|]; try reflexivity.
  set (r := Some (mkReq (PlainDict d) p srt)).
  unfold paged at 1. rewrite written_back_sort.
  unfold start_args. rewrite written_back_all_versions.
  change (request_args (written_back r)) with (snd (paged r)).
  assert (Hs : (if all_versions_requested r
                then dict_set (snd (paged r)) "ignore_latest" (VBool true)
                else snd (paged r)) = snd (paged r)).
  { destruct (all_versions_requested r) eqn:Ea; [|reflexivity].
    apply dict_set_same_value. unfold paged.
    rewrite page_args_other by discriminate.
    unfold start_args. rewrite Ea. apply dict_find_set_same. }
  rewrite Hs. unfold paged. apply page_args_idempotent. apply sort_fallback_truthy.
Qed.

Lemma written_back_context (r : option ParsedRequest) (lk : pyval) (a : dict) :
  set_args a (start_context (written_back r) lk) = set_args a (start_context r lk).
Proof.
  destruct r as [[ra p srt]|]; [|reflexivity]. destruct ra; reflexivity.
Qed.

(** The written request derives the context of the request. *)
Lemma written_back_derives (e : Env) (r : option ParsedRequest) (lk : pyval)
    (s0 : SearchQuery) :
  derive_context e (written_back r) lk s0 = derive_context e r lk s0.
Proof.
  rewrite !derive_context_steps. rewrite written_back_paged.
  now rewrite written_back_context.
Qed.

Lemma get_written_back (e : Env) (r : option ParsedRequest) (lk : pyval) (w : World) :
  get e (written_back r) lk w = get e r lk w.
Proof.
  rewrite !get_phases. rewrite written_back_all_versions.
  unfold bind, lift. now rewrite written_back_derives.
Qed.

(** C9. A request compiled a second time, the environment being the same,
    gives what it gave: the call ends the same way, sends the same requests,
    byte for byte, and leaves the request object as the first call left it.
    Neither the matched ids the service holds nor what the first call wrote
    to the arguments of the request changes the compilation. *)
Theorem compiling_twice_is_identical
    (e : Env) (r : option ParsedRequest) (lk : pyval) (w : World) :
  fst (get e (req_after (snd (get e r lk w))) lk (snd (get e r lk w)))
  = fst (get e r lk w) /\
  req_after (snd (get e (req_after (snd (get e r lk w))) lk (snd (get e r lk w))))
  = req_after (snd (get e r lk w)) /\
  exists sent,
    dispatched (snd (get e r lk w)) = dispatched w ++ sent /\
    dispatched (snd (get e (req_after (snd (get e r lk w))) lk (snd (get e r lk w))))
    = dispatched (snd (get e r lk w)) ++ sent.
Proof.
  rewrite (req_after_get e r lk w).
  rewrite (get_written_back e r lk (snd (get e r lk w))).
  rewrite !req_after_get.
  destruct (get_framed e r lk w (snd (get e r lk w))) as (Hr & _ & sent & Hd & Hd').
  split; [now rewrite <- Hr|]. split; [reflexivity|].
  exists sent. split; assumption.
Qed.

(** ** Searching all versions *)

Lemma get_last_version_any_world (e : Env) (depth : nat) :
  forall doc w w',
    fst (get_last_version e depth doc w) = fst (get_last_version e depth doc w').
Proof.
  induction depth as [|depth IH]; intros doc w w';
    (destruct (truthy (doc_nextversion doc)) eqn:Hn;
     [ rewrite !(get_last_version_step e _ doc _ Hn); cbv zeta;
       destruct (truthy (doc_original_id doc) &&
                 negb (count (index_get e (last_version_request e (doc_original_id doc))
                                VNone) =? 0));
       [ destruct (docs (index_get e (last_version_request e (doc_original_id doc)) VNone));
         reflexivity
       | destruct (find_one e (doc_nextversion doc)); try reflexivity ]
     | now rewrite !(get_last_version_head e _ doc _ Hn) ]).
  apply IH.
Qed.

Lemma get_last_version_result (e : Env) (doc : Doc) (w : World) :
  fst (get_last_version e (recursion_limit e) doc w) = last_version e doc.
Proof. apply get_last_version_any_world. Qed.

(** When every document of the first pass has a last version, the loop
    returns their ids after those it was given, and has appended the ids of
    the documents themselves to the matched ids. *)
Lemma collect_versions_result (e : Env) (ds : list Doc) :
  forall (acc ids : list pyval) (w : World),
    head_ids e ds = Ok ids ->
    exists w2,
      collect_versions e ds acc w = (Ok (acc ++ ids), w2) /\
      search w2 = search w /\
      _matched_ids w2 = _matched_ids w ++ map (fun d => VStr (doc_id d)) ds.
Proof.
  induction ds as [|doc ds IH]; intros acc ids w Hh; simpl in Hh.
  - injection Hh as <-. exists w. simpl. rewrite !app_nil_r. auto.
  - destruct (last_version e doc) as [h|x] eqn:Eh; [|discriminate].
    destruct (head_ids e ds) as [l|x] eqn:El; [|discriminate].
    injection Hh as <-.
    set (w1 := set_matched_ids (_matched_ids w ++ [VStr (doc_id doc)]) w).
    assert (E : collect_versions e (doc :: ds) acc w =
                match get_last_version e (recursion_limit e) doc w1 with
                | (Ok last, w2) => collect_versions e ds (acc ++ [VStr (doc_id last)]) w2
                | (Raise x, w2) => (Raise x, w2)
                end) by reflexivity.
    rewrite E. clear E.
    pose proof (get_last_version_result e doc w1) as Hr. rewrite Eh in Hr.
    destruct (get_last_version_log e (recursion_limit e) doc w1) as (Hs & Hm & _).
    destruct (get_last_version e (recursion_limit e) doc w1) as [res w2].
    simpl in Hr, Hs, Hm. subst res.
    destruct (IH (acc ++ [VStr (doc_id h)]) l w2 eq_refl) as (w3 & Hc & Hs3 & Hm3).
    exists w3. split; [|split].
    + rewrite Hc. now rewrite <- app_assoc.
    + now rewrite Hs3, Hs.
    + rewrite Hm3, Hm. unfold w1. simpl. now rewrite <- app_assoc.
Qed.

(** The id of the last version of a document of the first pass is among the
    ids collected, and every id collected is such an id. *)
Lemma head_ids_in (e : Env) (ds : list Doc) (ids : list pyval) (d h : Doc) :
  head_ids e ds = Ok ids ->
  In d ds -> last_version e d = Ok h -> In (VStr (doc_id h)) ids.
Proof.
  revert ids. induction ds as [|d0 ds IH]; intros ids Hh Hin Hl; [contradiction|].
  simpl in Hh.
  destruct (last_version e d0) as [h0|x] eqn:E0; [|discriminate].
  destruct (head_ids e ds) as [l|x]; [|discriminate].
  injection Hh as <-. destruct Hin as [->|Hin].
  - rewrite Hl in E0. injection E0 as <-. now left.
  - right. now apply IH.
Qed.

Lemma head_ids_from (e : Env) (ds : list Doc) (ids : list pyval) (i : pyval) :
  head_ids e ds = Ok ids ->
  In i ids -> exists d h, In d ds /\ last_version e d = Ok h /\ i = VStr (doc_id h).
Proof.
  revert ids. induction ds as [|d0 ds IH]; intros ids Hh Hin; simpl in Hh.
  - injection Hh as <-. contradiction.
  - destruct (last_version e d0) as [h0|x] eqn:E0; [|discriminate].
    destruct (head_ids e ds) as [l|x]; [|discriminate].
    injection Hh as <-. destruct Hin as [<-|Hin].
    + exists d0, h0. split; [now left|]. auto.
    + destruct (IH l eq_refl Hin) as (d & h & Hd & Hl & Hi).
      exists d, h. split; [now right|]. auto.
Qed.

Lemma second_pass_run (e : Env) (ids : list pyval) (w : World) (b : pyval) (from : Z) :
  query (search w) = VDict [("bool"%string, b)] ->
  offset_of (search w) = Ok from ->
  from < 1000 ->
  second_pass e ids w =
  (Ok (index_get e (internal_request e (second_pass_context e (search w) ids from))
         (lookup (search w))),
   log_request (request_of e (second_pass_context e (search w) ids from))
     (set_search (second_pass_context e (search w) ids from) w)).
Proof.
  intros Hq Ho Hlt. unfold second_pass.
  set (s5 := set_query (VDict [("bool"%string, ids_bool ids)]) (search w)).
  assert (E1 : lift (set_query_bool (ids_bool ids)) w = (Ok tt, set_search s5 w)).
  { apply lift_ok. unfold set_query_bool. cbv [bind gets modify]. now rewrite Hq. }
  rewrite (bind_ok _ _ w (set_search s5 w) tt E1).
  assert (E2 : lift (gen_source_from_search e) (set_search s5 w) =
               (Ok tt, set_search (second_pass_context e (search w) ids from) w)).
  { apply (lift_ok (gen_source_from_search e) (set_search s5 w) tt).
    apply gen_source_from_search_within; assumption. }
  rewrite (bind_ok _ _ _ _ tt E2).
  rewrite dispatch_standard_run. reflexivity.
Qed.

Lemma on_fetched_attaches (response links : dict) (w : World) :
  _matched_ids w <> [] ->
  dict_find "_links" response = Some (VDict links) ->
  on_fetched response w =
  (Ok (dict_set response "_links"
         (VDict (dict_set links "matched_ids" (VList (_matched_ids w))))),
   set_matched_ids [] w).
Proof.
  intros Hne Hl. unfold on_fetched. cbv [bind gets lift_res modify ret].
  destruct (_matched_ids w) as [|i l] eqn:E; [contradiction|]. simpl.
  unfold dict_item. rewrite Hl. reflexivity.
Qed.

(** What an all-versions search that runs to its end has done. *)
Lemma all_versions_run (e : Env) (r : option ParsedRequest) (lk : pyval) (w : World)
    (s s3 : SearchQuery) (ids : list pyval) :
  all_versions_requested r = true ->
  derive_context e r lk SearchQuery_init = (Ok tt, s) ->
  compile e s = (Ok tt, s3) ->
  head_ids e (first_pass_docs e s3) = Ok ids ->
  exists from s6 w',
    offset_of s3 = Ok from /\
    s6 = second_pass_context e (first_pass_context s3) ids from /\
    get e r lk w = (Ok (index_get e (internal_request e s6) (lookup s6)), w') /\
    search w' = s6 /\
    _matched_ids w' = map (fun d => VStr (doc_id d)) (first_pass_docs e s3) /\
    dict_find "size" (source s6) = dict_find "size" (source s3) /\
    dict_find "from" (source s6) = dict_find "from" (source s3) /\
    dict_find "sort" (source s6) = dict_find "sort" (source s3).
Proof.
  intros Hall Hctx Hc Hids.
  assert (Hseed : seeded (query s)).
  { rewrite (derive_context_query e r lk s Hctx). apply seeded_query_seeded. }
  destruct (compile_inv e s s3 Hc) as (s2 & _ & Hf & Hg).
  pose proof (invariant_run query_seeded _ _ _ _ (apply_filters_seeded e) Hseed Hf) as H2.
  destruct (gen_source_from_search_ok e s2 s3 Hg) as (from & Ho & Hlt & Hs3).
  destruct H2 as (m & mn & sh & rest & Hq2 & _ & _).
  rewrite (get_of_context e r lk w s Hctx). rewrite Hall. rewrite serve_compile.
  rewrite (bind_ok _ _ (set_search s w) (set_search s3 w) tt)
    by exact (lift_ok (compile e) (set_search s w) tt s3 Hc).
  rewrite dispatch_all_versions_run. cbv zeta.
  change (search (set_search s3 w)) with s3.
  change (dispatched (set_search s3 w)) with (dispatched w).
  set (s4 := first_pass_context s3).
  set (w1 := mkWorld s4 [] (dispatched w ++ [request_of e s4])).
  change (docs (index_get e (internal_request e s4) (lookup s4)))
    with (first_pass_docs e s3).
  destruct (collect_versions_result e (first_pass_docs e s3) [] ids w1 Hids)
    as (w2 & Hcv & Hs2 & Hm2).
  rewrite Hcv. simpl app.
  assert (Hq4 : query (search w2) =
                VDict [("bool"%string,
                        VDict (("must"%string, VList m)
                                 :: ("must_not"%string, VList mn)
                                 :: ("should"%string, VList sh) :: rest))]).
  { rewrite Hs2. unfold w1, s4. simpl. rewrite Hs3. simpl. exact Hq2. }
  assert (Ho4 : offset_of (search w2) = Ok from).
  { rewrite Hs2. unfold w1, s4. simpl. rewrite Hs3. exact Ho. }
  rewrite (second_pass_run e ids w2 _ from Hq4 Ho4 Hlt).
  rewrite Hs2. change (search w1) with s4.
  exists from, (second_pass_context e s4 ids from). eexists.
  split; [rewrite Hs3; exact Ho|]. split; [reflexivity|].
  split; [reflexivity|]. split; [reflexivity|].
  split; [simpl; rewrite Hm2; reflexivity|].
  unfold second_pass_context. simpl source. rewrite Hs3. simpl source.
  rewrite !full_source_size, !full_source_from, !full_source_sort.
  repeat split; unfold s4; rewrite Hs3; reflexivity.
Qed.

(** C8, as the code has it.  In an all-versions search whose first pass
    matches two documents with the same last version, and in which every
    document matched has a last version: the response is the index's answer
    to a second request whose boolean query is the single clause on the ids
    collected, the id of that last version among them and each of them the
    id of the last version of a matched document; the second request has the
    size, offset and sort of the request compiled from the caller's
    arguments; and the ids of both matched documents are among the matched
    ids, which [on_fetched] puts in the links of the response. *)
Theorem all_versions_lists_chain_heads
    (e : Env) (r : option ParsedRequest) (lk : pyval) (w : World) (s s3 : SearchQuery)
    (ids : list pyval) (A B H : Doc) :
  all_versions_requested r = true ->
  derive_context e r lk SearchQuery_init = (Ok tt, s) ->
  compile e s = (Ok tt, s3) ->
  head_ids e (first_pass_docs e s3) = Ok ids ->
  In A (first_pass_docs e s3) ->
  In B (first_pass_docs e s3) ->
  last_version e A = Ok H ->
  last_version e B = Ok H ->
  exists s6,
    heads_listed e s3 s6 (snd (get e r lk w)) (fst (get e r lk w)) ids A B H.
Proof.
  intros Hall Hctx Hc Hids HA HB HlA HlB.
  destruct (all_versions_run e r lk w s s3 ids Hall Hctx Hc Hids)
    as (from & s6 & w' & Ho & Hs6 & Hget & Hsw & Hm & Hsz & Hfr & Hso).
  exists s6. rewrite Hget. simpl fst. simpl snd. unfold heads_listed.
  split; [reflexivity|]. split; [assumption|].
  split.
  { rewrite Hs6. unfold second_pass_context. simpl source. apply full_source_query. }
  split; [exact (head_ids_in e _ ids A H Hids HA HlA)|].
  split; [intros i Hi; exact (head_ids_from e _ ids i Hids Hi)|].
  split; [assumption|]. split; [assumption|]. split; [assumption|].
  assert (HmA : In (VStr (doc_id A)) (_matched_ids w')).
  { rewrite Hm. now apply (in_map (fun d => VStr (doc_id d))). }
  split; [assumption|].
  split; [rewrite Hm; now apply (in_map (fun d => VStr (doc_id d)))|].
  intros response links Hl.
  rewrite (on_fetched_attaches response links w'); [reflexivity| |assumption].
  intros Hn. rewrite Hn in HmA. contradiction.
Qed.

(** C8 at work: A and B, revisions of the chain A, B, C, match the query of
    an entitled reader. *)
Lemma all_versions_lists_chain_heads_witness :
  let e := Fixture.deployment (Some Fixture.reader) [Fixture.P1; Fixture.P2]
             Fixture.chain_index Fixture.chain_store in
  let r := Fixture.request [("all_versions"%string, VStr "1");
                            ("q"%string, VStr "election")] in
  exists s3 s6,
    heads_listed e s3 s6 (snd (get e r VNone Fixture.idle)) (fst (get e r VNone Fixture.idle))
      [VStr "C"; VStr "C"] Fixture.doc_A Fixture.doc_B Fixture.doc_C.
Proof.
  intros e r.
  assert (Hrun : exists s s3,
             derive_context e r VNone SearchQuery_init = (Ok tt, s) /\
             compile e s = (Ok tt, s3) /\
             first_pass_docs e s3 = [Fixture.doc_A; Fixture.doc_B]).
  { eexists _, _. split; [vm_compute; reflexivity|].
    split; vm_compute; reflexivity. }
  destruct Hrun as (s & s3 & H1 & H2 & H3).
  exists s3.
  apply (all_versions_lists_chain_heads e r VNone Fixture.idle s s3).
  - reflexivity.
  - exact H1.
  - exact H2.
  - rewrite H3. vm_compute. reflexivity.
  - rewrite H3. left. reflexivity.
  - rewrite H3. right. left. reflexivity.
  - vm_compute. reflexivity.
  - vm_compute. reflexivity.
Defined.

(** C8 as the spec words it fails when the caller asks for a later page: the
    second request carries the caller's offset, and the index, which has the
    one head to list, answers the page from offset 1 with no document, while
    both revisions are among the matched ids. *)
Lemma later_page_misses_the_head :
  ~ (forall (e : Env) (r : option ParsedRequest) (lk : pyval) (w w' : World)
            (res : Cursor) (A B H : Doc),
        all_versions_requested r = true ->
        get e r lk w = (Ok res, w') ->
        In (VStr (doc_id A)) (_matched_ids w') ->
        In (VStr (doc_id B)) (_matched_ids w') ->
        last_version e A = Ok H ->
        last_version e B = Ok H ->
        In H (docs res)).
Proof.
  intros Hclaim.
  pose (e := Fixture.deployment (Some Fixture.reader) [Fixture.P1; Fixture.P2]
               Fixture.chain_index Fixture.chain_store).
  pose (r := Fixture.request [("all_versions"%string, VStr "1");
                              ("from"%string, VStr "1")]).
  assert (Hget : exists w',
             get e r VNone Fixture.idle = (Ok (mkCursor [] 1), w') /\
             _matched_ids w' = [VStr "A"; VStr "B"]).
  { eexists. split; vm_compute; reflexivity. }
  destruct Hget as (w' & Hg & Hm).
  refine (Hclaim e r VNone Fixture.idle w' _ Fixture.doc_A Fixture.doc_B Fixture.doc_C
            eq_refl Hg _ _ _ _).
  - rewrite Hm. left. reflexivity.
  - rewrite Hm. right. left. reflexivity.
  - vm_compute. reflexivity.
  - vm_compute. reflexivity.
Qed.

(** ** Pagination, again *)

Lemma page_args_sort (d : pyval) (a : dict) :
  truthy d = true -> truthy (dict_get (snd (page_args d a)) "sort") = true.
Proof.
  intros Hd. unfold page_args.
  set (a1 := if truthy (dict_get a "sort") then a else dict_set a "sort" d).
  assert (H1 : truthy (dict_get a1 "sort") = true).
  { unfold a1. destruct (truthy (dict_get a "sort")) eqn:E; [assumption|].
    now rewrite dict_get_set_same. }
  destruct (py_int (dict_get_default a1 "size" (VInt default_page_size))) as [n|x]; simpl;
    [|assumption].
  destruct (py_int (dict_get_default (dict_set a1 "size" (VInt n)) "from" (VInt 0)))
    as [m|x]; simpl.
  - rewrite dict_get_set_other by discriminate.
    rewrite dict_get_set_other by discriminate. assumption.
  - rewrite dict_get_set_other by discriminate. assumption.
Qed.

(** The integers pagination stores are those [int] reads in the arguments. *)
Lemma page_args_values (d : pyval) (a a' : dict) :
  page_args d a = (Ok tt, a') ->
  exists size from,
    py_int (dict_get_default a "size" (VInt default_page_size)) = Ok size /\
    py_int (dict_get_default a "from" (VInt 0)) = Ok from /\
    dict_find "size" a' = Some (VInt size) /\
    dict_find "from" a' = Some (VInt from).
Proof.
  unfold page_args.
  set (a1 := if truthy (dict_get a "sort") then a else dict_set a "sort" d).
  assert (Hz : dict_get_default a1 "size" (VInt default_page_size) =
               dict_get_default a "size" (VInt default_page_size)).
  { unfold a1. destruct (truthy (dict_get a "sort")); [reflexivity|].
    now rewrite dict_get_default_set_other by discriminate. }
  assert (Hf : forall n, dict_get_default (dict_set a1 "size" (VInt n)) "from" (VInt 0) =
                         dict_get_default a "from" (VInt 0)).
  { intros n. rewrite dict_get_default_set_other by discriminate.
    unfold a1. destruct (truthy (dict_get a "sort")); [reflexivity|].
    now rewrite dict_get_default_set_other by discriminate. }
  rewrite Hz.
  destruct (py_int (dict_get_default a "size" (VInt default_page_size))) as [n|x];
    [|discriminate].
  rewrite Hf.
  destruct (py_int (dict_get_default a "from" (VInt 0))) as [m|x]; [|discriminate].
  intros H. inversion H. exists n, m. repeat split.
  - rewrite dict_find_set_other by discriminate. apply dict_find_set_same.
  - apply dict_find_set_same.
Qed.

(** X1. [prefill_search_page] run on the context it has left, whether it
    returned or raised, ends the same way and changes nothing more. *)
Theorem pagination_is_idempotent (s : SearchQuery) :
  prefill_search_page (snd (prefill_search_page s)) = prefill_search_page s.
Proof.
  rewrite (prefill_search_page_args s). simpl snd.
  rewrite prefill_search_page_args. simpl req. simpl args.
  rewrite page_args_idempotent by apply sort_fallback_truthy.
  reflexivity.
Qed.

(** X2. When [prefill_search_page] returns, [size] and [from] are the
    integers [int] reads in the arguments it was given (25 and 0 when the key
    is absent; in a string, of code points below 256, what [py_int] reads:
    a literal with the white space around it stripped, within the limit on
    digits), [sort] is set, and every other argument is as it was. *)
Theorem pagination_normalises (s s' : SearchQuery) :
  prefill_search_page s = (Ok tt, s') ->
  (exists size from,
      py_int (dict_get_default (args s) "size" (VInt default_page_size)) = Ok size /\
      py_int (dict_get_default (args s) "from" (VInt 0)) = Ok from /\
      dict_find "size" (args s') = Some (VInt size) /\
      dict_find "from" (args s') = Some (VInt from)) /\
  truthy (dict_get (args s') "sort") = true /\
  (forall k, k <> "sort"%string -> k <> "size"%string -> k <> "from"%string ->
             dict_find k (args s') = dict_find k (args s)).
Proof.
  rewrite prefill_search_page_args. intros H. inversion H as [[Hr Hs]].
  simpl args.
  destruct (page_args (sort_fallback (req s)) (args s)) as [res a'] eqn:E.
  simpl in Hr. subst res. simpl snd.
  split; [exact (page_args_values _ _ _ E)|]. split.
  - pose proof (page_args_sort (sort_fallback (req s)) (args s)
                  (sort_fallback_truthy (req s))) as Hsort.
    now rewrite E in Hsort.
  - intros k H1 H2 H3.
    pose proof (page_args_other (sort_fallback (req s)) (args s) k H1 H2 H3) as Ho.
    now rewrite E in Ho.
Qed.

(** X2 at work: a page size given as text, after a no-break space. *)
Lemma pagination_normalises_witness :
  exists s',
    prefill_search_page
      (set_args [("size"%string, VStr (String (ascii_of_nat 160) "10"))] SearchQuery_init)
    = (Ok tt, s') /\
    dict_find "size" (args s') = Some (VInt 10) /\
    dict_find "from" (args s') = Some (VInt 0).
Proof.
  assert (Hrun : exists s',
             prefill_search_page
               (set_args [("size"%string, VStr (String (ascii_of_nat 160) "10"))]
                  SearchQuery_init)
             = (Ok tt, s')).
  { eexists. vm_compute. reflexivity. }
  destruct Hrun as (s' & Hrun). exists s'. split; [exact Hrun|].
  destruct (pagination_normalises _ s' Hrun)
    as ((size & from & Hz & Hf & Hsz & Hfr) & _ & _).
  vm_compute in Hz, Hf. injection Hz as <-. injection Hf as <-.
  split; assumption.
Defined.

(** ** Identity, again *)

(** X3. The [user] argument is for administrators: the context of a session
    user who is not one is that user's, whatever the argument says. *)
Theorem only_administrators_impersonate
    (e : Env) (r : option ParsedRequest) (lk : pyval) (s : SearchQuery) :
  derive_context e r lk SearchQuery_init = (Ok tt, s) ->
  is_admin e (get_user e) = false ->
  user s = get_user e /\
  search_is_admin s = false /\
  company s = get_user_company e (get_user e).
Proof.
  intros Hctx Hadm.
  destruct (derive_context_identity e r lk s Hctx) as (Hu & Ha & Hc).
  unfold requester in Hu, Ha, Hc. rewrite Hadm in Hu, Ha, Hc. simpl in Hu, Ha, Hc.
  auto.
Qed.

(** X3 at work: a reader names the administrator. *)
Lemma only_administrators_impersonate_witness :
  exists s,
    derive_context
      (Fixture.deployment (Some Fixture.reader) [Fixture.P1] Fixture.no_hits
         Fixture.empty_store)
      (Fixture.request [("user"%string, VStr "admin")]) VNone SearchQuery_init = (Ok tt, s) /\
    user s = Some Fixture.reader /\
    search_is_admin s = false /\
    company s = Some Fixture.acme.
Proof.
  pose (e := Fixture.deployment (Some Fixture.reader) [Fixture.P1] Fixture.no_hits
               Fixture.empty_store).
  pose (r := Fixture.request [("user"%string, VStr "admin")]).
  assert (Hctx : exists s, derive_context e r VNone SearchQuery_init = (Ok tt, s)).
  { eexists. vm_compute. reflexivity. }
  destruct Hctx as (s & H).
  exists s. split; [exact H|].
  exact (only_administrators_impersonate e r VNone s H eq_refl).
Defined.

(** X4. An administrator who names an existing user searches as that user:
    the context has the user, is an administrator's only if that user is
    one, and has that user's company. *)
Theorem impersonation_takes_the_identity
    (e : Env) (r : option ParsedRequest) (lk : pyval) (s : SearchQuery) (u : dict) :
  derive_context e r lk SearchQuery_init = (Ok tt, s) ->
  is_admin e (get_user e) = true ->
  truthy (dict_get (request_args r) "user") = true ->
  find_user e (dict_get (request_args r) "user") = Some u ->
  user s = Some u /\
  search_is_admin s = is_admin e (Some u) /\
  company s = get_user_company e (Some u).
Proof.
  intros Hctx Hadm Harg Hfind.
  destruct (derive_context_identity e r lk s Hctx) as (Hu & Ha & Hc).
  unfold requester in Hu, Ha, Hc. rewrite Hadm, Harg in Hu, Ha, Hc.
  simpl in Hu, Ha, Hc. rewrite Hfind in Hu, Ha, Hc. auto.
Qed.

(** X4 at work: the administrator previews the view of the reader. *)
Lemma impersonation_takes_the_identity_witness :
  exists s,
    derive_context
      (Fixture.deployment (Some Fixture.administrator) [Fixture.P1] Fixture.no_hits
         Fixture.empty_store)
      (Fixture.request [("user"%string, VStr "u1")]) VNone SearchQuery_init = (Ok tt, s) /\
    user s = Some Fixture.reader /\
    search_is_admin s = false /\
    company s = Some Fixture.acme.
Proof.
  pose (e := Fixture.deployment (Some Fixture.administrator) [Fixture.P1] Fixture.no_hits
               Fixture.empty_store).
  pose (r := Fixture.request [("user"%string, VStr "u1")]).
  assert (Hctx : exists s, derive_context e r VNone SearchQuery_init = (Ok tt, s)).
  { eexists. vm_compute. reflexivity. }
  destruct Hctx as (s & H).
  exists s. split; [exact H|].
  exact (impersonation_takes_the_identity e r VNone s Fixture.reader H
           eq_refl eq_refl eq_refl).
Defined.

(** ** What a standard search sends and keeps *)

Lemma get_standard_run (e : Env) (r : option ParsedRequest) (lk : pyval) (w : World) :
  all_versions_requested r = false ->
  get e r lk w =
  match lift (bind (derive_context e r lk) (fun _ => compile e)) w with
  | (Ok _, w3) => dispatch_standard e w3
  | (Raise x, w3) => (Raise x, w3)
  end.
Proof.
  intros Hall. rewrite get_phases, Hall.
  unfold bind at 1.
  unfold lift at 2. unfold bind at 1.
  unfold lift at 1.
  destruct (derive_context e r lk (search w)) as [[[]|x] s1]; [|reflexivity].
  rewrite serve_compile. unfold bind at 1. unfold lift at 1. simpl search.
  destruct (compile e s1) as [[[]|x] s3]; reflexivity.
Qed.

(** X5. A standard search sends one request or none: when the call returns,
    it has sent exactly one request, that of the context it ends with, and
    returns the index's answer to it; when the call raises, it has sent
    none. *)
Theorem standard_search_sends_one_request_or_none
    (e : Env) (r : option ParsedRequest) (lk : pyval) (w : World) :
  all_versions_requested r = false ->
  match fst (get e r lk w) with
  | Ok c =>
      dispatched (snd (get e r lk w)) =
      dispatched w ++ [request_of e (search (snd (get e r lk w)))] /\
      c = index_get e (internal_request e (search (snd (get e r lk w))))
            (lookup (search (snd (get e r lk w))))
  | Raise _ => dispatched (snd (get e r lk w)) = dispatched w
  end.
Proof.
  intros Hall. rewrite (get_standard_run e r lk w Hall).
  destruct (lift (bind (derive_context e r lk) (fun _ => compile e)) w)
    as [[[]|x] w3] eqn:E;
    destruct (lift_frame _ _ _ _ E) as [Hd _].
  - rewrite dispatch_standard_run. simpl. rewrite Hd. split; reflexivity.
  - simpl. exact Hd.
Qed.

(** X5 at work: the search of an entitled reader. *)
Lemma standard_search_sends_one_request_or_none_witness :
  let e := Fixture.deployment (Some Fixture.reader) [Fixture.P1; Fixture.P2]
             Fixture.no_hits Fixture.empty_store in
  let r := Fixture.request [("q"%string, VStr "election")] in
  fst (get e r VNone Fixture.idle) = Ok (mkCursor [] 0) /\
  dispatched (snd (get e r VNone Fixture.idle)) =
  [request_of e (search (snd (get e r VNone Fixture.idle)))].
Proof.
  intros e r.
  pose proof (standard_search_sends_one_request_or_none e r VNone Fixture.idle eq_refl)
    as H.
  assert (Hres : fst (get e r VNone Fixture.idle) = Ok (mkCursor [] 0)).
  { vm_compute. reflexivity. }
  rewrite Hres in H. destruct H as [Hd _]. split; [exact Hres|exact Hd].
Defined.

(** X6. A standard search does not touch the matched ids: those an earlier
    all-versions search left, its response not having gone through
    [on_fetched], are still there after the call, and [on_fetched] puts them
    in the links of the response of the standard search. *)
Theorem standard_search_keeps_matched_ids
    (e : Env) (r : option ParsedRequest) (lk : pyval) (w : World) :
  all_versions_requested r = false ->
  _matched_ids (snd (get e r lk w)) = _matched_ids w /\
  forall response links,
    _matched_ids w <> [] ->
    dict_find "_links" response = Some (VDict links) ->
    fst (on_fetched response (snd (get e r lk w))) =
    Ok (dict_set response "_links"
          (VDict (dict_set links "matched_ids" (VList (_matched_ids w))))).
Proof.
  intros Hall.
  assert (Hm : _matched_ids (snd (get e r lk w)) = _matched_ids w).
  { rewrite (get_standard_run e r lk w Hall).
    destruct (lift (bind (derive_context e r lk) (fun _ => compile e)) w)
      as [[[]|x] w3] eqn:E;
      destruct (lift_frame _ _ _ _ E) as [_ Hm].
    - rewrite dispatch_standard_run. simpl. exact Hm.
    - simpl. exact Hm. }
  split; [exact Hm|].
  intros response links Hne Hl.
  rewrite (on_fetched_attaches response links (snd (get e r lk w))).
  - simpl. now rewrite Hm.
  - now rewrite Hm.
  - assumption.
Qed.

(** X6 at work: ids left in the service reach the next response. *)
Lemma standard_search_keeps_matched_ids_witness :
  let e := Fixture.deployment (Some Fixture.reader) [Fixture.P1; Fixture.P2]
             Fixture.no_hits Fixture.empty_store in
  let r := Fixture.request [("q"%string, VStr "election")] in
  let w := mkWorld SearchQuery_init [VStr "A"; VStr "B"] [] in
  fst (on_fetched [("_links"%string, VDict [])] (snd (get e r VNone w))) =
  Ok [("_links"%string, VDict [("matched_ids"%string, VList [VStr "A"; VStr "B"])])].
Proof.
  intros e r w.
  destruct (standard_search_keeps_matched_ids e r VNone w eq_refl) as [_ H].
  apply (H [("_links"%string, VDict [])] []).
  - discriminate.
  - reflexivity.
Defined.

(** X7. The matched ids are surfaced once: when [on_fetched] returns, the
    service holds no matched id, and [on_fetched] returns the next response
    as it is given; when it raises, for want of links in the response, the
    service is as it was. *)
Theorem matched_ids_surface_once (response : dict) (w : World) :
  match on_fetched response w with
  | (Ok _, w') =>
      _matched_ids w' = [] /\
      forall response2, on_fetched response2 w' = (Ok response2, w')
  | (Raise _, w') => w' = w
  end.
Proof.
  unfold on_fetched. cbv [bind gets lift_res modify ret raise].
  destruct (_matched_ids w) as [|i ids] eqn:E; simpl.
  - split; [assumption|]. intros response2. now rewrite E.
  - destruct (dict_item response "_links") as [links|x]; [|reflexivity].
    destruct links; try reflexivity.
    split; [reflexivity|]. intros response2. reflexivity.
Qed.

(** ** The administrator's default *)

(** X8. For an administrator who names neither navigation nor product, the
    company filter, the time limit and the product filter add nothing: the
    context leaves the three stages as it entered them. *)
Theorem administrator_default_is_unfiltered (e : Env) (s : SearchQuery) :
  search_is_admin s = true ->
  navigation_ids s = [] ->
  truthy (dict_get (args s) "product") = false ->
  bind (apply_company_filter e)
       (fun _ => bind (apply_time_limit_filter e) (fun _ => apply_products_filter e)) s
  = (Ok tt, s).
Proof.
  intros Ha Hn Hp.
  assert (E1 : apply_company_filter e s = (Ok tt, s)).
  { unfold apply_company_filter. cbv [bind gets ret]. now rewrite Ha. }
  assert (E2 : apply_time_limit_filter e s = (Ok tt, s)).
  { unfold apply_time_limit_filter. cbv [bind gets ret]. now rewrite Ha. }
  assert (E3 : apply_products_filter e s = (Ok tt, s)).
  { unfold apply_products_filter. cbv [bind gets ret]. now rewrite Ha, Hn, Hp. }
  rewrite (bind_ok _ _ s s tt E1). rewrite (bind_ok _ _ s s tt E2). exact E3.
Qed.

(** X8 at work: the context of an administrator's plain search. *)
Lemma administrator_default_is_unfiltered_witness :
  let e := Fixture.deployment (Some Fixture.administrator) [Fixture.P1; Fixture.P2]
             Fixture.no_hits Fixture.empty_store in
  exists s,
    derive_context e (Fixture.request [("q"%string, VStr "election")]) VNone
      SearchQuery_init = (Ok tt, s) /\
    bind (apply_company_filter e)
         (fun _ => bind (apply_time_limit_filter e) (fun _ => apply_products_filter e)) s
    = (Ok tt, s).
Proof.
  intros e.
  assert (Hctx : exists s,
             derive_context e (Fixture.request [("q"%string, VStr "election")]) VNone
               SearchQuery_init = (Ok tt, s) /\
             search_is_admin s = true /\
             navigation_ids s = [] /\
             truthy (dict_get (args s) "product") = false).
  { eexists. split; [vm_compute; reflexivity|]. repeat split. }
  destruct Hctx as (s & H & Ha & Hn & Hp).
  exists s. split; [exact H|].
  exact (administrator_default_is_unfiltered e s Ha Hn Hp).
Defined.

(** ** Structured filters *)

(** X9. [_filter_terms] on filters whose keys, those with a value that is
    not empty, all have an aggregation with a field: one terms clause per such
    key, on the field of its aggregation, in the order of the filters; the
    keys with an empty value give no clause. *)
Theorem filter_terms_of_known_keys
    (e : Env) (field : string -> string) (filters : dict) :
  (forall k v,
      In (k, v) filters -> truthy v = true ->
      get_aggregation_field e k = Ok (VStr (field k))) ->
  _filter_terms e (VDict filters) =
  Ok (map (fun kv => VDict [("terms"%string, VDict [(field (fst kv), snd kv)])])
          (filter (fun kv => truthy (snd kv)) filters)).
Proof.
  simpl. induction filters as [|[k v] r IH]; intros H; simpl; [reflexivity|].
  destruct (truthy v) eqn:Ev.
  - rewrite (H k v (or_introl eq_refl) Ev).
    rewrite IH by (intros k' v' Hin; apply H; now right). reflexivity.
  - apply IH. intros k' v' Hin. apply H. now right.
Qed.

(** X9 at work: a filter on the genre, and an empty one. *)
Lemma filter_terms_of_known_keys_witness :
  _filter_terms
    (Fixture.deployment None [] Fixture.no_hits Fixture.empty_store)
    (VDict [("genre"%string, VList [VStr "Sports"]); ("urgency"%string, VList [])]) =
  Ok [VDict [("terms"%string,
              VDict [("genre.name"%string, VList [VStr "Sports"])])]].
Proof.
  apply (filter_terms_of_known_keys
           (Fixture.deployment None [] Fixture.no_hits Fixture.empty_store)
           (fun _ => "genre.name"%string)).
  intros k v [H|[H|[]]] Ht; injection H as <- <-.
  - reflexivity.
  - discriminate Ht.
Defined.

(** X10. A filter on a key whose aggregation field cannot be read, the key
    having no aggregation or the aggregation no field, makes [_filter_terms]
    raise: no clause is built for the filters. *)
Theorem filter_on_unknown_key_raises
    (e : Env) (filters : dict) (k : string) (v : pyval) (x0 : exn) :
  In (k, v) filters ->
  truthy v = true ->
  get_aggregation_field e k = Raise x0 ->
  exists x, _filter_terms e (VDict filters) = Raise x.
Proof.
  simpl. induction filters as [|[k0 v0] r IH]; intros Hin Ht Hno; [contradiction|].
  simpl. destruct Hin as [Heq|Hin].
  - injection Heq as -> ->. rewrite Ht, Hno. eexists. reflexivity.
  - destruct (IH Hin Ht Hno) as (x & Hx). rewrite Hx.
    destruct (truthy v0); [|eexists; reflexivity].
    destruct (get_aggregation_field e k0) as [fv|y].
    + destruct fv; eexists; reflexivity.
    + eexists. reflexivity.
Qed.

(** X10 at work: the deployment aggregates on the genre only. *)
Lemma filter_on_unknown_key_raises_witness :
  exists x,
    _filter_terms
      (Fixture.deployment None [] Fixture.no_hits Fixture.empty_store)
      (VDict [("genre"%string, VList [VStr "Sports"]);
              ("place"%string, VList [VStr "Oslo"])]) = Raise x.
Proof.
  apply (filter_on_unknown_key_raises _ _ "place"%string (VList [VStr "Oslo"])
           (KeyError "place")).
  - right. left. reflexivity.
  - reflexivity.
  - reflexivity.
Defined.

(** ** The aggregations of the STT fields *)

Lemma stt_wire_aggs_find (aggs : dict) (k : string) :
  dict_find k (stt_wire_aggs aggs) =
  if existsb (String.eqb k) STT_FIELDS then Some (stt_aggregation k) else dict_find k aggs.
Proof.
  unfold stt_wire_aggs, STT_FIELDS. simpl fold_left. simpl existsb.
  destruct (String.eqb_spec k "sttgenre") as [->|H3].
  - rewrite dict_find_set_same. reflexivity.
  - rewrite dict_find_set_other by assumption.
    destruct (String.eqb_spec k "sttversion") as [->|H2].
    + rewrite dict_find_set_same. reflexivity.
    + rewrite dict_find_set_other by assumption.
      destruct (String.eqb_spec k "sttdepartment") as [->|H1].
      * rewrite dict_find_set_same. reflexivity.
      * rewrite dict_find_set_other by assumption. reflexivity.
Qed.

Lemma existsb_eqb_in (k : string) (l : list string) :
  existsb (String.eqb k) l = true <-> In k l.
Proof.
  rewrite existsb_exists. split.
  - intros (x & Hin & Heq). apply String.eqb_eq in Heq. now subst.
  - intros Hin. exists k. split; [assumption|apply String.eqb_refl].
Qed.

(** X11. Once [init_app] of the STT filters has updated [WIRE_AGGS], the
    search service aggregates each STT field on the field of that name,
    whatever [WIRE_AGGS] held for it, and finds the aggregation of any other
    key as [WIRE_AGGS] had it. *)
Theorem stt_fields_aggregate_on_themselves (e : Env) (aggs : dict) :
  WIRE_AGGS e = VDict (stt_wire_aggs aggs) ->
  (forall f, In f STT_FIELDS -> get_aggregation_field e f = Ok (VStr f)) /\
  (forall k, ~ In k STT_FIELDS -> py_item (get_aggregations e) k = dict_item aggs k).
Proof.
  intros Hw.
  assert (Hg : get_aggregations e = VDict (stt_wire_aggs aggs)).
  { unfold get_aggregations, py_or. rewrite Hw.
    destruct (stt_wire_aggs aggs) eqn:E; [|reflexivity].
    pose proof (stt_wire_aggs_find aggs "sttgenre") as H. rewrite E in H.
    simpl in H. discriminate. }
  split.
  - intros f Hf. unfold get_aggregation_field. rewrite Hg. simpl.
    unfold dict_item. rewrite stt_wire_aggs_find.
    apply existsb_eqb_in in Hf. rewrite Hf. reflexivity.
  - intros k Hk. rewrite Hg. simpl. unfold dict_item. rewrite stt_wire_aggs_find.
    destruct (existsb (String.eqb k) STT_FIELDS) eqn:E; [|reflexivity].
    apply existsb_eqb_in in E. contradiction.
Qed.

(** X11 at work: the deployment after [init_app]. *)
Lemma stt_fields_aggregate_on_themselves_witness :
  get_aggregation_field
    (with_WIRE_AGGS
       (VDict (stt_wire_aggs [("genre"%string, stt_aggregation "genre.name")]))
       (Fixture.deployment None [] Fixture.no_hits Fixture.empty_store))
    "sttdepartment" = Ok (VStr "sttdepartment").
Proof.
  apply (stt_fields_aggregate_on_themselves
           (with_WIRE_AGGS
              (VDict (stt_wire_aggs [("genre"%string, stt_aggregation "genre.name")]))
              (Fixture.deployment None [] Fixture.no_hits Fixture.empty_store))
           [("genre"%string, stt_aggregation "genre.name")] eq_refl).
  left. reflexivity.
Defined.

(** ** Lists of ids in one parameter *)

Lemma split_on_comma_free (x : string) :
  comma_free x = true -> split_on ","%char x = [x].
Proof.
  induction x as [|c x IH]; simpl; [reflexivity|].
  intros H. apply andb_true_iff in H. destruct H as [Hc Hx].
  apply negb_true_iff in Hc. rewrite Hc. now rewrite (IH Hx).
Qed.

Lemma split_on_append (x t : string) :
  comma_free x = true ->
  split_on ","%char (String.append x (String ","%char t)) = x :: split_on ","%char t.
Proof.
  induction x as [|c x IH]; simpl; [reflexivity|].
  intros H. apply andb_true_iff in H. destruct H as [Hc Hx].
  apply negb_true_iff in Hc. rewrite Hc. now rewrite (IH Hx).
Qed.

Lemma split_join_commas (ids : list string) :
  ids <> [] ->
  forallb comma_free ids = true ->
  split_on ","%char (join_commas ids) = ids.
Proof.
  induction ids as [|x r IH]; [contradiction|].
  intros _ H. simpl in H. apply andb_true_iff in H. destruct H as [Hx Hr].
  destruct r as [|y r'].
  - simpl. now apply split_on_comma_free.
  - change (join_commas (x :: y :: r'))
      with (String.append x (String ","%char (join_commas (y :: r')))).
    rewrite (split_on_append x _ Hx). rewrite IH; [reflexivity|discriminate|assumption].
Qed.

(** X12. A [navigation] parameter that is the ids joined by commas, none of
    which holds a comma, is read back as those ids, in order. *)
Theorem navigation_ids_are_read_back (s : SearchQuery) (ids : list string) :
  dict_get (args s) "navigation" = VStr (join_commas ids) ->
  join_commas ids <> EmptyString ->
  forallb comma_free ids = true ->
  prefill_search_navigation s = (Ok tt, set_navigation_ids (map VStr ids) s).
Proof.
  intros Hnav Hne Hfree.
  assert (Ht : truthy (VStr (join_commas ids)) = true).
  { simpl. destruct (String.eqb_spec (join_commas ids) EmptyString); [contradiction|].
    reflexivity. }
  assert (Hids : ids <> []) by (intros ->; now apply Hne).
  unfold prefill_search_navigation. cbv [bind gets lift_res modify].
  rewrite Hnav, Ht. rewrite (dict_item_of_get _ _ _ Hnav Ht). simpl.
  now rewrite (split_join_commas ids Hids Hfree).
Qed.

(** X12 at work: two navigation ids. *)
Lemma navigation_ids_are_read_back_witness :
  prefill_search_navigation
    (set_args [("navigation"%string, VStr "n1,n2")] SearchQuery_init) =
  (Ok tt,
   set_navigation_ids [VStr "n1"; VStr "n2"]
     (set_args [("navigation"%string, VStr "n1,n2")] SearchQuery_init)).
Proof.
  apply (navigation_ids_are_read_back
           (set_args [("navigation"%string, VStr "n1,n2")] SearchQuery_init)
           ["n1"; "n2"]%string).
  - reflexivity.
  - discriminate.
  - reflexivity.
Defined.

(** ** Requested products given as a string *)

(** X13. Validation reads a [requested_products] string character by
    character: for a requester who is not an administrator and has a company
    and products, a string with a character that is the id of no entitled
    product, a comma between two ids for one, is refused with the 404, and
    nothing is sent to the index. *)
Theorem requested_products_string_is_read_by_character
    (e : Env) (r : option ParsedRequest) (lk : pyval) (w : World) (s : SearchQuery)
    (str : string) (c : pyval) :
  derive_context e r lk SearchQuery_init = (Ok tt, s) ->
  search_is_admin s = false ->
  truthy_record (company s) = true ->
  products s <> [] ->
  dict_get (args s) "requested_products" = VStr str ->
  In c (chars_of str) ->
  list_contains (entitled_ids s) c = false ->
  get e r lk w =
  (Raise (HTTPException 404 "Invalid product parameter"), set_search s w).
Proof.
  intros Hctx Ha Hc Hp Hrp Hin Hno.
  assert (Ht : truthy (VStr str) = true) by (destruct str; [contradiction|reflexivity]).
  assert (Hv : validate_request s =
               (Raise (HTTPException 404 "Invalid product parameter"), s)).
  { unfold validate_request, bind, gets, raise, lift_res.
    rewrite Ha, Hc. simpl.
    destruct (products s) as [|p ps] eqn:Eps; [contradiction|]. simpl.
    rewrite Hrp, Ht.
    rewrite (dict_item_of_get _ _ _ Hrp Ht). simpl.
    unfold entitled_ids in Hno. rewrite Eps in Hno. simpl in Hno.
    now rewrite (forallb_exception _ (chars_of str) c Hin Hno). }
  rewrite (get_of_context e r lk w s Hctx).
  exact (serve_rejected e _ (set_search s w) _ s Hv).
Qed.

(** X13 at work: a reader entitled to P1 and P2 asks for both in one
    string. *)
Lemma requested_products_string_is_read_by_character_witness :
  exists w',
    get (Fixture.deployment (Some Fixture.reader) [Fixture.P1; Fixture.P2]
           Fixture.no_hits Fixture.empty_store)
        (Fixture.request [("requested_products"%string, VStr "p1,p2")])
        VNone Fixture.idle
    = (Raise (HTTPException 404 "Invalid product parameter"), w').
Proof.
  pose (e := Fixture.deployment (Some Fixture.reader) [Fixture.P1; Fixture.P2]
               Fixture.no_hits Fixture.empty_store).
  pose (r := Fixture.request [("requested_products"%string, VStr "p1,p2")]).
  assert (Hctx : exists s,
             derive_context e r VNone SearchQuery_init = (Ok tt, s) /\
             search_is_admin s = false /\
             truthy_record (company s) = true /\
             products s <> [] /\
             dict_get (args s) "requested_products" = VStr "p1,p2" /\
             list_contains (entitled_ids s) (VStr ",") = false).
  { eexists. split; [vm_compute; reflexivity|].
    repeat split. discriminate. }
  destruct Hctx as (s & H1 & H2 & H3 & H4 & H5 & H6).
  eexists.
  apply (requested_products_string_is_read_by_character e r VNone Fixture.idle s
           "p1,p2" (VStr ",") H1 H2 H3 H4 H5); [|exact H6].
  right. right. left. reflexivity.
Defined.

(** ** Publishing an item with STT subjects *)

Lemma on_publish_item_phases (pd : pyval -> pyval) (now : Z) (item : dict) :
  on_publish_item pd now item =
  bind populate_stt_fields (fun _ => set_archive_date pd now) item.
Proof.
  unfold on_publish_item, populate_stt_fields, set_archive_date.
  cbv [bind gets]. destruct (truthy (dict_get item "subject")); reflexivity.
Qed.

Lemma stt_scheme (sd : dict) :
  list_contains (map VStr STT_FIELDS) (dict_get_default sd "scheme" (VStr EmptyString)) = true ->
  exists k, dict_find "scheme" sd = Some (VStr k) /\ In k STT_FIELDS.
Proof.
  unfold dict_get_default.
  destruct (dict_find "scheme" sd) as [v|]; [|discriminate].
  destruct v as [| | |k| |]; try discriminate.
  intros H. exists k. split; [reflexivity|].
  unfold list_contains in H. apply existsb_exists in H.
  destruct H as (y & Hin & Heq). apply in_map_iff in Hin.
  destruct Hin as (f & <- & Hf). simpl in Heq. apply String.eqb_eq in Heq. now subst.
Qed.

Lemma stt_subject_run (sd : dict) (item : dict) :
  stt_subject (VDict sd) item = (Ok tt, stt_writes (stt_assignments [VDict sd]) item).
Proof.
  unfold stt_subject, stt_assignments.
  destruct (list_contains (map VStr STT_FIELDS)
              (dict_get_default sd "scheme" (VStr EmptyString))) eqn:E; [|reflexivity].
  destruct (stt_scheme sd E) as (k & Hk & _).
  cbv [bind lift_res modify]. unfold dict_item, dict_get. rewrite Hk. reflexivity.
Qed.

Lemma stt_assignments_cons (s : pyval) (r : list pyval) :
  stt_assignments (s :: r) = stt_assignments [s] ++ stt_assignments r.
Proof.
  destruct s as [| | | | |sd]; try reflexivity.
  cbn [stt_assignments].
  destruct (list_contains (map VStr STT_FIELDS)
              (dict_get_default sd "scheme" (VStr EmptyString))); [|reflexivity].
  destruct (dict_get sd "scheme"); reflexivity.
Qed.

Lemma stt_assignments_app (l1 l2 : list pyval) :
  stt_assignments (l1 ++ l2) = stt_assignments l1 ++ stt_assignments l2.
Proof.
  induction l1 as [|s r IH]; [reflexivity|].
  rewrite <- app_comm_cons. rewrite stt_assignments_cons, IH.
  rewrite (stt_assignments_cons s r). now rewrite app_assoc.
Qed.

Lemma stt_writes_app (l1 l2 : list (string * pyval)) (item : dict) :
  stt_writes (l1 ++ l2) item = stt_writes l2 (stt_writes l1 item).
Proof. apply fold_left_app. Qed.

(** The loop over subjects that are dictionaries returns, the assignments
    made. *)
Lemma stt_loop_run (subjects : list pyval) (item : dict) :
  subjects_well_formed subjects = true ->
  for_each subjects stt_subject item = (Ok tt, stt_writes (stt_assignments subjects) item).
Proof.
  revert item. induction subjects as [|s r IH]; intros item H; [reflexivity|].
  simpl in H. destruct s as [| | | | |sd]; try discriminate.
  change (for_each (VDict sd :: r) stt_subject)
    with (bind (stt_subject (VDict sd)) (fun _ => for_each r stt_subject)).
  rewrite (bind_ok _ _ item _ tt (stt_subject_run sd item)).
  rewrite (IH _ H). rewrite (stt_assignments_cons (VDict sd) r), stt_writes_app.
  reflexivity.
Qed.

(** The loop stops at the first subject that is not a dictionary. *)
Lemma stt_loop_stops (before after : list pyval) (bad : pyval) (item : dict) :
  subjects_well_formed before = true ->
  subjects_well_formed [bad] = false ->
  for_each (before ++ bad :: after) stt_subject item =
  (Raise AttributeError, stt_writes (stt_assignments before) item).
Proof.
  revert item. induction before as [|s r IH]; intros item H Hbad.
  - simpl app. 
    change (for_each (bad :: after) stt_subject)
      with (bind (stt_subject bad) (fun _ => for_each after stt_subject)).
    destruct bad; try reflexivity. discriminate.
  - simpl in H. destruct s as [| | | | |sd]; try discriminate.
    rewrite <- app_comm_cons.
    change (for_each (VDict sd :: (r ++ bad :: after)) stt_subject)
      with (bind (stt_subject (VDict sd))
                 (fun _ => for_each (r ++ bad :: after) stt_subject)).
    rewrite (bind_ok _ _ item _ tt (stt_subject_run sd item)).
    rewrite (IH _ H Hbad). rewrite (stt_assignments_cons (VDict sd) r), stt_writes_app.
    reflexivity.
Qed.

Lemma stt_loop_ok (subjects : list pyval) (item item' : dict) :
  for_each subjects stt_subject item = (Ok tt, item') ->
  subjects_well_formed subjects = true.
Proof.
  revert item. induction subjects as [|s r IH]; intros item H; [reflexivity|].
  change (for_each (s :: r) stt_subject)
    with (bind (stt_subject s) (fun _ => for_each r stt_subject)) in H.
  destruct s as [| | | | |sd]; try discriminate H.
  rewrite (bind_ok _ _ item _ tt (stt_subject_run sd item)) in H.
  simpl. exact (IH _ H).
Qed.

Lemma stt_assignments_fields (subjects : list pyval) (k : string) (v : pyval) :
  In (k, v) (stt_assignments subjects) ->
  In k STT_FIELDS /\ exists s, In s subjects /\ scheme_of s = VStr k.
Proof.
  induction subjects as [|s r IH]; [contradiction|].
  rewrite stt_assignments_cons. intros H. apply in_app_or in H.
  destruct H as [H|H].
  - destruct s as [| | | | |sd]; try contradiction.
    cbn [stt_assignments] in H.
    destruct (list_contains (map VStr STT_FIELDS)
                (dict_get_default sd "scheme" (VStr EmptyString))) eqn:E; [|contradiction].
    destruct (stt_scheme sd E) as (k' & Hk & Hin).
    unfold dict_get in H. rewrite Hk in H. destruct H as [H|[]].
    injection H as <- _. split; [assumption|].
    exists (VDict sd). split; [now left|].
    simpl. unfold dict_get_default. now rewrite Hk.
  - destruct (IH H) as (Hf & s' & Hs & Hsch). split; [assumption|].
    exists s'. split; [now right|assumption].
Qed.

Lemma dict_find_app (k : string) (a b : dict) :
  dict_find k (a ++ b) =
  match dict_find k a with Some v => Some v | None => dict_find k b end.
Proof.
  induction a as [|[k' v'] r IH]; [reflexivity|]. simpl.
  destruct (String.eqb k k'); [reflexivity|exact IH].
Qed.

Lemma dict_find_absent (k : string) (d : dict) :
  (forall v, ~ In (k, v) d) -> dict_find k d = None.
Proof.
  induction d as [|[k' v'] r IH]; intros H; [reflexivity|]. simpl.
  destruct (String.eqb_spec k k') as [->|Hne].
  - exfalso. apply (H v'). now left.
  - apply IH. intros v Hin. apply (H v). now right.
Qed.

(** A key reads, after the assignments, the last value assigned to it, or
    what it read before. *)
Lemma dict_find_writes (k : string) (l : list (string * pyval)) (item : dict) :
  dict_find k (stt_writes l item) =
  match dict_find k (rev l) with Some v => Some v | None => dict_find k item end.
Proof.
  revert item. induction l as [|[k0 v0] r IH]; intros item; [reflexivity|].
  change (stt_writes ((k0, v0) :: r) item) with (stt_writes r (dict_set item k0 v0)).
  rewrite IH. simpl rev. rewrite dict_find_app.
  destruct (dict_find k (rev r)); [reflexivity|]. simpl.
  destruct (String.eqb_spec k k0) as [->|Hne].
  - apply dict_find_set_same.
  - now apply dict_find_set_other.
Qed.

Lemma stt_writes_other (k : string) (l : list (string * pyval)) (item : dict) :
  (forall v, ~ In (k, v) l) ->
  dict_find k (stt_writes l item) = dict_find k item.
Proof.
  intros H. rewrite dict_find_writes. rewrite dict_find_absent; [reflexivity|].
  intros v Hin. apply (H v). now apply in_rev.
Qed.

(** What the first statement does when it returns. *)
Lemma populate_stt_fields_ok (item item' : dict) :
  populate_stt_fields item = (Ok tt, item') ->
  exists subjects,
    subjects_well_formed subjects = true /\
    item' = stt_writes (stt_assignments subjects) item /\
    (truthy (dict_get item "subject") = true ->
     py_iter (dict_get item "subject") = Ok subjects).
Proof.
  unfold populate_stt_fields. cbv [bind gets lift_res ret].
  destruct (truthy (dict_get item "subject")) eqn:Et.
  - destruct (py_iter (dict_get item "subject")) as [subjects|x]; [|discriminate].
    intros H. exists subjects. pose proof (stt_loop_ok _ _ _ H) as Hwf.
    rewrite (stt_loop_run _ _ Hwf) in H. injection H as <-. auto.
  - intros H. injection H as <-. exists []. repeat split. discriminate.
Qed.

Lemma populate_stt_fields_other (item item' : dict) (k : string) :
  populate_stt_fields item = (Ok tt, item') ->
  ~ In k STT_FIELDS ->
  dict_find k item' = dict_find k item.
Proof.
  intros H Hk. destruct (populate_stt_fields_ok _ _ H) as (subjects & _ & -> & _).
  apply stt_writes_other. intros v Hin.
  apply Hk. exact (proj1 (stt_assignments_fields _ _ _ Hin)).
Qed.

(** What the second statement does when it returns. *)
Lemma set_archive_date_ok (pd : pyval -> pyval) (now : Z) (item item' : dict) :
  set_archive_date pd now item = (Ok tt, item') ->
  item' = item \/
  exists fp vc,
    truthy (dict_get item "firstpublished") = true /\
    pd (dict_get item "firstpublished") = VInt fp /\
    dict_find "versioncreated" item = Some (VInt vc) /\
    fp < vc /\ fp < now - seven_days /\
    item' = dict_set item "versioncreated" (VInt fp).
Proof.
  unfold set_archive_date. cbv [bind gets lift_res ret modify].
  destruct (truthy (dict_get item "firstpublished")) eqn:Et;
    [|intros H; injection H as <-; now left].
  unfold dict_item.
  destruct (dict_find "versioncreated" item) as [vcv|] eqn:Ev; [|discriminate].
  destruct (pd (dict_get item "firstpublished")) as [| |fp| | |] eqn:Ep; try discriminate.
  destruct vcv as [| |vc| | |]; try discriminate. simpl.
  destruct (fp <? vc) eqn:E1; [|intros H; injection H as <-; now left].
  simpl. destruct (fp <? now - seven_days) eqn:E2; intros H; injection H as <-;
    [|now left].
  right. exists fp, vc. apply Z.ltb_lt in E1. apply Z.ltb_lt in E2. repeat split; assumption.
Qed.

Lemma on_publish_item_ok (pd : pyval -> pyval) (now : Z) (item item' : dict) :
  on_publish_item pd now item = (Ok tt, item') ->
  exists mid,
    populate_stt_fields item = (Ok tt, mid) /\
    set_archive_date pd now mid = (Ok tt, item').
Proof.
  rewrite on_publish_item_phases. intros H.
  destruct (bind_ok_inv _ _ _ _ _ H) as (a & mid & H1 & H2).
  destruct a. exists mid. split; assumption.
Qed.

Lemma stt_field_not_date (f : string) :
  In f STT_FIELDS -> f <> "versioncreated"%string.
Proof. intros [<-|[<-|[<-|[]]]]; discriminate. Qed.

(** X14. [on_publish_item] gives an STT field the name, or for want of a
    name the code, of the last subject of that scheme. *)
Theorem stt_field_takes_the_last_subject
    (pd : pyval -> pyval) (now : Z) (item item' : dict)
    (before after : list pyval) (sd : dict) (f : string) :
  on_publish_item pd now item = (Ok tt, item') ->
  dict_get item "subject" = VList (before ++ VDict sd :: after) ->
  In f STT_FIELDS ->
  dict_find "scheme" sd = Some (VStr f) ->
  (forall s, In s after -> scheme_of s <> VStr f) ->
  dict_find f item' = Some (dict_get_default sd "name" (dict_get sd "code")).
Proof.
  intros Hrun Hsub Hf Hsch Hafter.
  destruct (on_publish_item_ok _ _ _ _ Hrun) as (mid & H1 & H2).
  assert (Hmid : dict_find f mid = Some (dict_get_default sd "name" (dict_get sd "code"))).
  { destruct (populate_stt_fields_ok _ _ H1) as (subjects & _ & -> & Hit).
    rewrite Hsub in Hit. specialize (Hit ltac:(now destruct before)).
    injection Hit as <-.
    rewrite dict_find_writes, stt_assignments_app, stt_assignments_cons.
    assert (Hsd : stt_assignments [VDict sd] =
                  [(f, dict_get_default sd "name" (dict_get sd "code"))]).
    { assert (Hc : list_contains (map VStr STT_FIELDS)
                     (dict_get_default sd "scheme" (VStr EmptyString)) = true).
      { unfold dict_get_default. rewrite Hsch. unfold list_contains.
        apply existsb_exists. exists (VStr f).
        split; [now apply in_map|simpl; apply String.eqb_refl]. }
      cbn [stt_assignments]. rewrite Hc.
      replace (dict_get sd "scheme") with (VStr f)
        by (unfold dict_get; now rewrite Hsch).
      reflexivity. }
    rewrite Hsd. rewrite !rev_app_distr. simpl rev.
    rewrite !dict_find_app.
    rewrite (dict_find_absent f (rev (stt_assignments after))).
    - simpl. now rewrite String.eqb_refl.
    - intros v Hin. apply in_rev in Hin.
      destruct (stt_assignments_fields _ _ _ Hin) as (_ & s & Hs & Hsc).
      exact (Hafter s Hs Hsc). }
  destruct (set_archive_date_ok _ _ _ _ H2) as [->|(fp & vc & _ & _ & _ & _ & _ & ->)];
    [assumption|].
  rewrite dict_find_set_other by now apply stt_field_not_date. assumption.
Qed.

(** X14 at work: two departments and a genre without a name. *)
Lemma stt_field_takes_the_last_subject_witness :
  let item :=
    [("subject"%string,
      VList [VDict [("scheme"%string, VStr "sttdepartment"); ("name"%string, VStr "Sport")];
             VDict [("scheme"%string, VStr "sttdepartment"); ("name"%string, VStr "Culture")];
             VDict [("scheme"%string, VStr "sttgenre"); ("code"%string, VStr "7")]])] in
  exists item',
    on_publish_item (fun v => v) 0 item = (Ok tt, item') /\
    dict_find "sttdepartment" item' = Some (VStr "Culture").
Proof.
  intros item. eexists. split; [reflexivity|].
  apply (stt_field_takes_the_last_subject (fun v => v) 0 item _
           [VDict [("scheme"%string, VStr "sttdepartment"); ("name"%string, VStr "Sport")]]
           [VDict [("scheme"%string, VStr "sttgenre"); ("code"%string, VStr "7")]]
           [("scheme"%string, VStr "sttdepartment"); ("name"%string, VStr "Culture")]
           "sttdepartment" eq_refl eq_refl).
  - left. reflexivity.
  - reflexivity.
  - intros s [<-|[]]. discriminate.
Defined.

(** X15. [on_publish_item] moves [versioncreated] only backwards: for an
    item with a first publication and a version date, the version date it
    leaves is the first publication when that is before the version date and
    more than seven days before the call, and the version date it found
    otherwise. *)
Theorem archive_item_takes_its_first_publication
    (pd : pyval -> pyval) (now : Z) (item item' : dict) (fp vc : Z) :
  on_publish_item pd now item = (Ok tt, item') ->
  truthy (dict_get item "firstpublished") = true ->
  pd (dict_get item "firstpublished") = VInt fp ->
  dict_find "versioncreated" item = Some (VInt vc) ->
  dict_find "versioncreated" item' =
  Some (VInt (if (fp <? vc) && (fp <? now - seven_days) then fp else vc)) /\
  (if (fp <? vc) && (fp <? now - seven_days) then fp else vc) <= vc.
Proof.
  intros Hrun Ht Hp Hv.
  destruct (on_publish_item_ok _ _ _ _ Hrun) as (mid & H1 & H2).
  assert (Hfp : dict_get mid "firstpublished" = dict_get item "firstpublished").
  { unfold dict_get.
    rewrite (populate_stt_fields_other _ _ "firstpublished" H1); [reflexivity|].
    intros [H|[H|[H|[]]]]; discriminate. }
  assert (Hvc : dict_find "versioncreated" mid = Some (VInt vc)).
  { rewrite (populate_stt_fields_other _ _ "versioncreated" H1); [assumption|].
    intros [H|[H|[H|[]]]]; discriminate. }
  split.
  - revert H2. unfold set_archive_date. cbv [bind gets lift_res ret modify].
    rewrite Hfp, Ht, Hp. unfold dict_item. rewrite Hvc. simpl.
    destruct (fp <? vc); simpl.
    + destruct (fp <? now - seven_days); intros H; injection H as <-.
      * apply dict_find_set_same.
      * assumption.
    + intros H; injection H as <-. assumption.
  - destruct (fp <? vc) eqn:E; simpl; [|lia].
    destruct (fp <? now - seven_days); [|lia]. apply Z.ltb_lt in E. lia.
Qed.

(** X15 at work: an item first published thirty days before the call. *)
Lemma archive_item_takes_its_first_publication_witness :
  let item := [("firstpublished"%string, VInt 1000);
               ("versioncreated"%string, VInt (1000 + 29 * 86400))] in
  exists item',
    on_publish_item (fun v => v) (1000 + 30 * 86400) item = (Ok tt, item') /\
    dict_find "versioncreated" item' = Some (VInt 1000).
Proof.
  intros item.
  assert (Hrun : exists item',
             on_publish_item (fun v => v) (1000 + 30 * 86400) item = (Ok tt, item')).
  { eexists. vm_compute. reflexivity. }
  destruct Hrun as (item' & Hrun). exists item'. split; [exact Hrun|].
  exact (proj1 (archive_item_takes_its_first_publication
                  (fun v => v) (1000 + 30 * 86400) item item' 1000 (1000 + 29 * 86400)
                  Hrun eq_refl eq_refl eq_refl)).
Defined.

(** X16. [on_publish_item] writes the STT fields and [versioncreated] and
    nothing else: when it returns, every other key of the item reads as
    before. *)
Theorem on_publish_item_writes_only_its_fields
    (pd : pyval -> pyval) (now : Z) (item item' : dict) (k : string) :
  on_publish_item pd now item = (Ok tt, item') ->
  ~ In k STT_FIELDS ->
  k <> "versioncreated"%string ->
  dict_find k item' = dict_find k item.
Proof.
  intros Hrun Hk Hd.
  destruct (on_publish_item_ok _ _ _ _ Hrun) as (mid & H1 & H2).
  rewrite <- (populate_stt_fields_other _ _ k H1 Hk).
  destruct (set_archive_date_ok _ _ _ _ H2) as [->|(fp & vc & _ & _ & _ & _ & _ & ->)];
    [reflexivity|].
  now apply dict_find_set_other.
Qed.

(** X16 at work: the headline of an item with a department. *)
Lemma on_publish_item_writes_only_its_fields_witness :
  let item :=
    [("headline"%string, VStr "Election night");
     ("subject"%string,
      VList [VDict [("scheme"%string, VStr "sttdepartment"); ("name"%string, VStr "Sport")]])] in
  exists item',
    on_publish_item (fun v => v) 0 item = (Ok tt, item') /\
    dict_find "headline" item' = Some (VStr "Election night").
Proof.
  intros item. eexists. split; [reflexivity|].
  apply (on_publish_item_writes_only_its_fields (fun v => v) 0 item _ "headline" eq_refl).
  - intros [H|[H|[H|[]]]]; discriminate.
  - discriminate.
Defined.

(** X17. A subject that is not a dictionary stops [on_publish_item] with an
    [AttributeError], the item left with the fields of the subjects before it
    already written and its version date as it was. *)
Theorem subject_without_get_stops_the_loop
    (pd : pyval -> pyval) (now : Z) (item : dict) (before after : list pyval) (bad : pyval) :
  dict_get item "subject" = VList (before ++ bad :: after) ->
  subjects_well_formed before = true ->
  subjects_well_formed [bad] = false ->
  on_publish_item pd now item =
  (Raise AttributeError, stt_writes (stt_assignments before) item).
Proof.
  intros Hsub Hwf Hbad. rewrite on_publish_item_phases.
  apply bind_raise. unfold populate_stt_fields. cbv [bind gets lift_res].
  rewrite Hsub. replace (truthy (VList (before ++ bad :: after))) with true
    by now destruct before.
  simpl py_iter. cbv iota beta. now apply stt_loop_stops.
Qed.

(** X17 at work: a subject given as its code. *)
Lemma subject_without_get_stops_the_loop_witness :
  let genre := VDict [("scheme"%string, VStr "sttgenre"); ("name"%string, VStr "Analysis")] in
  let item := [("subject"%string, VList [genre; VStr "15000000"])] in
  on_publish_item (fun v => v) 0 item =
  (Raise AttributeError,
   [("subject"%string, VList [genre; VStr "15000000"]);
    ("sttgenre"%string, VStr "Analysis")]).
Proof.
  intros genre item.
  exact (subject_without_get_stops_the_loop (fun v => v) 0 item [genre] []
           (VStr "15000000") eq_refl eq_refl eq_refl).
Defined.

(** ** What the filters do to the query *)

Lemma set_query_same (s : SearchQuery) : set_query (query s) s = s.
Proof. destruct s. reflexivity. Qed.

Lemma extend_clauses_should (cs : list pyval) (s : SearchQuery)
    (m mn sh : list pyval) (rest : dict) :
  query s = bool_query m mn sh rest ->
  extend_clauses "should" cs s = (Ok tt, set_query (bool_query m mn (sh ++ cs) rest) s).
Proof. intros Hq. unfold extend_clauses. rewrite Hq. reflexivity. Qed.

Lemma extend_clauses_grown (m mn sh : list pyval) (key : string) (cs : list pyval) :
  key = "must"%string \/ key = "must_not"%string \/ key = "should"%string ->
  invariant (grown_from m mn sh) (extend_clauses key cs).
Proof.
  intros Hk s (m' & mn' & sh' & Hq). unfold extend_clauses. rewrite Hq.
  destruct Hk as [-> | [-> | ->]]; simpl.
  - exists (m' ++ cs), mn', sh'. simpl. now rewrite app_assoc.
  - exists m', (mn' ++ cs), sh'. simpl. now rewrite app_assoc.
  - exists m', mn', (sh' ++ cs). simpl. now rewrite app_assoc.
Qed.

Ltac grown_step :=
  first
    [ apply invariant_ret
    | apply invariant_raise
    | apply invariant_lift_res
    | apply invariant_gets
    | apply invariant_modify; intros ? H; exact H
    | apply extend_clauses_grown; auto
    | apply invariant_for_each; intros
    | apply invariant_bind; [ | intros ]
    | match goal with
      | |- invariant _ (if ?c then _ else _) => destruct c
      | |- invariant _ (match ?x with _ => _ end) => destruct x
      | |- invariant _ (let _ := _ in _) => cbv zeta
      end ].

Lemma filter_stages_grown (e : Env) (m mn sh : list pyval) :
  invariant (grown_from m mn sh) (filter_stages e).
Proof.
  unfold filter_stages.
  apply invariant_bind; [|intros _].
  { unfold apply_section_filter. repeat grown_step. }
  apply invariant_bind; [|intros _].
  { unfold apply_company_filter, append_clause. repeat grown_step. }
  apply invariant_bind; [|intros _].
  { unfold apply_time_limit_filter, append_clause. repeat grown_step. }
  apply invariant_bind; [|intros _].
  { unfold apply_products_filter, apply_product_filter, append_clause.
    repeat grown_step. }
  unfold apply_request_filter, extend_post_filter, append_clause.
  repeat grown_step.
Qed.

Lemma apply_filters_split (e : Env) (s : SearchQuery) :
  apply_filters e s = bind (filter_stages e) (fun _ => set_minimum_should_match) s.
Proof.
  unfold apply_filters, filter_stages. cbv [bind].
  destruct (apply_section_filter e s) as [[[]|x] s1]; [|reflexivity].
  destruct (apply_company_filter e s1) as [[[]|x] s2]; [|reflexivity].
  destruct (apply_time_limit_filter e s2) as [[[]|x] s3]; [|reflexivity].
  destruct (apply_products_filter e s3) as [[[]|x] s4]; [|reflexivity].
  destruct (apply_request_filter e s4) as [[[]|x] s5]; reflexivity.
Qed.

Lemma set_minimum_should_match_bare (s : SearchQuery) (m mn sh : list pyval) :
  query s = bool_query m mn sh [] ->
  set_minimum_should_match s =
  (Ok tt,
   match sh with
   | [] => s
   | _ => set_query (bool_query m mn sh [("minimum_should_match"%string, VInt 1)]) s
   end).
Proof.
  intros Hq. unfold set_minimum_should_match. cbv [bind gets lift_res ret modify].
  rewrite Hq. destruct sh; reflexivity.
Qed.

(** X18. The filters only add clauses.  On a context whose query has the
    three lists of clauses and nothing else, [apply_filters], when it returns,
    leaves a query with the clauses it found, in their place, others after
    them at most, and [minimum_should_match], set to 1, exactly when there is
    a [should] clause.  (The section filter is the [section_filters]
    service's, taken to append the clauses it is configured with.) *)
Theorem filters_only_add_clauses
    (e : Env) (s s' : SearchQuery) (m mn sh : list pyval) :
  query s = bool_query m mn sh [] ->
  apply_filters e s = (Ok tt, s') ->
  exists m' mn' sh',
    query s' =
    bool_query (m ++ m') (mn ++ mn') (sh ++ sh')
      match sh ++ sh' with
      | [] => []
      | _ => [("minimum_should_match"%string, VInt 1)]
      end.
Proof.
  intros Hq Hrun. rewrite apply_filters_split in Hrun.
  destruct (bind_ok_inv _ _ _ _ _ Hrun) as ([] & s1 & H1 & H2).
  assert (Hg : grown_from m mn sh s1).
  { refine (invariant_run (grown_from m mn sh) _ s s1 (Ok tt)
              (filter_stages_grown e m mn sh) _ H1).
    exists [], [], []. now rewrite !app_nil_r. }
  destruct Hg as (m' & mn' & sh' & Hq1).
  rewrite (set_minimum_should_match_bare s1 _ _ _ Hq1) in H2.
  injection H2 as <-. exists m', mn', sh'.
  destruct (sh ++ sh'); [exact Hq1|reflexivity].
Qed.

(** X18 at work: the query of an entitled reader's search. *)
Lemma filters_only_add_clauses_witness :
  let e := Fixture.deployment (Some Fixture.reader) [Fixture.P1; Fixture.P2]
             Fixture.no_hits Fixture.empty_store in
  exists s s' m' mn' sh',
    derive_context e (Fixture.request [("q"%string, VStr "election")]) VNone
      SearchQuery_init = (Ok tt, s) /\
    apply_filters e s = (Ok tt, s') /\
    query s' =
    bool_query ([items_clause] ++ m') ([composite_clause; nextversion_clause] ++ mn')
      ([] ++ sh')
      match [] ++ sh' with
      | [] => []
      | _ => [("minimum_should_match"%string, VInt 1)]
      end.
Proof.
  intros e.
  assert (Hctx : exists s s',
             derive_context e (Fixture.request [("q"%string, VStr "election")]) VNone
               SearchQuery_init = (Ok tt, s) /\
             apply_filters e s = (Ok tt, s') /\
             query s = bool_query [items_clause] [composite_clause; nextversion_clause] [] []).
  { eexists _, _. split; [vm_compute; reflexivity|].
    split; vm_compute; reflexivity. }
  destruct Hctx as (s & s' & H1 & H2 & Hq).
  destruct (filters_only_add_clauses e s s' _ _ _ Hq H2) as (m' & mn' & sh' & H).
  exists s, s', m', mn', sh'. auto.
Defined.

(** ** The clauses of the products *)

Lemma should_step (s : SearchQuery) (b : bool) (c : pyval)
    (m mn sh : list pyval) (rest : dict) :
  query s = bool_query m mn sh rest ->
  (if b then append_clause "should" c else ret tt) s =
  (Ok tt, set_query (bool_query m mn (sh ++ if b then [c] else []) rest) s).
Proof.
  intros Hq. destruct b.
  - unfold append_clause. now apply extend_clauses_should.
  - rewrite app_nil_r, <- Hq, set_query_same. reflexivity.
Qed.

Lemma stored_query_clauses_one (e : Env) (rp : pyval) (p : dict) :
  stored_query_clauses e rp [p] =
  if product_selected rp p && truthy (dict_get p "query")
  then [query_string e (dict_get p "query") (VStr "AND")] else [].
Proof.
  unfold stored_query_clauses. cbn [filter].
  destruct (product_selected rp p && truthy (dict_get p "query")); reflexivity.
Qed.

Lemma apply_product_filter_run (e : Env) (s : SearchQuery) (p : dict)
    (m mn sh : list pyval) (rest : dict) :
  query s = bool_query m mn sh rest ->
  (truthy (dict_get (args s) "requested_products") = true ->
   (exists l, dict_get (args s) "requested_products" = VList l) /\
   dict_find "_id" p <> None) ->
  apply_product_filter e p s =
  (Ok tt,
   set_query
     (bool_query m mn
        (sh ++ stored_query_clauses e (dict_get (args s) "requested_products") [p]) rest)
     s).
Proof.
  intros Hq Hrp. rewrite stored_query_clauses_one.
  unfold apply_product_filter, product_selected. cbv [bind gets lift_res].
  destruct (truthy (dict_get (args s) "requested_products")) eqn:Et.
  - destruct (Hrp eq_refl) as ((l & Hl) & Hid).
    assert (Hpid : dict_item p "_id" = Ok (dict_get p "_id")).
    { unfold dict_item, dict_get. destruct (dict_find "_id" p); [reflexivity|].
      now contradiction Hid. }
    assert (Hitem : dict_item (args s) "requested_products" = Ok (VList l)).
    { apply dict_item_of_get; [exact Hl|]. rewrite <- Hl. exact Et. }
    rewrite Hpid, Hitem, Hl. cbv [py_contains ret]. cbv beta iota.
    destruct (list_contains l (dict_get p "_id")); cbv [negb andb]; cbv beta iota.
    + exact (should_step s _ _ m mn sh rest Hq).
    + rewrite app_nil_r, <- Hq, set_query_same. reflexivity.
  - cbv [ret]. cbv beta iota. cbv [andb].
    exact (should_step s _ _ m mn sh rest Hq).
Qed.

Lemma stored_query_clauses_cons (e : Env) (rp : pyval) (p : dict) (ps : list dict) :
  stored_query_clauses e rp (p :: ps) =
  stored_query_clauses e rp [p] ++ stored_query_clauses e rp ps.
Proof.
  unfold stored_query_clauses. simpl.
  destruct (product_selected rp p && truthy (dict_get p "query")); reflexivity.
Qed.

Lemma apply_product_filters_run (e : Env) (ps : list dict) (s : SearchQuery)
    (m mn sh : list pyval) (rest : dict) :
  query s = bool_query m mn sh rest ->
  (truthy (dict_get (args s) "requested_products") = true ->
   (exists l, dict_get (args s) "requested_products" = VList l) /\
   forall p, In p ps -> dict_find "_id" p <> None) ->
  for_each ps (apply_product_filter e) s =
  (Ok tt,
   set_query
     (bool_query m mn
        (sh ++ stored_query_clauses e (dict_get (args s) "requested_products") ps) rest)
     s).
Proof.
  revert s sh. induction ps as [|p ps IH]; intros s sh Hq Hrp.
  - simpl. unfold stored_query_clauses. simpl. rewrite app_nil_r, <- Hq.
    now rewrite set_query_same.
  - change (for_each (p :: ps) (apply_product_filter e))
      with (bind (apply_product_filter e p)
                 (fun _ => for_each ps (apply_product_filter e))).
    rewrite (bind_ok _ _ s _ tt (apply_product_filter_run e s p m mn sh rest Hq
               (fun Ht => conj (proj1 (Hrp Ht)) (proj2 (Hrp Ht) p (or_introl eq_refl))))).
    rewrite (IH _ (sh ++ stored_query_clauses e
                           (dict_get (args s) "requested_products") [p])).
    + rewrite (stored_query_clauses_cons e _ p ps), app_assoc. reflexivity.
    + reflexivity.
    + intros Ht. destruct (Hrp Ht) as [Hl Hid]. split; [exact Hl|].
      intros p' Hin. apply Hid. now right.
Qed.

(** X19. The clauses of the products.  Unless the requester is an
    administrator who names neither navigation nor product, and for a
    [requested_products] argument that is absent or a list,
    [apply_products_filter] adds to [should] one clause with the codes of all
    the products that have one, then the stored query of each product that
    has one and, when products are requested, is among them: the codes are
    not narrowed by the requested products. *)
Theorem products_filter_clauses
    (e : Env) (s : SearchQuery) (m mn sh : list pyval) (rest : dict) :
  query s = bool_query m mn sh rest ->
  search_is_admin s && Nat.eqb (List.length (navigation_ids s)) 0
    && negb (truthy (dict_get (args s) "product")) = false ->
  (truthy (dict_get (args s) "requested_products") = true ->
   (exists l, dict_get (args s) "requested_products" = VList l) /\
   forall p, In p (products s) -> dict_find "_id" p <> None) ->
  apply_products_filter e s =
  (Ok tt,
   set_query
     (bool_query m mn
        (sh ++ code_clauses (products s)
            ++ stored_query_clauses e (dict_get (args s) "requested_products") (products s))
        rest)
     s).
Proof.
  intros Hq Hdef Hrp. unfold apply_products_filter. cbv [bind gets].
  rewrite Hdef. cbv zeta. unfold code_clauses.
  destruct (map (fun p => dict_get p "sd_product_id")
              (filter (fun p => truthy (dict_get p "sd_product_id")) (products s)))
    as [|c cs] eqn:Ecodes.
  - simpl. rewrite (apply_product_filters_run e (products s) s m mn sh rest Hq Hrp).
    reflexivity.
  - change (truthy (VList (c :: cs))) with true. cbv iota.
    unfold append_clause.
    set (c1 := VDict [("terms"%string,
                       VDict [("products.code"%string, VList (c :: cs))])]).
    rewrite (extend_clauses_should _ s m mn sh rest Hq). cbv beta iota.
    rewrite (apply_product_filters_run e (products s)
               (set_query (bool_query m mn (sh ++ [c1]) rest) s)
               m mn (sh ++ [c1]) rest eq_refl Hrp).
    rewrite <- app_assoc. reflexivity.
Qed.

(** X19 at work: a reader entitled to P1, which has a code, and P2, which has
    a stored query, asks for P2 alone. *)
Lemma products_filter_clauses_witness :
  let e := Fixture.deployment (Some Fixture.reader) [Fixture.P1; Fixture.P2]
             Fixture.no_hits Fixture.empty_store in
  exists s s',
    derive_context e
      (Fixture.request [("requested_products"%string, VList [VStr "p2"])]) VNone
      SearchQuery_init = (Ok tt, s) /\
    apply_products_filter e s = (Ok tt, s') /\
    clauses_of "should" (query s') =
    [VDict [("terms"%string, VDict [("products.code"%string, VList [VStr "C1"])])];
     query_string e (VStr "category:sports") (VStr "AND")].
Proof.
  intros e.
  assert (Hctx : exists s,
             derive_context e
               (Fixture.request [("requested_products"%string, VList [VStr "p2"])]) VNone
               SearchQuery_init = (Ok tt, s) /\
             query s = bool_query [items_clause] [composite_clause; nextversion_clause] [] [] /\
             search_is_admin s = false /\
             dict_get (args s) "requested_products" = VList [VStr "p2"] /\
             products s = [Fixture.P1; Fixture.P2]).
  { eexists. split; [vm_compute; reflexivity|]. repeat split. }
  destruct Hctx as (s & H1 & Hq & Ha & Hrp & Hps).
  eexists s, _. split; [exact H1|]. split.
  - apply (products_filter_clauses e s _ _ _ _ Hq).
    + now rewrite Ha.
    + intros _. split; [now exists [VStr "p2"]|].
      rewrite Hps. intros p [<-|[<-|[]]]; discriminate.
  - rewrite Hrp, Hps. reflexivity.
Defined.

(** ** Aggregations *)

Lemma apply_filters_keeps_aggs (e : Env) : preserves source_aggs (apply_filters e).
Proof.
  unfold apply_filters, apply_section_filter, apply_company_filter,
    apply_time_limit_filter, apply_products_filter, apply_product_filter,
    apply_request_filter, set_minimum_should_match, extend_post_filter, append_clause.
  repeat first
    [ apply preserves_modify; intros;
      (reflexivity
       || (unfold source_aggs, set_source_item; simpl;
           apply dict_find_set_other; discriminate))
    | preserves_step ].
Qed.

Lemma full_source_aggs (e : Env) (s : SearchQuery) (from : Z) :
  dict_find "aggs" (full_source e s from) =
  if (from =? 0) && truthy (dict_get_default (args s) "aggs" (VBool true))
  then Some (get_aggregations e)
  else dict_find "aggs" (source s).
Proof.
  unfold full_source. simpl truthy. rewrite Bool.negb_involutive.
  destruct ((from =? 0) && truthy (dict_get_default (args s) "aggs" (VBool true)));
    destruct (truthy (highlight s));
    unfold paged_source;
    repeat first [ rewrite dict_find_set_same | rewrite dict_find_set_other by discriminate ];
    reflexivity.
Qed.

(** X20. Aggregations are for the first page.  A context that compiles
    from a source without aggregations has in its source the aggregations of
    the deployment when its offset is 0 and its [aggs] argument, which
    defaults to true, is not falsy, and none otherwise. *)
Theorem aggregations_are_for_the_first_page (e : Env) (s s3 : SearchQuery) :
  compile e s = (Ok tt, s3) ->
  source_aggs s = None ->
  exists from,
    offset_of s = Ok from /\
    source_aggs s3 =
    if (from =? 0) && truthy (dict_get_default (args s) "aggs" (VBool true))
    then Some (get_aggregations e)
    else None.
Proof.
  intros Hc Hno. destruct (compile_inv e s s3 Hc) as (s2 & _ & Hf & Hg).
  pose proof (preserves_run source_aggs _ _ _ _ (apply_filters_keeps_aggs e) Hf) as Hag.
  pose proof (preserves_run args_and_req _ _ _ _ (apply_filters_keeps_args e) Hf) as Har.
  unfold args_and_req in Har. injection Har as Har _.
  destruct (gen_source_from_search_ok e s2 s3 Hg) as (from & Ho & _ & ->).
  exists from. split.
  - unfold offset_of in *. now rewrite <- Har.
  - unfold source_aggs in *. simpl source. rewrite full_source_aggs.
    rewrite Har, Hag, Hno. reflexivity.
Qed.

(** X20 at work: the second page of a reader's search. *)
Lemma aggregations_are_for_the_first_page_witness :
  let e := Fixture.deployment (Some Fixture.reader) [Fixture.P1; Fixture.P2]
             Fixture.no_hits Fixture.empty_store in
  exists s s3,
    derive_context e (Fixture.request [("from"%string, VStr "25")]) VNone
      SearchQuery_init = (Ok tt, s) /\
    compile e s = (Ok tt, s3) /\
    source_aggs s3 = None.
Proof.
  intros e.
  assert (Hctx : exists s s3,
             derive_context e (Fixture.request [("from"%string, VStr "25")]) VNone
               SearchQuery_init = (Ok tt, s) /\
             compile e s = (Ok tt, s3) /\
             source_aggs s = None /\
             offset_of s = Ok 25).
  { eexists _, _. split; [vm_compute; reflexivity|].
    split; [vm_compute; reflexivity|]. split; reflexivity. }
  destruct Hctx as (s & s3 & H1 & H2 & Hno & Ho).
  exists s, s3. split; [exact H1|]. split; [exact H2|].
  destruct (aggregations_are_for_the_first_page e s s3 H2 Hno) as (from & Hf & Hag).
  rewrite Ho in Hf. injection Hf as <-. exact Hag.
Defined.

(** ** Filtering after the query *)

Lemma extend_clauses_must (cs : list pyval) (s : SearchQuery)
    (m mn sh : list pyval) (rest : dict) :
  query s = bool_query m mn sh rest ->
  extend_clauses "must" cs s = (Ok tt, set_query (bool_query (m ++ cs) mn sh rest) s).
Proof. intros Hq. unfold extend_clauses. rewrite Hq. reflexivity. Qed.

Lemma bind_snd_preserved {T A B : Type} (f : SearchQuery -> T)
    (m : M SearchQuery A) (k : A -> M SearchQuery B) (s : SearchQuery) :
  (forall a, preserves f (k a)) ->
  f (snd (bind m k s)) = f (snd (m s)).
Proof.
  intros Hk. unfold bind. destruct (m s) as [[a|x] s1]; simpl; [apply Hk|reflexivity].
Qed.

(** X21. With [FILTER_BY_POST_FILTER] on, the structured filter and the
    dates of the request stay out of the query: whether it returns or raises,
    [apply_request_filter] leaves the query it found with, at most, the
    clause of the [q] argument added to [must]. *)
Theorem post_filtering_keeps_filters_out_of_the_query
    (e : Env) (s : SearchQuery) (m mn sh : list pyval) (rest : dict) :
  truthy (FILTER_BY_POST_FILTER e) = true ->
  query s = bool_query m mn sh rest ->
  query (snd (apply_request_filter e s)) =
  bool_query
    (m ++ if truthy (dict_get (args s) "q")
          then [query_string e (dict_get (args s) "q")
                  (py_or (dict_get (args s) "default_operator") (VStr "AND"))]
          else [])
    mn sh rest.
Proof.
  intros Hpf Hq. unfold apply_request_filter. rewrite Hpf. cbn [negb].
  unfold bind at 1, gets at 1.
  rewrite bind_snd_preserved.
  - destruct (truthy (dict_get (args s) "q")).
    + unfold append_clause. now rewrite (extend_clauses_must _ s m mn sh rest Hq).
    + simpl. now rewrite app_nil_r.
  - intros _. unfold extend_post_filter. preserves_tac.
Qed.

(** X21 at work: a search for a word, filtered on the genre. *)
Lemma post_filtering_keeps_filters_out_of_the_query_witness :
  let e := with_FILTER_BY_POST_FILTER (VBool true)
             (Fixture.deployment (Some Fixture.reader) [Fixture.P1; Fixture.P2]
                Fixture.no_hits Fixture.empty_store) in
  let r := Fixture.request
             [("q"%string, VStr "election");
              ("filter"%string, VDict [("genre"%string, VList [VStr "Sports"])])] in
  exists s,
    derive_context e r VNone SearchQuery_init = (Ok tt, s) /\
    clauses_of "must" (query (snd (apply_request_filter e s))) =
    [items_clause; query_string e (VStr "election") (VStr "AND")] /\
    dict_find "post_filter" (source (snd (apply_request_filter e s))) =
    Some (VDict [("bool"%string,
                  VDict [("must"%string,
                          VList [VDict [("terms"%string,
                                         VDict [("genre.name"%string,
                                                 VList [VStr "Sports"])])]])])]).
Proof.
  intros e r.
  assert (Hctx : exists s,
             derive_context e r VNone SearchQuery_init = (Ok tt, s) /\
             query s = bool_query [items_clause] [composite_clause; nextversion_clause] [] [] /\
             dict_get (args s) "q" = VStr "election" /\
             dict_get (args s) "default_operator" = VNone /\
             dict_find "post_filter" (source (snd (apply_request_filter e s))) =
             Some (VDict [("bool"%string,
                           VDict [("must"%string,
                                   VList [VDict [("terms"%string,
                                                  VDict [("genre.name"%string,
                                                          VList [VStr "Sports"])])]])])])).
  { eexists. split; [vm_compute; reflexivity|].
    repeat split; vm_compute; reflexivity. }
  destruct Hctx as (s & H1 & Hq & Hqa & Hop & Hpf).
  exists s. split; [exact H1|]. split; [|exact Hpf].
  rewrite (post_filtering_keeps_filters_out_of_the_query e s _ _ _ _ eq_refl Hq).
  rewrite Hqa, Hop. reflexivity.
Defined.

(** ** What the second pass keeps *)

Lemma full_source_other (e : Env) (s : SearchQuery) (from : Z) (k : string) :
  ~ In k ["query"; "sort"; "size"; "from"; "aggs"; "highlight"]%string ->
  dict_find k (full_source e s from) = dict_find k (source s).
Proof.
  intros Hk.
  assert (H1 : k <> "query"%string) by (intros ->; apply Hk; simpl; tauto).
  assert (H2 : k <> "sort"%string) by (intros ->; apply Hk; simpl; tauto).
  assert (H3 : k <> "size"%string) by (intros ->; apply Hk; simpl; tauto).
  assert (H4 : k <> "from"%string) by (intros ->; apply Hk; simpl; tauto).
  assert (H5 : k <> "aggs"%string) by (intros ->; apply Hk; simpl; tauto).
  assert (H6 : k <> "highlight"%string) by (intros ->; apply Hk; simpl; tauto).
  unfold full_source.
  destruct (truthy (highlight s));
    destruct (negb (truthy (VInt from)) &&
              truthy (dict_get_default (args s) "aggs" (VBool true)));
    unfold paged_source;
    repeat (rewrite dict_find_set_other by assumption);
    reflexivity.
Qed.

(** X22. The second pass of an all-versions search keeps the rest of the
    compiled source: the request for the last versions has, under every key
    but those [gen_source_from_search] writes, what the source compiled from
    the caller's arguments has, a [post_filter] among them, which so applies
    to the last versions too. *)
Theorem second_pass_keeps_the_rest_of_the_source
    (e : Env) (r : option ParsedRequest) (lk : pyval) (w : World) (s s3 : SearchQuery)
    (ids : list pyval) (k : string) :
  all_versions_requested r = true ->
  derive_context e r lk SearchQuery_init = (Ok tt, s) ->
  compile e s = (Ok tt, s3) ->
  head_ids e (first_pass_docs e s3) = Ok ids ->
  ~ In k ["query"; "sort"; "size"; "from"; "aggs"; "highlight"]%string ->
  dict_find k (source (search (snd (get e r lk w)))) = dict_find k (source s3).
Proof.
  intros Hall Hctx Hc Hids Hk.
  destruct (all_versions_run e r lk w s s3 ids Hall Hctx Hc Hids)
    as (from & s6 & w' & _ & Hs6 & Hget & Hsearch & _).
  rewrite Hget. simpl snd. rewrite Hsearch, Hs6.
  unfold second_pass_context. simpl source.
  rewrite (full_source_other e _ from k Hk). simpl source.
  unfold first_pass_context, set_source_item. simpl source.
  rewrite !dict_find_set_other; [reflexivity| |];
    intros ->; apply Hk; simpl; tauto.
Qed.

(** X22 at work: an all-versions search filtered on the genre, in a
    deployment that filters after the query. *)
Lemma second_pass_keeps_the_rest_of_the_source_witness :
  let e := with_FILTER_BY_POST_FILTER (VBool true)
             (Fixture.deployment (Some Fixture.reader) [Fixture.P1; Fixture.P2]
                Fixture.no_hits Fixture.empty_store) in
  let r := Fixture.request
             [("all_versions"%string, VStr "1");
              ("filter"%string, VDict [("genre"%string, VList [VStr "Sports"])])] in
  dict_find "post_filter" (source (search (snd (get e r VNone Fixture.idle)))) =
  Some (VDict [("bool"%string,
                VDict [("must"%string,
                        VList [VDict [("terms"%string,
                                       VDict [("genre.name"%string,
                                               VList [VStr "Sports"])])]])])]).
Proof.
  intros e r.
  assert (Hctx : exists s s3,
             derive_context e r VNone SearchQuery_init = (Ok tt, s) /\
             compile e s = (Ok tt, s3) /\
             head_ids e (first_pass_docs e s3) = Ok [] /\
             dict_find "post_filter" (source s3) =
             Some (VDict [("bool"%string,
                           VDict [("must"%string,
                                   VList [VDict [("terms"%string,
                                                  VDict [("genre.name"%string,
                                                          VList [VStr "Sports"])])]])])])).
  { eexists _, _. split; [vm_compute; reflexivity|].
    split; [vm_compute; reflexivity|]. split; vm_compute; reflexivity. }
  destruct Hctx as (s & s3 & H1 & H2 & H3 & H4).
  rewrite (second_pass_keeps_the_rest_of_the_source e r VNone Fixture.idle s s3 []
             "post_filter" eq_refl H1 H2 H3).
  - exact H4.
  - intros [H|[H|[H|[H|[H|[H|[]]]]]]]; discriminate.
Defined.

(** ** The attribute nothing reads *)

Lemma ignores_ret {A : Type} (a : A) : ignores_requested_products (ret a).
Proof. intros l s. reflexivity. Qed.

Lemma ignores_raise {A : Type} (x : exn) :
  ignores_requested_products (@raise SearchQuery A x).
Proof. intros l s. reflexivity. Qed.

Lemma ignores_lift_res {A : Type} (r : Res A) :
  ignores_requested_products (@lift_res SearchQuery A r).
Proof. intros l s. reflexivity. Qed.

Lemma ignores_gets {A : Type} (f : SearchQuery -> A) :
  (forall l s, f (set_requested_products l s) = f s) ->
  ignores_requested_products (gets f).
Proof. intros H l s. unfold gets. simpl. now rewrite H. Qed.

Lemma ignores_modify (h : SearchQuery -> SearchQuery) :
  (forall l s, h (set_requested_products l s) = set_requested_products l (h s)) ->
  ignores_requested_products (modify h).
Proof. intros H l s. unfold modify. simpl. now rewrite H. Qed.

Lemma ignores_bind {A B : Type} (m : M SearchQuery A) (k : A -> M SearchQuery B) :
  ignores_requested_products m ->
  (forall a, ignores_requested_products (k a)) ->
  ignores_requested_products (bind m k).
Proof.
  intros Hm Hk l s. unfold bind. rewrite (Hm l s).
  destruct (m s) as [[a|x] s1]; simpl; [apply Hk|reflexivity].
Qed.

Lemma ignores_whole {B : Type} (k : SearchQuery -> M SearchQuery B) :
  (forall s0, ignores_requested_products (k s0)) ->
  (forall l s, k (set_requested_products l s) = k s) ->
  ignores_requested_products (bind (gets (fun s => s)) k).
Proof.
  intros Hk Heq l s. unfold bind, gets. rewrite Heq. apply Hk.
Qed.

Lemma ignores_for_each {A : Type} (xs : list A) (body : A -> M SearchQuery unit) :
  (forall a, ignores_requested_products (body a)) ->
  ignores_requested_products (for_each xs body).
Proof.
  intros Hb. induction xs as [|a xs IH]; simpl.
  - apply ignores_ret.
  - apply ignores_bind; auto.
Qed.

Lemma ignores_extend_clauses (key : string) (cs : list pyval) :
  ignores_requested_products (extend_clauses key cs).
Proof.
  intros l s. unfold extend_clauses.
  change (query (set_requested_products l s)) with (query s).
  destruct (bool_extend key cs (query s)); reflexivity.
Qed.

Ltac ignores_step :=
  first
    [ apply ignores_ret
    | apply ignores_raise
    | apply ignores_lift_res
    | apply ignores_gets; intros; reflexivity
    | apply ignores_modify; intros; reflexivity
    | apply ignores_extend_clauses
    | apply ignores_for_each; intros
    | apply ignores_whole; [intros | intros; reflexivity]
    | apply ignores_bind; [ | intros ]
    | match goal with
      | |- ignores_requested_products (if ?c then _ else _) => destruct c
      | |- ignores_requested_products (match ?x with _ => _ end) => destruct x
      | |- ignores_requested_products (let _ := _ in _) => cbv zeta
      end ].

Lemma validate_request_ignores : ignores_requested_products validate_request.
Proof. unfold validate_request. repeat ignores_step. Qed.

Lemma apply_filters_ignores (e : Env) : ignores_requested_products (apply_filters e).
Proof.
  unfold apply_filters.
  apply ignores_bind; [|intros _].
  { unfold apply_section_filter. repeat ignores_step. }
  apply ignores_bind; [|intros _].
  { unfold apply_company_filter, append_clause. repeat ignores_step. }
  apply ignores_bind; [|intros _].
  { unfold apply_time_limit_filter, append_clause. repeat ignores_step. }
  apply ignores_bind; [|intros _].
  { unfold apply_products_filter, apply_product_filter, append_clause.
    repeat ignores_step. }
  apply ignores_bind; [|intros _].
  { unfold apply_request_filter, extend_post_filter, append_clause.
    repeat ignores_step. }
  unfold set_minimum_should_match. repeat ignores_step.
Qed.

Lemma gen_source_from_search_ignores (e : Env) :
  ignores_requested_products (gen_source_from_search e).
Proof. unfold gen_source_from_search. repeat ignores_step. Qed.

(** X23. The parsed list of requested products is not read.  Validation,
    the filters and source generation end the same way on two contexts that
    differ by [search.requested_products], leaving contexts that differ by
    that attribute only, and the request sent for them is the same: what
    narrows a search is the [requested_products] argument as the client gave
    it. *)
Theorem requested_products_attribute_is_not_read
    (e : Env) (l : list pyval) (s : SearchQuery) :
  compile e (set_requested_products l s) =
  (fst (compile e s), set_requested_products l (snd (compile e s))) /\
  request_of e (set_requested_products l (snd (compile e s))) =
  request_of e (snd (compile e s)).
Proof.
  split; [|reflexivity].
  revert l s. change (ignores_requested_products (compile e)). unfold compile.
  apply ignores_bind; [apply validate_request_ignores|intros _].
  apply ignores_bind; [apply apply_filters_ignores|intros _].
  apply gen_source_from_search_ignores.
Qed.
